(** * Posto Natureza price form: state store, photo validation and blob store

    A shallow embedding of the TypeScript sources
      - [src/lib/localStorage.ts]   (application state store),
      - [src/components/PriceForm]  (the update made after a successful send),
      - [src/lib/imageMetadata]     (EXIF extraction and the same-day policy),
      - [src/lib/imagesDB.ts]       (hybrid blob store and the resize step),
    together with the properties the specification states about them.

    Conventions.
    - A JavaScript value that can sit in the persisted aggregate is a
      [jsval]; [undefined] is [None : option jsval].
    - A computation either returns, throws, or never returns: [outcome].
    - Objects used as dictionaries are [gmap string jsval]; the spread
      [{...a, ...b}] is the left-biased union [b ∪ a].
    - The clock is an explicit argument ([now]). *)

From Stdlib Require Import QArith Qround Qminmax Qabs Qpower Lqa Strings.Ascii Strings.Byte.
From stdpp Require Import gmap strings list fin_maps pretty.

#[local] Set Warnings "-register-all".
#[local] Open Scope Z_scope.

(** ** JavaScript values and control flow *)

Module Js.

Inductive error :=
| SyntaxError
| TypeError
| RangeError
| QuotaExceededError
| Error (msg : string).

(** What running a piece of code ends in. [Hang]: the code never hands
    control back (a loop that does not end). *)
Inductive outcome (A : Type) :=
| Ret (a : A)
| Throw (e : error)
| Hang.
Arguments Ret {A} a.
Arguments Throw {A} e.
Arguments Hang {A}.

#[global] Instance outcome_bind : MBind outcome := λ A B f m,
  match m with
  | Ret a => f a
  | Throw e => Throw e
  | Hang => Hang
  end.

#[global] Instance outcome_fmap : FMap outcome := λ A B f m,
  match m with
  | Ret a => Ret (f a)
  | Throw e => Throw e
  | Hang => Hang
  end.

(** [try { body } catch (e) { handler e }] *)
Definition try_catch {A} (body : outcome A) (handler : error → outcome A) : outcome A :=
  match body with
  | Throw e => handler e
  | other => other
  end.

(** Numbers are IEEE doubles. A finite double is written as the rational
    it denotes. *)
Inductive number :=
| NaN
| PosInf
| NegInf
| Finite (q : Q).

Inductive jsval :=
| JNull
| JBool (b : bool)
| JNum (q : Q)
| JStr (s : string)
| JArr (l : list jsval)
| JObj (o : gmap string jsval).

(** ToBoolean *)
Definition truthy (v : option jsval) : bool :=
  match v with
  | None | Some JNull => false
  | Some (JBool b) => b
  | Some (JNum q) => negb (Qeq_bool q 0)
  | Some (JStr s) => negb (String.eqb s "")
  | Some (JArr _) | Some (JObj _) => true
  end.

(** [a || b] *)
Definition or_else (a b : option jsval) : option jsval :=
  if truthy a then a else b.

Definition coalesce (a : option jsval) (b : jsval) : jsval :=
  match a with None | Some JNull => b | Some v => v end.

(** A surrogate half, written as the three bytes of its number. *)
Definition surrogate (u : N) : string :=
  String (ascii_of_N (224 + u / 4096))
    (String (ascii_of_N (128 + (u / 64) mod 64))
       (String (ascii_of_N (128 + u mod 64)) EmptyString)).

(** The UTF-16 code units of a text held as UTF-8 bytes, each as a
    string of its own: a character of one to three bytes is one unit,
    one of four bytes is the two surrogate halves of its code point. A
    byte that begins no character is taken as a unit. *)
Fixpoint code_units (bytes : list ascii) : list string :=
  match bytes with
  | [] => []
  | b :: rest =>
      let n := N_of_ascii b in
      if (n <? 192)%N then String b EmptyString :: code_units rest
      else if (n <? 224)%N then
        match rest with
        | c :: rest' => String b (String c EmptyString) :: code_units rest'
        | [] => [String b EmptyString]
        end
      else if (n <? 240)%N then
        match rest with
        | c :: d :: rest' =>
            String b (String c (String d EmptyString)) :: code_units rest'
        | _ => String b EmptyString :: code_units rest
        end
      else
        match rest with
        | c :: d :: e :: rest' =>
            let point :=
              ((n mod 8) * 262144 + (N_of_ascii c mod 64) * 4096
               + (N_of_ascii d mod 64) * 64 + N_of_ascii e mod 64)%N in
            let v := (point - 65536)%N in
            surrogate (55296 + v / 1024) :: surrogate (56320 + v mod 1024)
              :: code_units rest'
        | _ => String b EmptyString :: code_units rest
        end
  end.

(** What a string gives index by index: its UTF-16 code units. *)
Definition chars (s : string) : list jsval :=
  JStr <$> code_units (String.list_ascii_of_string s).

Definition indexed (l : list jsval) : gmap string jsval :=
  list_to_map (imap (λ i v, (pretty i, v)) l).

(** The own enumerable properties, which is what [{...v}] copies:
    nothing for [undefined], [null], booleans and numbers, the indices of
    an array or of a string. *)
Definition own_props (v : option jsval) : gmap string jsval :=
  match v with
  | Some (JObj o) => o
  | Some (JArr l) => indexed l
  | Some (JStr s) => indexed (chars s)
  | _ => ∅
  end.

(** [v[k]] on a value that is neither [null] nor [undefined]. It is only
    applied to the field names of the aggregate, none of which is
    [length] or an inherited property. *)
Definition get_prop (v : jsval) (k : string) : option jsval :=
  own_props (Some v) !! k.

(** The methods every plain object inherits from [Object.prototype];
    beside them it inherits the accessor [__proto__]. *)
Definition prototype_methods : list string :=
  ["constructor"; "hasOwnProperty"; "isPrototypeOf"; "propertyIsEnumerable";
   "toLocaleString"; "toString"; "valueOf"; "__defineGetter__"; "__defineSetter__";
   "__lookupGetter__"; "__lookupSetter__"].

(** [base.k]: a TypeError on [null] and [undefined]. *)
Definition member (base : option jsval) (k : string) : outcome (option jsval) :=
  match base with
  | None | Some JNull => Throw TypeError
  | Some v => Ret (get_prop v k)
  end.

(** [base?.k] *)
Definition opt_member (base : option jsval) (k : string) : option jsval :=
  match base with
  | None | Some JNull => None
  | Some v => get_prop v k
  end.

(** [x === q] against a numeric literal or argument. *)
Definition strict_eq_num (q : Q) (v : jsval) : bool :=
  match v with
  | JNum q' => Qeq_bool q q'
  | _ => false
  end.

(** The first double at which [i++] no longer changes [i]. *)
Definition two53 : Z := 9007199254740992.

(** The values [i] takes in [for (let i = 0; i <= bound; i++)] when the
    loop runs to its end. From [two53] on the increment is absorbed by
    rounding and the loop cannot reach its bound. The memory of the host
    is not part of the model: a loop that allocates at every step is
    taken to end whenever its counter reaches the bound, while a host
    aborts it earlier, and does not return, once its heap is used up. *)
Definition upto (bound : number) : outcome (list Z) :=
  match bound with
  | NaN | NegInf => Ret []
  | PosInf => Hang
  | Finite q =>
      if Qle_bool (inject_Z two53) q then Hang
      else Ret (seqZ 0 (Qfloor q + 1))
  end.

(** The values [i] takes in [for (let i = start; i <= stop; i++)] for
    whole numbers of magnitude below [two53], where [i++] is exact. *)
Definition from_to (start stop : Z) : list Z :=
  seqZ start (stop - start + 1).

(** ToNumber. On strings, arrays and objects it goes through the string
    grammar of the language, which is left to [coerce]. *)
Definition ToNumber (coerce : jsval → number) (v : jsval) : number :=
  match v with
  | JNum q => Finite q
  | JBool true => Finite 1
  | JBool false | JNull => Finite 0
  | other => coerce other
  end.

(** What the host gives and the sources do not define: the JSON reader
    on arbitrary text, and the number a string, array or object coerces
    to. *)
Class Platform := {
  JSON_parse_text : string → option jsval;
  coerce : jsval → number;
}.

End Js.
Import Js.

(** ** Web Storage *)

Module WebStorage.

(** A stored string. [Json v] is the text [JSON.stringify] writes for [v],
    which [JSON.parse] reads back as [v]; [Text s] is any other string. *)
Inductive sval :=
| Text (s : string)
| Json (v : jsval).

(** [fits] is the quota of the storage area: which contents it accepts. *)
Record Storage := {
  items : gmap string sval;
  fits : gmap string sval → bool;
}.

Definition getItem (st : Storage) (key : string) : option sval :=
  items st !! key.

(** [setItem] throws when the quota would be exceeded and then leaves the
    area as it was. *)
Definition setItem (st : Storage) (key : string) (v : sval) : outcome Storage :=
  let items' := <[key := v]> (items st) in
  if fits st items' then Ret {| items := items'; fits := fits st |}
  else Throw QuotaExceededError.

Definition removeItem (st : Storage) (key : string) : Storage :=
  {| items := delete key (items st); fits := fits st |}.

(** The page: both storage areas and the events dispatched on [window]. *)
Record World := {
  localStorage : Storage;
  sessionStorage : Storage;
  events : list string;
}.

Definition with_local (w : World) (st : Storage) : World :=
  {| localStorage := st; sessionStorage := sessionStorage w; events := events w |}.
Definition with_session (w : World) (st : Storage) : World :=
  {| localStorage := localStorage w; sessionStorage := st; events := events w |}.
Definition dispatchEvent (w : World) (name : string) : World :=
  {| localStorage := localStorage w; sessionStorage := sessionStorage w;
     events := events w ++ [name] |}.

(** The empty string is the only falsy string. *)
Definition falsy_text (raw : option sval) : bool :=
  match raw with
  | None | Some (Text "") => true
  | _ => false
  end.

Definition JSON_parse `{Platform} (raw : sval) : outcome jsval :=
  match raw with
  | Json v => Ret v
  | Text s =>
      match JSON_parse_text s with
      | Some v => Ret v
      | None => Throw SyntaxError
      end
  end.

End WebStorage.
Import WebStorage.

(** ** src/lib/localStorage.ts *)

Module LocalStorage.
Section store.
Context `{Platform}.

(** [AppState]. A value read from storage is only cast to the declared
    type, so every field holds whatever was stored. [meta] holds the
    fields of [meta] other than [names]; [manha] and [tarde] are the
    [stations] objects of the two periods. *)
Record AppState := {
  concorrentesCount : jsval;
  webhookUrl : option jsval;
  meta : gmap string jsval;
  names : gmap string jsval;
  manha : gmap string jsval;
  tarde : gmap string jsval;
}.

Inductive PeriodKey := Manha | Tarde.

Definition period_name (p : PeriodKey) : string :=
  match p with Manha => "manha" | Tarde => "tarde" end.

Definition stations (p : PeriodKey) (s : AppState) : gmap string jsval :=
  match p with Manha => manha s | Tarde => tarde s end.

Definition set_stations (p : PeriodKey) (m : gmap string jsval) (s : AppState) : AppState :=
  match p with
  | Manha => {| concorrentesCount := concorrentesCount s; webhookUrl := webhookUrl s;
                meta := meta s; names := names s; manha := m; tarde := tarde s |}
  | Tarde => {| concorrentesCount := concorrentesCount s; webhookUrl := webhookUrl s;
                meta := meta s; names := names s; manha := manha s; tarde := m |}
  end.

Definition set_names (m : gmap string jsval) (s : AppState) : AppState :=
  {| concorrentesCount := concorrentesCount s; webhookUrl := webhookUrl s;
     meta := meta s; names := m; manha := manha s; tarde := tarde s |}.

Definition set_meta (m : gmap string jsval) (s : AppState) : AppState :=
  {| concorrentesCount := concorrentesCount s; webhookUrl := webhookUrl s;
     meta := m; names := names s; manha := manha s; tarde := tarde s |}.

Definition set_count (c : jsval) (s : AppState) : AppState :=
  {| concorrentesCount := c; webhookUrl := webhookUrl s;
     meta := meta s; names := names s; manha := manha s; tarde := tarde s |}.

Definition set_webhookUrl (u : option jsval) (s : AppState) : AppState :=
  {| concorrentesCount := concorrentesCount s; webhookUrl := u;
     meta := meta s; names := names s; manha := manha s; tarde := tarde s |}.

Definition STORAGE_KEY : string := "price_registry_app_state".

Definition stationIdForIndex (index : Z) : string :=
  if index =? 0 then "reference" else "competitor_" +:+ pretty index.

Definition defaultNameForIndex (index : Z) : string :=
  if index =? 0 then "Posto Natureza: "
  else "Posto Concorrente " +:+ pretty index +:+ ": ".

Definition emptyPriceFields : jsval :=
  JObj (<["etanol" := JStr ""]> (<["gasolinaComum" := JStr ""]>
       (<["gasolinaAditivada" := JStr ""]> (<["dieselS10" := JStr ""]> ∅)))).

Definition emptyStation : jsval :=
  JObj (<["photoBase64" := JStr ""]> (<["noChange" := JBool false]>
       (<["prices" := JObj (<["vista" := emptyPriceFields]>
                           (<["prazo" := emptyPriceFields]> ∅))]> ∅))).

(** The loop body of [buildDefaultState], on the pair [(names, stations)]. *)
Definition default_step (acc : gmap string jsval * gmap string jsval) (i : Z)
  : gmap string jsval * gmap string jsval :=
  let id := stationIdForIndex i in
  (<[id := JStr (defaultNameForIndex i)]> acc.1, <[id := emptyStation]> acc.2).

Definition buildDefaultState (now : string) (concorrentes : jsval) : outcome AppState :=
  idx ← upto (ToNumber coerce concorrentes);
  let '(names, stations) := foldl default_step (∅, ∅) idx in
  Ret {| concorrentesCount := concorrentes;
          webhookUrl := None;
          meta := {[ "lastEdited" := JStr now ]};
          names := names;
          manha := stations;
          tarde := stations |}.

(** [parsed.periods?.[p]?.stations || {}] *)
Definition incoming (parsed : jsval) (p : PeriodKey) : gmap string jsval :=
  own_props
    (or_else (opt_member (opt_member (get_prop parsed "periods") (period_name p)) "stations")
             (Some (JObj ∅))).

Definition readAppState (now : string) (w : World) : outcome AppState :=
  try_catch
    (let raw := getItem (localStorage w) STORAGE_KEY in
     if falsy_text raw then buildDefaultState now (JNum 1)
     else
       parsed ← JSON_parse (default (Text "") raw);
       let concorrentes :=
         coalesce (opt_member (opt_member (Some parsed) "config") "concorrentesCount")
                  (JNum 1) in
       safe ← buildDefaultState now concorrentes;
       pmeta ← member (Some parsed) "meta";
       let names' :=
         own_props (or_else (opt_member pmeta "names") (Some (JObj ∅))) ∪ names safe in
       let meta' := delete "names" (own_props pmeta ∪ meta safe) in
       let manha' := incoming parsed Manha ∪ manha safe in
       let tarde' := incoming parsed Tarde ∪ tarde safe in
       Ret {| concorrentesCount := concorrentes;
               webhookUrl := opt_member (opt_member (Some parsed) "config") "webhookUrl";
               meta := meta';
               names := names';
               manha := manha';
               tarde := tarde' |})
    (λ _, buildDefaultState now (JNum 1)).

(** What [JSON.stringify] writes for a state: a field holding [undefined]
    is left out. *)
Definition to_json (s : AppState) : jsval :=
  let config :=
    match webhookUrl s with
    | Some u => <["webhookUrl" := u]> {[ "concorrentesCount" := concorrentesCount s ]}
    | None => {[ "concorrentesCount" := concorrentesCount s ]}
    end in
  JObj (<["config" := JObj config]>
       (<["meta" := JObj (<["names" := JObj (names s)]> (meta s))]>
       (<["periods" := JObj (<["manha" := JObj {[ "stations" := JObj (manha s) ]}]>
                            (<["tarde" := JObj {[ "stations" := JObj (tarde s) ]}]> ∅))]> ∅))).

Definition saveAppState (now : string) (state : AppState) (w : World) : outcome World :=
  let next := set_meta (<["lastEdited" := JStr now]> (meta state)) state in
  ls ← setItem (localStorage w) STORAGE_KEY (Json (to_json next));
  Ret (dispatchEvent (with_local w ls) "app-state-updated").

(** [if (!m[id]) m[id] = v] *)
Definition ensure (m : gmap string jsval) (id : string) (v : jsval) : gmap string jsval :=
  if truthy (m !! id) then m else <[id := v]> m.

(** The body of the first loop of [setConcorrentesCount]: fill what is
    missing. *)
Definition ensure_step (state : AppState) (i : Z) : AppState :=
  let id := stationIdForIndex i in
  {| concorrentesCount := concorrentesCount state;
     webhookUrl := webhookUrl state;
     meta := meta state;
     names := ensure (names state) id (JStr (defaultNameForIndex i));
     manha := ensure (manha state) id emptyStation;
     tarde := ensure (tarde state) id emptyStation |}.

(** The body of the second loop: remove the excess. *)
Definition remove_step (state : AppState) (i : Z) : AppState :=
  let id := stationIdForIndex i in
  {| concorrentesCount := concorrentesCount state;
     webhookUrl := webhookUrl state;
     meta := meta state;
     names := delete id (names state);
     manha := delete id (manha state);
     tarde := delete id (tarde state) |}.

(** [count] is a whole number, as the configuration dialog passes it. *)
Definition setConcorrentesCount (count : Z) (now : string) (w : World)
  : outcome (AppState * World) :=
  state ← readAppState now w;
  let current := concorrentesCount state in
  if strict_eq_num (inject_Z count) current then Ret (state, w)
  else
    idx ← upto (Finite (inject_Z count));
    let state1 := foldl ensure_step state idx in
    let state2 := foldl remove_step state1 (from_to (count + 1) 20) in
    let state3 := set_count (JNum (inject_Z count)) state2 in
    w' ← saveAppState now state3 w;
    Ret (state3, w').

Definition getVisibleStationIds (state : AppState) : outcome (list string) :=
  idx ← upto (ToNumber coerce (concorrentesCount state));
  Ret (stationIdForIndex <$> (idx : list Z)).

Definition DEFAULT_WEBHOOK_URL : string :=
  "https://criadordigital-n8n-editor.xpr5o6.easypanel.host/webhook/SiteFormulario".

(** [import.meta.env]: the three variables [getWebhookUrl] looks at. *)
Record Env := {
  NEXT_PUBLIC_WEBHOOK_URL : option jsval;
  REACT_APP_WEBHOOK_URL : option jsval;
  VITE_WEBHOOK_URL : option jsval;
}.

Definition is_string (v : option jsval) : bool :=
  match v with Some (JStr _) => true | _ => false end.

(** [getWebhookUrl], with the constant of [src/config/webhook.ts] and the
    environment as arguments. *)
Definition getWebhookUrl_from (internal : option string) (env : option Env)
    (now : string) (w : World) : outcome jsval :=
  if truthy (JStr <$> internal) then Ret (JStr (default "" internal))
  else
    let envUrl :=
      or_else (env ≫= NEXT_PUBLIC_WEBHOOK_URL)
        (or_else (env ≫= REACT_APP_WEBHOOK_URL) (env ≫= VITE_WEBHOOK_URL)) in
    if truthy envUrl && is_string envUrl then Ret (default JNull envUrl)
    else
      state ← readAppState now w;
      let stored := webhookUrl state in
      if truthy stored then Ret (default JNull stored)
      else Ret (JStr DEFAULT_WEBHOOK_URL).

End store.
End LocalStorage.

(** ** src/config/webhook.ts *)

Module Webhook.

Definition INTERNAL_WEBHOOK_URL : option string :=
  Some "https://criadordigital-n8n-webhook.xpr5o6.easypanel.host/webhook/SiteFormulario2".

End Webhook.

Module LocalStorageShipped.
Import LocalStorage.

Definition getWebhookUrl `{Platform} : option Env → string → World → outcome jsval :=
  getWebhookUrl_from Webhook.INTERNAL_WEBHOOK_URL.

End LocalStorageShipped.

(** ** What the browser does with bytes: base64 and [data:] URLs *)

Module Base64.

Definition alphabet : list ascii :=
  String.list_ascii_of_string
    "ABCDEFGHIJKLMNOPQRSTUVWXYZabcdefghijklmnopqrstuvwxyz0123456789+/".

Definition digit (n : N) : ascii := nth (N.to_nat n) alphabet "A"%char.

(** The position of a character in the alphabet. *)
Definition value (c : ascii) : option N :=
  let n := N_of_ascii c in
  if (65 <=? n)%N && (n <=? 90)%N then Some (n - 65)%N
  else if (97 <=? n)%N && (n <=? 122)%N then Some (n - 71)%N
  else if (48 <=? n)%N && (n <=? 57)%N then Some (n + 4)%N
  else if (n =? 43)%N then Some 62%N
  else if (n =? 47)%N then Some 63%N
  else None.

(** The encoding [FileReader.readAsDataURL] writes (RFC 4648, padded). *)
Fixpoint encode (bytes : list byte) : list ascii :=
  match bytes with
  | [] => []
  | [a] =>
      let n := (Byte.to_N a * 65536)%N in
      [digit (n / 262144); digit ((n / 4096) mod 64); "="%char; "="%char]
  | [a; b] =>
      let n := (Byte.to_N a * 65536 + Byte.to_N b * 256)%N in
      [digit (n / 262144); digit ((n / 4096) mod 64); digit ((n / 64) mod 64); "="%char]
  | a :: b :: c :: rest =>
      let n := (Byte.to_N a * 65536 + Byte.to_N b * 256 + Byte.to_N c)%N in
      digit (n / 262144) :: digit ((n / 4096) mod 64)
        :: digit ((n / 64) mod 64) :: digit (n mod 64) :: encode rest
  end.

Definition is_whitespace (c : ascii) : bool :=
  let n := N_of_ascii c in
  (n =? 9)%N || (n =? 10)%N || (n =? 12)%N || (n =? 13)%N || (n =? 32)%N.

(** Trailing padding is dropped only from a text whose length is a
    multiple of four: one or two [=]. *)
Definition strip_padding (s : list ascii) : list ascii :=
  if (length s mod 4 =? 0)%nat then
    match reverse s with
    | c1 :: c2 :: rest =>
        if Ascii.eqb c1 "=" then
          if Ascii.eqb c2 "=" then reverse rest else reverse (c2 :: rest)
        else s
    | [c1] => if Ascii.eqb c1 "=" then [] else s
    | [] => s
    end
  else s.

Definition byte_of (n : N) : byte := default Byte.x00 (Byte.of_N (n mod 256)).

(** Four digits make three bytes; three digits two, two digits one, the
    bits left over being dropped. *)
Fixpoint decode_digits (ds : list N) : list byte :=
  match ds with
  | a :: b :: c :: d :: rest =>
      let n := (a * 262144 + b * 4096 + c * 64 + d)%N in
      byte_of (n / 65536) :: byte_of (n / 256) :: byte_of n :: decode_digits rest
  | [a; b; c] =>
      let n := (a * 262144 + b * 4096 + c * 64)%N in
      [byte_of (n / 65536); byte_of (n / 256)]
  | [a; b] =>
      let n := (a * 262144 + b * 4096)%N in
      [byte_of (n / 65536)]
  | _ => []
  end.

(** Forgiving-base64 decode, as the [data:] URL processor applies it:
    whitespace is removed, padding is dropped, a length of 1 modulo 4 or
    a character outside the alphabet is a failure. *)
Definition decode (s : list ascii) : option (list byte) :=
  let s1 := filter (λ c, is_whitespace c = false) s in
  let s2 := strip_padding s1 in
  if (length s2 mod 4 =? 1)%nat then None
  else ds ← mapM value s2; Some (decode_digits ds).

End Base64.

(** ** src/lib/imagesDB.ts *)

Module ImagesDB.

Record Blob := {
  bytes : list byte;
  type : string;
}.

Definition imageKey (period stationId : string) : string :=
  "img:" +:+ period +:+ ":" +:+ stationId.

Definition metadataKey (period stationId : string) : string :=
  "meta:" +:+ period +:+ ":" +:+ stationId.

(** What follows [pre] in [s], when [s] starts with [pre]. *)
Fixpoint drop_prefix (pre s : string) : option string :=
  match pre, s with
  | EmptyString, _ => Some s
  | String a pre', String b s' => if Ascii.eqb a b then drop_prefix pre' s' else None
  | String _ _, EmptyString => None
  end.

(** [s.replace(pat, rep)] with a string pattern: the first occurrence. *)
Fixpoint replace_first (pat rep s : string) : string :=
  match drop_prefix pat s with
  | Some rest => rep +:+ rest
  | None =>
      match s with
      | EmptyString => EmptyString
      | String c rest => String c (replace_first pat rep rest)
      end
  end.

(** [FileReader.readAsDataURL]; a blob without a type is announced as
    [application/octet-stream]. *)
Definition blobToDataURL (blob : Blob) : string :=
  "data:" +:+ (if String.eqb (type blob) "" then "application/octet-stream" else type blob)
    +:+ ";base64," +:+ String.string_of_list_ascii (Base64.encode (bytes blob)).

(** [[a-zA-Z+]] *)
Definition subtype_char (c : ascii) : bool :=
  let n := N_of_ascii c in
  ((65 <=? n)%N && (n <=? 90)%N) || ((97 <=? n)%N && (n <=? 122)%N) || (n =? 43)%N.

(** The longest run of [subtype_char] at the head of [s], and what
    follows it. *)
Fixpoint span_subtype (s : string) : string * string :=
  match s with
  | String c rest =>
      if subtype_char c then
        let '(run, tail) := span_subtype rest in (String c run, tail)
      else (EmptyString, s)
  | EmptyString => (EmptyString, EmptyString)
  end.

(** [dataURL.replace(/^data:image\/[a-zA-Z+]+;base64,/, "")]. The class
    excludes [;], so the greedy run is the only way to match. *)
Definition dataURLToBase64 (dataURL : string) : string :=
  match drop_prefix "data:image/" dataURL with
  | Some rest =>
      let '(run, tail) := span_subtype rest in
      match drop_prefix ";base64," tail with
      | Some base64 => if String.eqb run "" then dataURL else base64
      | None => dataURL
      end
  | None => dataURL
  end.

(** The text of a stored string. *)
Definition text_of (JSON_text : jsval → string) (v : sval) : string :=
  match v with
  | Text s => s
  | Json j => JSON_text j
  end.

(** [fetch("data:image/jpeg;base64," + body)] followed by [.blob()], for
    a body without [#] and [%], so that there is no fragment to cut and
    nothing to percent-decode. A body that does not decode is a network
    error. *)
Definition fetch_jpeg (body : string) : outcome Blob :=
  match Base64.decode (String.list_ascii_of_string body) with
  | Some bs => Ret {| bytes := bs; type := "image/jpeg" |}
  | None => Throw TypeError
  end.

Section store.
(** What [JSON.stringify] writes for a value. *)
Context (JSON_text : jsval → string).

(** The writes of one tier: the image, then the metadata when there is
    one. *)
Definition write_tier (st : Storage) (key base64 : string) (metadata : option jsval)
  : outcome Storage :=
  st1 ← setItem st key (Text base64);
  if truthy metadata
  then setItem st1 (replace_first "img:" "meta:" key) (Json (default JNull metadata))
  else Ret st1.

(** What the primary tier holds when its writes are abandoned: a write
    that went through stays. *)
Definition after_failed_primary (st : Storage) (key base64 : string) : Storage :=
  match setItem st key (Text base64) with
  | Ret st1 => st1
  | _ => st
  end.

(** [saveImageBlob]. A [Throw] does not record what was written before
    the failure. *)
Definition saveImageBlob (key : string) (blob : Blob) (metadata : option jsval)
    (w : World) : outcome World :=
  let dataURL := blobToDataURL blob in
  let base64 := dataURLToBase64 dataURL in
  match write_tier (localStorage w) key base64 metadata with
  | Ret ls => Ret (with_local w ls)
  | _ =>
      let w1 := with_local w (after_failed_primary (localStorage w) key base64) in
      match write_tier (sessionStorage w1) key base64 metadata with
      | Ret ss => Ret (with_session w1 ss)
      | _ => Throw (Error "Não foi possível salvar a imagem")
      end
  end.

(** [localStorage.getItem(key) || sessionStorage.getItem(key)] *)
Definition first_tier (w : World) (key : string) : option sval :=
  let primary := getItem (localStorage w) key in
  if falsy_text primary then getItem (sessionStorage w) key else primary.

Definition getImageBlob (key : string) (w : World) : outcome (option Blob) :=
  try_catch
    (let base64 := first_tier w key in
     if falsy_text base64 then Ret None
     else blob ← fetch_jpeg (text_of JSON_text (default (Text "") base64)); Ret (Some blob))
    (λ _, Ret None).

Definition removeImageBlob (key : string) (w : World) : World :=
  let metaKey := replace_first "img:" "meta:" key in
  {| localStorage := removeItem (removeItem (localStorage w) key) metaKey;
     sessionStorage := removeItem (removeItem (sessionStorage w) key) metaKey;
     events := events w |}.

End store.

End ImagesDB.

(** ** Dates, as [date-fns] reads them *)

Module DateFns.

(** A [Date] object holds a time value, in milliseconds since the epoch,
    or is the invalid date. *)
Inductive Date :=
| Time (ms : Z)
| InvalidDate.

(** The clock and the time zone of the device: the current instant, and
    the offset of local time from UTC at an instant, in milliseconds. *)
Class Device := {
  current_time : Z;
  utc_offset : Z → Z;
}.

Definition ms_per_day : Z := 86400000.

(** The local calendar day of an instant, counted from 1970-01-01. *)
Definition local_day `{Device} (ms : Z) : Z := (ms + utc_offset ms) `div` ms_per_day.

(** [isToday]: the start of the local day of the date is the start of
    the local day of now. An invalid date is no day. *)
Definition isToday `{Device} (d : Date) : bool :=
  match d with
  | Time ms => local_day ms =? local_day current_time
  | InvalidDate => false
  end.

(** Year, month and day of a day number in the proleptic Gregorian
    calendar. *)
Definition civil_from_days (days : Z) : Z * Z * Z :=
  let z := days + 719468 in
  let era := z `div` 146097 in
  let doe := z - era * 146097 in
  let yoe := (doe - doe `div` 1460 + doe `div` 36524 - doe `div` 146096) `div` 365 in
  let doy := doe - (365 * yoe + yoe `div` 4 - yoe `div` 100) in
  let mp := (5 * doy + 2) `div` 153 in
  let d := doy - (153 * mp + 2) `div` 5 + 1 in
  let m := if mp <? 10 then mp + 3 else mp - 9 in
  let y := yoe + era * 400 + (if m <=? 2 then 1 else 0) in
  (y, m, d).

(** [addLeadingZeros] *)
Definition pad (width : nat) (n : Z) : string :=
  let digits := pretty (Z.abs n) in
  String.string_of_list_ascii (replicate (width - String.length digits) "0"%char)
    +:+ digits.

(** [format(date, 'dd/MM/yyyy')]: the local calendar date, the year
    being the year of the era. An invalid date is a RangeError. *)
Definition format_ddMMyyyy `{Device} (d : Date) : outcome string :=
  match d with
  | Time ms =>
      let '(y, m, dd) := civil_from_days (local_day ms) in
      let year := if 0 <? y then y else 1 - y in
      Ret (pad 2 dd +:+ "/" +:+ pad 2 m +:+ "/" +:+ pad 4 year)
  | InvalidDate => Throw RangeError
  end.

End DateFns.

(** ** src/lib/imageMetadata *)

Module ImageMetadata.
Import DateFns.

(** A date tag as [exifr] hands it over: revived into a date, or left as
    the text it could not read. *)
Inductive ExifTag :=
| Revived (ms : Z)
| Unread (text : string).

Record Gps := {
  latitude : option Q;
  longitude : option Q;
}.

(** The tags [extractImageMetadata] picks. *)
Record ExifData := {
  DateTimeOriginal : option ExifTag;
  DateTime : option ExifTag;
  CreateDate : option ExifTag;
  Make : option string;
  Model : option string;
  Software : option string;
  GPS : option Gps;
}.

(** An image file, by what [exifr.parse] makes of it: a failure, nothing,
    or the tags. *)
Record File := {
  exifr_parse : outcome (option ExifData);
}.

Record ImageMetadata := {
  dateTime : option Date;
  make : option string;
  model : option string;
  software : option string;
  gps : option Gps;
}.

Inductive Status := validated | invalid | warning.

Record ValidationResult := {
  isValid : bool;
  reason : option string;
  metadata : option ImageMetadata;
  suggestion : option string;
  status : option Status;
}.

Section validator.
(** [Date.parse] on a text, left to the engine. *)
Context `{Device} (Date_parse : string → Date).

Definition tag_truthy (t : option ExifTag) : bool :=
  match t with
  | None | Some (Unread "") => false
  | _ => true
  end.

(** [a || b] on tags *)
Definition tag_or (a b : option ExifTag) : option ExifTag :=
  if tag_truthy a then a else b.

(** [new Date(tag)] *)
Definition new_Date (t : ExifTag) : Date :=
  match t with
  | Revived ms => Time ms
  | Unread text => Date_parse text
  end.

Definition extractImageMetadata (file : File) : outcome (option ImageMetadata) :=
  try_catch
    (exifData ← exifr_parse file;
     match exifData with
     | None => Ret None
     | Some exif =>
         let dateTime :=
           tag_or (DateTimeOriginal exif) (tag_or (DateTime exif) (CreateDate exif)) in
         Ret (Some {| dateTime := if tag_truthy dateTime then new_Date <$> dateTime else None;
                      make := Make exif;
                      model := Model exif;
                      software := Software exif;
                      gps := GPS exif |})
     end)
    (λ _, Ret None).

Definition trusted : ValidationResult :=
  {| isValid := true; reason := None; metadata := None; suggestion := None; status := None |}.

Definition validateImageDate (file : File) (stationId : string) : outcome ValidationResult :=
  if String.eqb stationId "reference" then Ret trusted
  else if negb (String.prefix "competitor_" stationId) then Ret trusted
  else
    try_catch
      (metadata ← extractImageMetadata file;
       match metadata with
       | None =>
           Ret {| isValid := false;
                  reason := Some "Não foi possível verificar os metadados da imagem";
                  suggestion := Some "Use a câmera para tirar uma foto atual";
                  metadata := None;
                  status := Some invalid |}
       | Some md =>
           match dateTime md with
           | None =>
               Ret {| isValid := false;
                      reason := Some "Não foi possível verificar a data da imagem";
                      suggestion := Some "Use a câmera para tirar uma foto atual";
                      metadata := None;
                      status := Some invalid |}
           | Some photoDate =>
               if negb (isToday photoDate) then
                 photoDateFormatted ← format_ddMMyyyy photoDate;
                 Ret {| isValid := false;
                        reason := Some ("Esta imagem foi tirada em " +:+ photoDateFormatted
                                          +:+ ", não no dia atual");
                        suggestion := Some "Use a câmera para tirar uma foto atual";
                        metadata := Some md;
                        status := Some invalid |}
               else
                 Ret {| isValid := true; reason := None; suggestion := None;
                        metadata := Some md; status := Some validated |}
           end
       end)
      (λ _, Ret {| isValid := false;
                   reason := Some "Erro ao processar a imagem";
                   suggestion := Some "Tente novamente ou use a câmera";
                   metadata := None;
                   status := Some invalid |}).

End validator.

End ImageMetadata.

(** ** src/components/PriceForm: after the webhook answered 2xx *)

Module PriceForm.
Import LocalStorage ImagesDB.

(** [list.forEach(f)] for a body that can throw. *)
Fixpoint for_each {S A : Type} (f : S → A → outcome S) (l : list A) (s : S) : outcome S :=
  match l with
  | [] => Ret s
  | a :: rest => s' ← f s a; for_each f rest s'
  end.

(** The keys of an object, in the order of the map. *)
Definition keys (m : gmap string jsval) : list string := (map_to_list m).*1.

(** [{ vista: { ...m.prices.vista }, prazo: { ...m.prices.prazo } }] *)
Definition copied_prices (morningStation : option jsval) : outcome jsval :=
  prices ← member morningStation "prices";
  vista ← member prices "vista";
  prices' ← member morningStation "prices";
  prazo ← member prices' "prazo";
  Ret (JObj (<["vista" := JObj (own_props vista)]>
            (<["prazo" := JObj (own_props prazo)]> ∅))).

(** [stations[sid]] where the afternoon records have no property [sid]
    of their own. The records are a plain object, so the lookup goes on
    to its prototype: [proto] is the record a write under [__proto__]
    has put there, if any, and behind it is [Object.prototype]. What
    comes from [Object.prototype] is a method, or under [__proto__] the
    prototype itself; the loop only tests it and spreads it, and [JObj ∅]
    stands for the methods and for [Object.prototype], which are truthy
    and spread nothing. *)
Definition inherited (proto : option jsval) (sid : string) : option jsval :=
  match proto ≫= (λ record, get_prop record sid) with
  | Some v => Some v
  | None =>
      if String.eqb sid "__proto__" then Some (default (JObj ∅) proto)
      else if bool_decide (sid ∈ prototype_methods) then Some (JObj ∅)
      else None
  end.

(** The body of the loop that copies the morning prices to the
    afternoon, on the state and the prototype of the afternoon records.
    [sid] is a key of the morning records. The write makes a property,
    except under [__proto__] when the afternoon records have none of
    that name: there it sets their prototype. *)
Definition copy_step (acc : AppState * option jsval) (sid : string)
  : outcome (AppState * option jsval) :=
  let '(next, proto) := acc in
  let morningStation := manha next !! sid in
  let afternoonStation :=
    match tarde next !! sid with
    | Some a => Some a
    | None => inherited proto sid
    end in
  if truthy morningStation && truthy afternoonStation then
    prices ← copied_prices morningStation;
    let record :=
      JObj (<["noChange" := JBool false]>
           (<["prices" := prices]> (own_props afternoonStation))) in
    if String.eqb sid "__proto__" && negb (bool_decide (is_Some (tarde next !! sid)))
    then Ret (next, Some record)
    else Ret (set_stations Tarde (<[sid := record]> (tarde next)) next, proto)
  else Ret acc.

(** [{ ...st, photoBase64: "", metadata: undefined, noChange: false }];
    a field set to [undefined] reads as an absent one and is not
    written by [JSON.stringify]. *)
Definition cleared (st : option jsval) : jsval :=
  JObj (<["noChange" := JBool false]>
       (delete "metadata" (<["photoBase64" := JStr ""]> (own_props st)))).

Definition clear_step (period : PeriodKey) (next : AppState) (sid : string) : AppState :=
  set_stations period
    (<[sid := cleared (stations period next !! sid)]> (stations period next)) next.

Definition deleteImagesForPeriod (period : PeriodKey) (w : World) : World :=
  let allIds := "reference" :: ((λ i, "competitor_" +:+ pretty i) <$> seqZ 1 10) in
  foldl (λ w id,
           let key := imageKey (period_name period) id in
           let metaKey := replace_first "img:" "meta:" key in
           {| localStorage := removeItem (removeItem (localStorage w) key) metaKey;
              sessionStorage := removeItem (removeItem (sessionStorage w) key) metaKey;
              events := events w |})
        w allIds.

Section submit.
(** [Object.keys]: the keys of an object in the order of the engine,
    which the map does not record. *)
Context `{Platform} (Object_keys : gmap string jsval → list string).

(** What [onSubmit] does between the 2xx answer and the toast. *)
Definition submitted (period : PeriodKey) (now : string) (w : World)
  : outcome (AppState * World) :=
  next ← readAppState now w;
  let lastSent :=
    <[period_name period := JStr now]>
      (own_props (or_else (meta next !! "lastSent") (Some (JObj ∅)))) in
  let next1 := set_meta (<["lastSent" := JObj lastSent]> (meta next)) next in
  next2 ← match period with
           | Manha =>
               copied ← for_each copy_step (Object_keys (manha next1)) (next1, None);
               Ret copied.1
           | Tarde => Ret next1
           end;
  let next3 := foldl (clear_step period) next2 (Object_keys (stations period next2)) in
  let w1 := deleteImagesForPeriod period w in
  w2 ← saveAppState now next3 w1;
  Ret (next3, w2).

End submit.

End PriceForm.

(** ** The resize step of [compressImage] *)

Module Resize.

(** What the [img] element reports once the file has loaded. *)
Record Picture := {
  width : Z;
  height : Z;
}.

Record Canvas := {
  canvas_width : Z;
  canvas_height : Z;
}.

(** [Math.round]: the nearest whole number, halves going up. *)
Definition Math_round (x : Q) : Z := Qfloor (x + (1 # 2))%Q.

(** *** Double arithmetic

    A JavaScript number is a double: the result of an operation is the
    double nearest to the exact result, ties going to the even
    significand. A positive double is a whole significand of 53 bits,
    between [2^52] and [2^53], times a power of two. The exponent is not
    bounded here: sizes and scale factors stay far from the overflow and
    underflow limits. *)

(** The whole number nearest to [y], the even one of two equally near. *)
Definition nearest_even (y : Q) : Z :=
  let f := Qfloor y in
  match (y - inject_Z f ?= 1 # 2)%Q with
  | Lt => f
  | Gt => f + 1
  | Eq => if Z.even f then f else f + 1
  end.

(** The exponent [e] of the unit in the last place of a positive [q]:
    [2^(e+52) <= q < 2^(e+53)]. The binary lengths of numerator and
    denominator give it up to one, the comparison settles it. *)
Definition ulp_exponent (q : Q) : Z :=
  let e := Z.log2 (Qnum q) - Z.log2 (Zpos (Qden q)) in
  (if Qle_bool (2 ^ e) q then e else e - 1) - 52.

Definition round_positive (q : Q) : Q :=
  let e := ulp_exponent q in
  (inject_Z (nearest_even (q / 2 ^ e)) * 2 ^ e)%Q.

(** The double nearest to [q]. *)
Definition binary64 (q : Q) : Q :=
  match (q ?= 0)%Q with
  | Eq => 0%Q
  | Gt => round_positive q
  | Lt => (- round_positive (- q))%Q
  end.

(** [Math.min(1, maxSize / Math.max(img.width, img.height))]; a division
    by zero is [Infinity], of which the minimum with 1 is 1. *)
Definition scale_for (img : Picture) (maxSize : Z) : Q :=
  let longer := Z.max (width img) (height img) in
  if longer =? 0 then 1%Q
  else Qmin 1 (binary64 (inject_Z maxSize / inject_Z longer)%Q).

Definition canvas_for (img : Picture) (maxSize : Z) : Canvas :=
  let scale := scale_for img maxSize in
  {| canvas_width := Math_round (binary64 (inject_Z (width img) * scale)%Q);
     canvas_height := Math_round (binary64 (inject_Z (height img) * scale)%Q) |}.

(** [compressImage]: [load] is the decoding of the file by the [img]
    element, [toBlob] the drawing and the JPEG encoding at quality 0.5.
    The result is given with the size of the canvas it was taken from. *)
Definition compressImage {File Blob : Type} (load : File → option Picture)
    (toBlob : File → Canvas → Blob) (file : File) (maxSize : Z)
  : outcome (Canvas * Blob) :=
  match load file with
  | Some img =>
      let canvas := canvas_for img maxSize in
      Ret (canvas, toBlob file canvas)
  | None => Throw (Error "Falha na compressão da imagem")
  end.

End Resize.

(** ** Vocabulary of the statements *)

Module Spec.
Import LocalStorage.

(** The string stored under the state key, if any. *)
Definition persisted (w : World) : option sval :=
  getItem (localStorage w) STORAGE_KEY.

(** The aggregate a first load builds: the reference station and one
    competitor, all records empty. *)
Definition default_state (now : string) : AppState :=
  {| concorrentesCount := JNum 1;
     webhookUrl := None;
     meta := {[ "lastEdited" := JStr now ]};
     names := <["competitor_1" := JStr "Posto Concorrente 1: "]>
                {[ "reference" := JStr "Posto Natureza: " ]};
     manha := <["competitor_1" := emptyStation]> {[ "reference" := emptyStation ]};
     tarde := <["competitor_1" := emptyStation]> {[ "reference" := emptyStation ]} |}.

(** [parsed?.config?.concorrentesCount ?? 1] *)
Definition stored_count (parsed : jsval) : jsval :=
  coalesce (opt_member (opt_member (Some parsed) "config") "concorrentesCount") (JNum 1).


(** Whether [for (let i = 0; i <= bound; i++)] reaches its bound. *)
Definition loop_ends (bound : number) : bool :=
  match bound with
  | PosInf => false
  | Finite q => negb (Qle_bool (inject_Z two53) q)
  | NaN | NegInf => true
  end.

(** A host whose JSON reader rejects every text and on which nothing but
    numbers, booleans and [null] coerces to a number; used where a
    statement is evaluated on stored values written as [Json]. *)
Definition strict_host : Platform :=
  {| JSON_parse_text := λ _, None; coerce := λ _, NaN |}.

Definition unlimited (items : gmap string sval) : Storage :=
  {| items := items; fits := λ _, true |}.

Definition page (local session : gmap string sval) : World :=
  {| localStorage := unlimited local; sessionStorage := unlimited session; events := [] |}.


(** The names and the station records [buildDefaultState] builds over
    the indices [idx]. *)
Definition default_maps (idx : list Z) : gmap string jsval * gmap string jsval :=
  foldl default_step (∅, ∅) idx.

(** The state [readAppState] rebuilds from an aggregate [s] that was
    saved, [idx] being the indices of the stored count. *)
Definition reloaded (now : string) (idx : list Z) (s : AppState) : AppState :=
  {| concorrentesCount := concorrentesCount s;
     webhookUrl := webhookUrl s;
     meta := delete "names" (<["names" := JObj (names s)]> (meta s)
                             ∪ {[ "lastEdited" := JStr now ]});
     names := names s ∪ (default_maps idx).1;
     manha := manha s ∪ (default_maps idx).2;
     tarde := tarde s ∪ (default_maps idx).2 |}.

(** The aggregate [saveAppState] writes: the state with a fresh
    [lastEdited]. *)
Definition stamped (now : string) (s : AppState) : AppState :=
  set_meta (<["lastEdited" := JStr now]> (meta s)) s.

(** The environment-supplied overrides, in the order they are tried. *)
Definition env_values (env : option Env) : list (option jsval) :=
  [env ≫= NEXT_PUBLIC_WEBHOOK_URL; env ≫= REACT_APP_WEBHOOK_URL; env ≫= VITE_WEBHOOK_URL].

(** The first value of a list that is not empty. *)
Fixpoint first_nonempty (l : list (option jsval)) : option (option jsval) :=
  match l with
  | [] => None
  | v :: rest => if truthy v then Some v else first_nonempty rest
  end.

(** An override that is absent or the empty string. *)
Definition no_override (internal : option string) : Prop :=
  internal = None ∨ internal = Some "".

(** The base64 digits of a byte sequence and the padding that follows
    them. *)
Fixpoint sextets (bytes : list byte) : list N :=
  match bytes with
  | [] => []
  | [a] =>
      let n := (Byte.to_N a * 65536)%N in
      [(n / 262144)%N; ((n / 4096) mod 64)%N]
  | [a; b] =>
      let n := (Byte.to_N a * 65536 + Byte.to_N b * 256)%N in
      [(n / 262144)%N; ((n / 4096) mod 64)%N; ((n / 64) mod 64)%N]
  | a :: b :: c :: rest =>
      let n := (Byte.to_N a * 65536 + Byte.to_N b * 256 + Byte.to_N c)%N in
      (n / 262144)%N :: ((n / 4096) mod 64)%N :: ((n / 64) mod 64)%N :: (n mod 64)%N
        :: sextets rest
  end.

Fixpoint padding (bytes : list byte) : list ascii :=
  match bytes with
  | [] => []
  | [_] => ["="%char; "="%char]
  | [_; _] => ["="%char]
  | _ :: _ :: _ :: rest => padding rest
  end.

(** A blob type the pattern of [dataURLToBase64] recognises:
    [image/] followed by letters and [+]. *)
Definition is_image_type (t : string) : bool :=
  match ImagesDB.drop_prefix "image/" t with
  | Some run =>
      negb (String.eqb run "")
      && forallb ImagesDB.subtype_char (String.list_ascii_of_string run)
  | None => false
  end.

(** The text [saveImageBlob] stores for a blob of such a type. *)
Definition base64_text (bytes : list byte) : string :=
  String.string_of_list_ascii (Base64.encode bytes).

(** A storage area that is full: it rejects every write. *)
Definition full (items : gmap string sval) : Storage :=
  {| items := items; fits := λ _, false |}.

(** A device in a UTC-3 zone at noon UTC of 5 March 2024, and an engine
    that reads no date text; used where a statement is evaluated. *)
Definition march_5 : DateFns.Device :=
  {| DateFns.current_time := 1709640000000; DateFns.utc_offset := λ _, -10800000 |}.

Definition reads_no_text : string → DateFns.Date := λ _, DateFns.InvalidDate.

(** The results of [validateImageDate] that reject a photo. *)
Definition rejected (why : string) (how : string)
    (md : option ImageMetadata.ImageMetadata) : ImageMetadata.ValidationResult :=
  {| ImageMetadata.isValid := false;
     ImageMetadata.reason := Some why;
     ImageMetadata.metadata := md;
     ImageMetadata.suggestion := Some how;
     ImageMetadata.status := Some ImageMetadata.invalid |}.

(** An image taken on 3 March 2024 with a phone, one whose tags cannot be
    read, and one whose date tag is text that is not a date. *)
Definition photo_of_march_3 : ImageMetadata.File :=
  {| ImageMetadata.exifr_parse :=
       Ret (Some {| ImageMetadata.DateTimeOriginal := Some (ImageMetadata.Revived 1709500000000);
                    ImageMetadata.DateTime := None;
                    ImageMetadata.CreateDate := None;
                    ImageMetadata.Make := Some "Apple";
                    ImageMetadata.Model := Some "iPhone 13";
                    ImageMetadata.Software := None;
                    ImageMetadata.GPS := None |}) |}.

Definition unreadable_photo : ImageMetadata.File :=
  {| ImageMetadata.exifr_parse := Throw (Error "Unknown file format") |}.

Definition photo_with_bad_date : ImageMetadata.File :=
  {| ImageMetadata.exifr_parse :=
       Ret (Some {| ImageMetadata.DateTimeOriginal := Some (ImageMetadata.Unread "yesterday");
                    ImageMetadata.DateTime := None;
                    ImageMetadata.CreateDate := None;
                    ImageMetadata.Make := None;
                    ImageMetadata.Model := None;
                    ImageMetadata.Software := None;
                    ImageMetadata.GPS := None |}) |}.

(** A station record: an object whose [prices] hold a [vista] and a
    [prazo] object. *)
Definition is_station (v : jsval) : bool :=
  match v with
  | JObj o =>
      match o !! "prices" with
      | Some (JObj p) =>
          match p !! "vista", p !! "prazo" with
          | Some (JObj _), Some (JObj _) => true
          | _, _ => false
          end
      | _ => false
      end
  | _ => false
  end.

(** [v.prices[kind]] *)
Definition price_block (v : jsval) (kind : string) : option jsval :=
  opt_member (get_prop v "prices") kind.

(** The prices a successful morning send puts in the afternoon record. *)
Definition prices_copy (m : option jsval) : jsval :=
  JObj (<["vista" := JObj (own_props (opt_member (opt_member m "prices") "vista"))]>
       (<["prazo" := JObj (own_props (opt_member (opt_member m "prices") "prazo"))]> ∅)).

(** The afternoon record after the copy. *)
Definition copy_one (m a : option jsval) : option jsval :=
  if truthy m && truthy a
  then Some (JObj (<["noChange" := JBool false]> (<["prices" := prices_copy m]> (own_props a))))
  else a.

(** What the resize step needs of double rounding: it is monotone,
    leaves whole numbers up to [2^53] as they are, and within the normal
    range is off by at most half a unit in the last place. *)
Definition half_ulp : Q := 1 # 9007199254740992.

Record standard_rounding (rnd : Q → Q) : Prop := {
  rnd_monotone : ∀ p q : Q, (p <= q)%Q → (rnd p <= rnd q)%Q;
  rnd_whole : ∀ n : Z, - two53 ≤ n ≤ two53 → (rnd (inject_Z n) == inject_Z n)%Q;
  rnd_close : ∀ q : Q,
      ((1 # 18446744073709551616) <= q)%Q → (q <= 18446744073709551616)%Q →
      (q * (1 - half_ulp) <= rnd q)%Q ∧ (rnd q <= q * (1 + half_ulp))%Q;
}.

(** The sizes an [img] element can report: unsigned 32-bit numbers. *)
Definition reportable (img : Resize.Picture) : Prop :=
  0 ≤ Resize.width img < 4294967296 ∧ 0 ≤ Resize.height img < 4294967296.

End Spec.

(** ** Stored aggregates the statements are evaluated on *)

Module Samples.
Import LocalStorage Spec.

(** Two competitors, the second with a record of its own. *)
Definition stored_two : jsval :=
  JObj (<["config" := JObj {[ "concorrentesCount" := JNum 2 ]}]>
       (<["periods" := JObj {[ "manha" := JObj {[ "stations" :=
            JObj {[ "competitor_2" := JObj {[ "noChange" := JBool true ]} ]} ]} ]}]> ∅)).



(** A station record as the form leaves it before a send. *)
Definition filled_station : jsval :=
  JObj (<["photoBase64" := JStr "/9j/4AAQ"]> (<["noChange" := JBool true]>
       (<["prices" := JObj (<["vista" := JObj (<["etanol" := JStr "3,99"]>
                                              (<["gasolinaComum" := JStr "5,49"]>
                                              (<["gasolinaAditivada" := JStr "5,69"]>
                                              (<["dieselS10" := JStr "Sem dados"]> ∅))))]>
                           (<["prazo" := emptyPriceFields]> ∅))]>
       (<["metadata" := JObj {[ "validationStatus" := JStr "validated" ]}]> ∅)))).

(** One competitor, the morning of the reference station filled in. *)
Definition stored_morning : jsval :=
  JObj (<["config" := JObj {[ "concorrentesCount" := JNum 1 ]}]>
       (<["periods" := JObj {[ "manha" := JObj {[ "stations" :=
            JObj {[ "reference" := filled_station ]} ]} ]}]> ∅)).

(** The state [readAppState] makes of [stored_morning]. *)
Definition morning_state : AppState :=
  {| concorrentesCount := JNum 1;
     webhookUrl := None;
     meta := {[ "lastEdited" := JStr "2024-03-05T12:00:00.000Z" ]};
     names := names (default_state "2024-03-05T12:00:00.000Z");
     manha := <["reference" := filled_station]>
                (manha (default_state "2024-03-05T12:00:00.000Z"));
     tarde := tarde (default_state "2024-03-05T12:00:00.000Z") |}.

End Samples.

(** ** src/lib/localStorage.ts: the editing functions *)

Module StateEdits.
Import LocalStorage.
Section edits.
Context `{Platform}.

(** [obj[id] = v] on a plain object. Under [__proto__], when the object
    has no own property of that name, the assignment goes to the setter
    of [Object.prototype] and makes no own property. *)
Definition assign (m : gmap string jsval) (id : string) (v : jsval) : gmap string jsval :=
  if String.eqb id "__proto__" && negb (bool_decide (is_Some (m !! id))) then m
  else <[id := v]> m.

(** The functions below read the clock twice: [now] is the instant
    [readAppState] sees, [now'] the one [saveAppState] sees. *)
Definition clearPeriodData (period : PeriodKey) (now now' : string) (w : World)
  : outcome (AppState * World) :=
  state ← readAppState now w;
  let ids := PriceForm.keys (stations period state) in
  let state' :=
    foldl (λ s id, set_stations period (<[id := emptyStation]> (stations period s)) s)
          state ids in
  w' ← saveAppState now' state' w;
  Ret (state', w').

Definition updateStationName (id name : string) (now now' : string) (w : World)
  : outcome (AppState * World) :=
  state ← readAppState now w;
  let state' := set_names (assign (names state) id (JStr name)) state in
  w' ← saveAppState now' state' w;
  Ret (state', w').

Definition updateWebhookUrl (url : option string) (now now' : string) (w : World)
  : outcome (AppState * World) :=
  state ← readAppState now w;
  let state' := set_webhookUrl (JStr <$> url) state in
  w' ← saveAppState now' state' w;
  Ret (state', w').

End edits.
End StateEdits.

(** ** src/components/PriceForm: the handlers that edit the state *)

Module FormActions.
Import LocalStorage StateEdits.
Section handlers.
Context `{Platform}.

(** [onStationChange]; what [setState] is given is the state returned. *)
Definition onStationChange (period : PeriodKey) (id : string) (updater : jsval)
    (now now' : string) (w : World) : outcome (AppState * World) :=
  next ← readAppState now w;
  let next' := set_stations period (assign (stations period next) id updater) next in
  w' ← saveAppState now' next' w;
  Ret (next', w').

Definition onNameChange (id name : string) (now now' : string) (w : World)
  : outcome (AppState * World) :=
  next ← readAppState now w;
  let next' := set_names (assign (names next) id (JStr name)) next in
  w' ← saveAppState now' next' w;
  Ret (next', w').

(** [onClear]: the period is cleared in the state, then its images are
    removed from both tiers. *)
Definition onClear (period : PeriodKey) (now now' : string) (w : World)
  : outcome (AppState * World) :=
  '(next, w') ← clearPeriodData period now now' w;
  Ret (next, PriceForm.deleteImagesForPeriod period w').

End handlers.
End FormActions.

(** ** src/lib/imagesDB.ts: metadata and the cache *)

Module ImageCache.
Import ImagesDB.

(** [getImageMetadata]: the result is [undefined] ([None]) or the value
    the stored text parses to, which can be [null]. *)
Definition getImageMetadata `{Platform} (key : string) (w : World) : outcome (option jsval) :=
  try_catch
    (let metaKey := replace_first "img:" "meta:" key in
     let metaData := first_tier w metaKey in
     if falsy_text metaData then Ret None
     else v ← JSON_parse (default (Text "") metaData); Ret (Some v))
    (λ _, Ret None).

(** [Object.keys(storage)] *)
Definition storage_keys (st : Storage) : list string := (map_to_list (items st)).*1.

(** What [clearImageCache] does to one storage area: the keys are
    listed first, then removed. *)
Definition clear_area (st : Storage) : Storage :=
  let imageKeys := filter (λ key, String.prefix "img:" key = true) (storage_keys st) in
  let metaKeys := filter (λ key, String.prefix "meta:" key = true) (storage_keys st) in
  foldl removeItem (foldl removeItem st imageKeys) metaKeys.

Definition clearImageCache (w : World) : World :=
  {| localStorage := clear_area (localStorage w);
     sessionStorage := clear_area (sessionStorage w);
     events := events w |}.

End ImageCache.

(** ** src/components/CardStation: price input and station name

    Strings are the UTF-8 bytes of the text. The digits, the comma, the
    colon and the line feed are single bytes that occur in no other
    character, so removing or finding them byte by byte is removing or
    finding them character by character. *)

Module CardStation.
Import ImagesDB.

(** [\d] *)
Definition is_digit (c : ascii) : bool :=
  let n := N_of_ascii c in (48 <=? n)%N && (n <=? 57)%N.

(** [sanitizePrice]: at most three digits, a comma after the first. *)
Definition sanitizePrice (raw : string) : string :=
  if String.eqb raw "Sem dados" then "Sem dados"
  else
    let digits := take 3 (filter (λ c, is_digit c = true) (String.list_ascii_of_string raw)) in
    match digits with
    | [] => ""
    | [a] => String a ""
    | [a; b] => String a (String "," (String b ""))
    | a :: b :: c :: _ => String a (String "," (String b (String c "")))
    end.

(** The longest run of digits at the head of [s], and what follows. *)
Fixpoint span_digits (s : string) : string * string :=
  match s with
  | String c rest =>
      if is_digit c then
        let '(run, tail) := span_digits rest in (String c run, tail)
      else (EmptyString, s)
  | EmptyString => (EmptyString, EmptyString)
  end.

(** The whole number a run of digits denotes. *)
Definition Number_of_digits (ds : string) : Z :=
  foldl (λ acc c, 10 * acc + (Z.of_N (N_of_ascii c) - 48)) 0 (String.list_ascii_of_string ds).

(** The group of the first match of [/competitor_(\d+)/] in [s]. *)
Fixpoint match_competitor (s : string) : option string :=
  let here :=
    match drop_prefix "competitor_" s with
    | Some rest =>
        let '(run, _) := span_digits rest in
        if String.eqb run "" then None else Some run
    | None => None
    end in
  match here with
  | Some run => Some run
  | None =>
      match s with
      | String _ rest => match_competitor rest
      | EmptyString => None
      end
  end.

Section names.
(** The text of [Number(ds)] for a run of digits that denotes [2^53] or
    more, where the number is no longer the one written. *)
Context (large_number_text : string → string).

(** The text of [Number(ds)] in a template. *)
Definition number_text (ds : string) : string :=
  let n := Number_of_digits ds in
  if n <? two53 then pretty n else large_number_text ds.

Definition prefixForId (id : string) : string :=
  if String.eqb id "reference" then "Posto Natureza: "
  else
    "Posto Concorrente "
      +:+ match match_competitor id with
          | Some ds => number_text ds
          | None => "1"
          end
      +:+ ": ".

(** [\s] at the head of [s]: the white space and line terminator
    characters, by their UTF-8 bytes. What follows the character, if
    there is one. *)
Definition skip_space (s : string) : option string :=
  match s with
  | String c rest =>
      let n := N_of_ascii c in
      if ((9 <=? n)%N && (n <=? 13)%N) || (n =? 32)%N then Some rest
      else
        match rest with
        | String c1 rest1 =>
            let n1 := N_of_ascii c1 in
            if (n =? 194)%N && (n1 =? 160)%N then Some rest1
            else
              match rest1 with
              | String c2 rest2 =>
                  let n2 := N_of_ascii c2 in
                  if ((n =? 225)%N && (n1 =? 154)%N && (n2 =? 128)%N)
                     || ((n =? 226)%N && (n1 =? 128)%N
                         && (((128 <=? n2)%N && (n2 <=? 138)%N)
                             || (n2 =? 168)%N || (n2 =? 169)%N || (n2 =? 175)%N))
                     || ((n =? 226)%N && (n1 =? 129)%N && (n2 =? 159)%N)
                     || ((n =? 227)%N && (n1 =? 128)%N && (n2 =? 128)%N)
                     || ((n =? 239)%N && (n1 =? 187)%N && (n2 =? 191)%N)
                  then Some rest2
                  else None
              | EmptyString => None
              end
        | EmptyString => None
        end
  | EmptyString => None
  end.

(** [\s*] at the head of [s]: what follows it. [fuel] bounds the
    number of characters, the length of [s] is enough. *)
Fixpoint skip_spaces (fuel : nat) (s : string) : string :=
  match fuel with
  | O => s
  | S fuel' =>
      match skip_space s with
      | Some rest => skip_spaces fuel' rest
      | None => s
      end
  end.

(** A line terminator at the head of [s]: what [.] does not match. *)
Definition line_end (s : string) : bool :=
  match s with
  | String c rest =>
      let n := N_of_ascii c in
      (n =? 10)%N || (n =? 13)%N
      || match rest with
         | String c1 (String c2 _) =>
             (n =? 226)%N && (N_of_ascii c1 =? 128)%N
             && ((N_of_ascii c2 =? 168)%N || (N_of_ascii c2 =? 169)%N)
         | _ => false
         end
  | EmptyString => false
  end.

(** What follows the first colon of the first line of [s], if that line
    has one: the match of [^.*?:]. *)
Fixpoint after_colon (s : string) : option string :=
  match s with
  | String c rest =>
      if Ascii.eqb c ":" then Some rest
      else if line_end s then None
      else after_colon rest
  | EmptyString => None
  end.

(** [name.replace(/^.*?:\s*/, "")] *)
Definition strip_label (name : string) : string :=
  match after_colon name with
  | Some rest => skip_spaces (String.length rest) rest
  | None => name
  end.

(** [suffix.replace(/\r?\n/g, "")] *)
Fixpoint strip_newlines (s : string) : string :=
  match s with
  | String c rest =>
      if Ascii.eqb c "010" then strip_newlines rest
      else
        match rest with
        | String c1 rest1 =>
            if Ascii.eqb c "013" && Ascii.eqb c1 "010" then strip_newlines rest1
            else String c (strip_newlines rest)
        | EmptyString => String c EmptyString
        end
  | EmptyString => EmptyString
  end.

(** The effect that follows the name of the station: the name being
    edited is the name, put behind the prefix when it does not start
    with it. *)
Definition synced_name (id name : string) : string :=
  let pref := prefixForId id in
  if String.prefix pref name then name else pref +:+ strip_label name.

(** The [onChange] of the name input: a text that lost the prefix is
    ignored. *)
Definition onChange_name (id raw editingName : string) : string :=
  let pref := prefixForId id in
  match drop_prefix pref raw with
  | Some suffix => pref +:+ strip_newlines suffix
  | None => editingName
  end.

(** What the card does between two blurs of the name input. *)
Inductive name_event :=
| NameProp (name : string)
| Typed (raw : string).

Definition name_step (id : string) (editingName : string) (ev : name_event) : string :=
  match ev with
  | NameProp name => synced_name id name
  | Typed raw => onChange_name id raw editingName
  end.

End names.
End CardStation.

(** ** src/lib/formatPayloadForN8n *)

Module Payload.
Import LocalStorage ImagesDB DateFns CardStation.

(** [value.replace(/\./g, "")] *)
Definition remove_dots (s : string) : string :=
  String.string_of_list_ascii
    (filter (λ c, Ascii.eqb c "." = false) (String.list_ascii_of_string s)).

(** [normalizePrice]. A stored price that is not a string and not falsy
    has no [replace] to call. *)
Definition normalizePrice (value : option jsval) : outcome string :=
  if negb (truthy value) then Ret ""
  else
    match value with
    | Some (JStr s) =>
        if String.eqb s "Sem dados" then Ret "Sem dados"
        else Ret (replace_first "," "." (remove_dots s))
    | _ => Throw TypeError
    end.

Definition PREFIX_MAP : gmap string string :=
  list_to_map
    [("postoNatureza1", "(Posto Natureza 1)"); ("postoNatureza2", "(Posto Natureza 2)");
     ("postoNatureza3", "(Posto Natureza 3)"); ("concorrente1", "(Concorrente 1)");
     ("concorrente2", "(Concorrente 2)"); ("concorrente3", "(Concorrente 3)");
     ("concorrente4", "(Concorrente 4)"); ("concorrente5", "(Concorrente 5)");
     ("concorrente6", "(Concorrente 6)"); ("concorrente7", "(Concorrente 7)");
     ("concorrente8", "(Concorrente 8)"); ("concorrente9", "(Concorrente 9)");
     ("concorrente10", "(Concorrente 10)")].

(** The group of [/^competitor_(\d+)$/] on [id]. *)
Definition competitor_number (id : string) : option string :=
  match drop_prefix "competitor_" id with
  | Some rest =>
      if negb (String.eqb rest "") && forallb is_digit (String.list_ascii_of_string rest)
      then Some rest else None
  | None => None
  end.

(** [stationKeyFromId]. [Number] rounds a long run of digits, but not
    across 1 or 10, and a number from 1 to 10 is written as it is. *)
Definition stationKeyFromId (id : string) : option string :=
  if String.eqb id "reference" then Some "postoNatureza1"
  else
    match competitor_number id with
    | None => None
    | Some ds =>
        let n := Number_of_digits ds in
        if (n <? 1) || (10 <? n) then None else Some ("concorrente" +:+ pretty n)
    end.

(** [section]: the four fields of one price block, in the order they
    are written. *)
Definition section (prefixLabel type : string) (prices : option jsval)
  : outcome (list (string * jsval)) :=
  let title := if String.eqb type "vista" then "Preços a vista" else "Preços a Prazo" in
  etanol ← member prices "etanol" ≫= normalizePrice;
  gasolinaComum ← member prices "gasolinaComum" ≫= normalizePrice;
  gasolinaAditivada ← member prices "gasolinaAditivada" ≫= normalizePrice;
  dieselS10 ← member prices "dieselS10" ≫= normalizePrice;
  Ret [(prefixLabel +:+ " " +:+ title +:+ "/etanol", JStr etanol);
       (prefixLabel +:+ " " +:+ title +:+ "/gasolinaComum", JStr gasolinaComum);
       (prefixLabel +:+ " " +:+ title +:+ "/gasolinaAditivada", JStr gasolinaAditivada);
       (prefixLabel +:+ " " +:+ title +:+ "/dieselS10", JStr dieselS10)].

(** [format(date, "dd/MM/yyyy (HH:mm)")] on a date that is valid: the
    local calendar date and the local time of day. *)
Definition format_sent `{Device} (ms : Z) : string :=
  let '(y, m, dd) := civil_from_days (local_day ms) in
  let year := if 0 <? y then y else 1 - y in
  let of_day := (ms + utc_offset ms) `mod` ms_per_day in
  pad 2 dd +:+ "/" +:+ pad 2 m +:+ "/" +:+ pad 4 year
    +:+ " (" +:+ pad 2 (of_day `div` 3600000) +:+ ":"
    +:+ pad 2 ((of_day `div` 60000) `mod` 60) +:+ ")".

Section payload.
(** What the engine and its locale data give: the order in which
    [Object.keys] lists the keys of an object, the text of a value that
    is not a string in a template, the text of
    [new Date(v).toLocaleString('pt-BR')], and [toFixed(6)]. *)
Context `{Device} (Object_keys : gmap string jsval → list string)
  (String_of : jsval → string) (locale_date : jsval → string) (toFixed6 : Q → string).

Definition to_text (v : jsval) : string :=
  match v with
  | JStr s => s
  | other => String_of other
  end.

(** [x.toFixed(6)] for a value that is truthy. *)
Definition fixed6 (v : option jsval) : outcome string :=
  match v with
  | Some (JNum q) => Ret (toFixed6 q)
  | _ => Throw TypeError
  end.

(** The fields written for the metadata of the station record [st]. *)
Definition metadata_entries (prefix : string) (st : jsval)
  : outcome (list (string * jsval)) :=
  let metadata := get_prop st "metadata" in
  if truthy metadata then
    let dateTime := opt_member metadata "dateTime" in
    let make := opt_member metadata "make" in
    let model := opt_member metadata "model" in
    let validationStatus := opt_member metadata "validationStatus" in
    let latitude := opt_member (opt_member metadata "gps") "latitude" in
    let longitude := opt_member (opt_member metadata "gps") "longitude" in
    let date :=
      if truthy dateTime
      then [(prefix +:+ " Data/Hora da Foto", JStr (locale_date (default JNull dateTime)))]
      else [] in
    let device :=
      if truthy make && truthy model
      then [(prefix +:+ " Dispositivo da Foto",
             JStr (to_text (default JNull make) +:+ " " +:+ to_text (default JNull model)))]
      else [] in
    let status :=
      if truthy validationStatus
      then [(prefix +:+ " Status da Validação",
             JStr (match validationStatus with
                   | Some (JStr "validated") => "VALIDADA"
                   | Some (JStr "warning") => "AVISO"
                   | _ => "INVÁLIDA"
                   end))]
      else [] in
    if truthy latitude && truthy longitude then
      lat ← fixed6 latitude;
      lon ← fixed6 longitude;
      Ret (date ++ device ++ status ++ [(prefix +:+ " GPS da Foto", JStr (lat +:+ ", " +:+ lon))])
    else Ret (date ++ device ++ status)
  else Ret [].

(** [sk ? PREFIX_MAP[sk] : `(${name})`] *)
Definition field_prefix (id : string) (name : jsval) : string :=
  match stationKeyFromId id with
  | Some sk => default "undefined" (PREFIX_MAP !! sk)
  | None => "(" +:+ to_text name +:+ ")"
  end.

(** The fields written for one station, in the order they are written.
    The ids are keys of the stations of a period; they are taken not to
    be names of properties of [Object.prototype], which [names[id]]
    would find there. *)
Definition station_entries (state : AppState) (period : PeriodKey) (id : string)
  : outcome (list (string * jsval)) :=
  let name := default (JStr id) (or_else (names state !! id) (Some (JStr id))) in
  let st := stations period state !! id in
  let prefix := field_prefix id name in
  let name_entry :=
    if String.eqb id "reference" then [("Nome do Posto", name)]
    else
      match competitor_number id with
      | Some ds => [("Nome do Concorrente " +:+ ds, name)]
      | None => []
      end in
  prices ← member st "prices";
  vista ← member prices "vista";
  section_vista ← section prefix "vista" vista;
  prices' ← member st "prices";
  prazo ← member prices' "prazo";
  section_prazo ← section prefix "prazo" prazo;
  let record := default JNull st in
  let photo :=
    (prefix +:+ " " +:+ (if String.eqb id "reference" then "Foto da minha placa"
                         else "Foto da placa"),
     default (JStr "") (or_else (get_prop record "photoBase64") (Some (JStr "")))) in
  let noChange :=
    (prefix +:+ " Marcou Opção de Alteração de preço",
     JStr (if truthy (get_prop record "noChange") then "SIM" else "NÃO")) in
  metadata ← metadata_entries prefix record;
  Ret (name_entry ++ section_vista ++ section_prazo ++ [photo; noChange] ++ metadata).

(** [payload[key] = value], entry after entry. *)
Definition assign_all (payload : gmap string jsval) (entries : list (string * jsval))
  : gmap string jsval :=
  foldl (λ p kv, <[kv.1 := kv.2]> p) payload entries.

Definition formatPayloadForN8n (period : PeriodKey) (state : AppState)
  : outcome (gmap string jsval) :=
  let payload : gmap string jsval :=
    <["Periodo Marcado" := JStr (match period with Manha => "Manhã" | Tarde => "Tarde" end)]>
      {[ "Data e Hora do Envio" := JStr (format_sent current_time) ]} in
  PriceForm.for_each
    (λ payload id, entries ← station_entries state period id; Ret (assign_all payload entries))
    (Object_keys (stations period state)) payload.

End payload.
End Payload.

(** ** src/components/PriceForm: validation before a send *)

Module Validation.
Import LocalStorage ImagesDB CardStation.

(** The value the schema hands to its refinement: a station record
    whose fields have the declared types. *)
Record PriceFieldsValue := {
  etanol : option string;
  gasolinaComum : option string;
  gasolinaAditivada : option string;
  dieselS10 : option string;
}.

Record StationValue := {
  photoBase64 : option string;
  noChange : bool;
  vista : PriceFieldsValue;
  prazo : PriceFieldsValue;
}.

(** An issue: its path and its message. *)
Definition Issue : Type := list string * string.

(** [!v || v.trim() === ""] *)
Definition missing (v : option string) : bool :=
  match v with
  | None => true
  | Some s => String.eqb (skip_spaces (String.length s) s) ""
  end.

Definition price_issues (ptype : string) (fields : PriceFieldsValue) : list Issue :=
  (if missing (etanol fields) then [(["prices"; ptype; "etanol"], "Preencha aqui!")] else [])
  ++ (if missing (gasolinaComum fields)
      then [(["prices"; ptype; "gasolinaComum"], "Preencha aqui!")] else [])
  ++ (if missing (gasolinaAditivada fields)
      then [(["prices"; ptype; "gasolinaAditivada"], "Preencha aqui!")] else [])
  ++ (if missing (dieselS10 fields)
      then [(["prices"; ptype; "dieselS10"], "Preencha aqui!")] else []).

(** The refinement of the station schema: the issues it adds, in
    order. *)
Definition station_issues (val : StationValue) : list Issue :=
  (match photoBase64 val with
   | None | Some "" => [(["photoBase64"], "Envio de Foto aqui!")]
   | Some _ => []
   end)
  ++ (if negb (noChange val)
      then price_issues "vista" (vista val) ++ price_issues "prazo" (prazo val)
      else []).

Section hydration.
(** What [JSON.stringify] writes for a value. *)
Context `{Platform} (JSON_text : jsval → string).

(** The body of the loop of [validateForm] that fetches a missing photo
    from the two tiers; [updated] goes with the state. Code of a module
    is strict, so the assignment throws on a record that is a
    primitive; on a record that is an array it makes a property that is
    not part of its JSON, and the array is kept as it is. *)
Definition hydrate_step (period : PeriodKey) (w : World)
    (acc : AppState * bool) (id : string) : outcome (AppState * bool) :=
  let station := stations period acc.1 !! id in
  photo ← member station "photoBase64";
  if truthy photo then Ret acc
  else
    let base64 := first_tier w (imageKey (period_name period) id) in
    if falsy_text base64 then Ret acc
    else
      let text := text_of JSON_text (default (Text "") base64) in
      match station with
      | Some (JObj o) =>
          Ret (set_stations period
                 (<[id := JObj (<["photoBase64" := JStr text]> o)]> (stations period acc.1))
                 acc.1, true)
      | Some (JArr _) => Ret (acc.1, true)
      | _ => Throw TypeError
      end.

(** [validateForm], up to the building of the schema: [ids] are the
    visible ids of the state the form was rendered with. *)
Definition hydrate (period : PeriodKey) (ids : list string) (now now' : string)
    (w : World) : outcome (AppState * World) :=
  currentState ← readAppState now w;
  '(currentState', updated) ←
    PriceForm.for_each (hydrate_step period w) ids (currentState, false);
  if updated : bool then
    w' ← saveAppState now' currentState' w;
    Ret (currentState', w')
  else Ret (currentState', w).

End hydration.
End Validation.

(** ** src/components/ImageCapture.tsx *)

Module ImageCapture.
Import LocalStorage ImagesDB DateFns ImageMetadata ImageCache FormActions.

(** The [data:] URL the preview is given for a photo text. *)
Definition preview_of (valueBase64 : string) : option string :=
  if String.eqb valueBase64 "" then None
  else
    let mime :=
      if String.prefix "iVBORw0KGgo" valueBase64 then "image/png"
      else if String.prefix "UklGR" valueBase64 then "image/webp"
      else "image/jpeg" in
    Some ("data:" +:+ mime +:+ ";base64," +:+ valueBase64).

(** [date.toISOString()]: the date and the time of day in UTC; a year
    outside 0 to 9999 is written with a sign and six digits. *)
Definition toISOString (d : Date) : outcome string :=
  match d with
  | InvalidDate => Throw RangeError
  | Time ms =>
      let '(y, m, dd) := civil_from_days (ms `div` ms_per_day) in
      let of_day := ms `mod` ms_per_day in
      let year :=
        if (0 <=? y) && (y <=? 9999) then pad 4 y
        else (if y <? 0 then "-" else "+") +:+ pad 6 y in
      Ret (year +:+ "-" +:+ pad 2 m +:+ "-" +:+ pad 2 dd +:+ "T"
             +:+ pad 2 (of_day `div` 3600000) +:+ ":"
             +:+ pad 2 ((of_day `div` 60000) `mod` 60) +:+ ":"
             +:+ pad 2 ((of_day `div` 1000) `mod` 60) +:+ "."
             +:+ pad 3 (of_day `mod` 1000) +:+ "Z")
  end.

(** [{ k: v, ...o }] for a [v] that can be [undefined]: a field that
    holds [undefined] is left out, as [JSON.stringify] leaves it out. *)
Definition field (k : string) (v : option jsval) (o : gmap string jsval)
  : gmap string jsval :=
  match v with
  | Some x => <[k := x]> o
  | None => o
  end.

Definition gps_value (g : Gps) : jsval :=
  JObj (field "latitude" (JNum <$> latitude g) (field "longitude" (JNum <$> longitude g) ∅)).

Definition status_text (s : Status) : string :=
  match s with
  | validated => "validated"
  | invalid => "invalid"
  | warning => "warning"
  end.

Inductive Source := camera | gallery.

(** The calls the component makes to the props it is given. *)
Inductive Call :=
| onBase64 (base64 : string)
| onMetadata (metadata : jsval)
| onClear.

(** What the component is left with after a pick: the page, the error
    and the suggestion it shows, the preview it was given and the calls
    it made to its props, in order. *)
Record Picked := {
  world_after : World;
  validationError : option string;
  validationSuggestion : option string;
  preview : option string;
  calls : list Call;
}.

Section pick.
Context `{Device} (Date_parse : string → Date).
(** The decoding of the file by the [img] element, and [canvas.toBlob],
    which gives [null] for a canvas it cannot encode. *)
Context (load : File → option Resize.Picture)
  (toBlob : File → Resize.Canvas → option Blob).
(** The props [onBase64] and [onMetadata]: what a call does to the page,
    and whether it returns, throws or does not return. [onMetadata] is
    optional in the component; the card gives it. *)
Context (props : Call → World → World * outcome unit).

(** The metadata object [handlePick] starts from. *)
Definition exif_fields (exifMetadata : option ImageMetadata) : outcome (gmap string jsval) :=
  match exifMetadata with
  | None => Ret ∅
  | Some md =>
      iso ← match dateTime md with
             | Some d => text ← toISOString d; Ret (Some (JStr text))
             | None => Ret None
             end;
      Ret (field "dateTime" iso
             (field "make" (JStr <$> make md)
                (field "model" (JStr <$> model md)
                   (field "software" (JStr <$> software md)
                      (field "gps" (gps_value <$> gps md) ∅)))))
  end.

(** What is shown when something thrown is caught: the generic error.
    The preview stays as it was set before. *)
Definition caught (preview : option string) (calls : list Call) (w : World) : Picked :=
  {| world_after := w;
     validationError := Some "Erro ao processar a imagem";
     validationSuggestion := Some "Tente novamente";
     preview := preview;
     calls := calls |}.

(** What a pick that failed before it set the preview shows. *)
Definition failed (w : World) : Picked := caught None [] w.

(** What a pick that was refused shows: [reason || ...] and
    [suggestion || ...]. *)
Definition refused (v : ValidationResult) (w : World) : Picked :=
  {| world_after := w;
     validationError :=
       Some (match reason v with
             | Some r => if String.eqb r "" then "Imagem inválida" else r
             | None => "Imagem inválida"
             end);
     validationSuggestion :=
       Some (match suggestion v with
             | Some s => if String.eqb s "" then "Use a câmera para tirar uma foto atual" else s
             | None => "Use a câmera para tirar uma foto atual"
             end);
     preview := None;
     calls := [] |}.

(** The end of [handlePick], from the compression on. A canvas that
    gives no blob makes [saveImageBlob] fail before it writes; when its
    writes fail, what went through stays in the two tiers. After the
    save the preview is set and the props are called, inside the same
    [try]: when one of them throws, what follows it is skipped. *)
Definition store (key : string) (file : File) (metadata : jsval) (w : World)
  : outcome Picked :=
  match Resize.compressImage load toBlob file 600 with
  | Ret (_, Some blob) =>
      let dataURL := blobToDataURL blob in
      let base64 := dataURLToBase64 dataURL in
      match saveImageBlob key blob (Some metadata) w with
      | Ret w1 =>
          let told := props (onBase64 base64) w1 in
          match told.2 with
          | Ret _ =>
              let told' := props (onMetadata metadata) told.1 in
              match told'.2 with
              | Ret _ =>
                  Ret {| world_after := told'.1;
                         validationError := None;
                         validationSuggestion := None;
                         preview := Some dataURL;
                         calls := [onBase64 base64; onMetadata metadata] |}
              | Throw _ =>
                  Ret (caught (Some dataURL) [onBase64 base64; onMetadata metadata]
                         told'.1)
              | Hang => Hang
              end
          | Throw _ => Ret (caught (Some dataURL) [onBase64 base64] told.1)
          | Hang => Hang
          end
      | Throw _ =>
          Ret (failed {| localStorage := after_failed_primary (localStorage w) key base64;
                         sessionStorage := after_failed_primary (sessionStorage w) key base64;
                         events := events w |})
      | Hang => Hang
      end
  | Ret (_, None) | Throw _ => Ret (failed w)
  | Hang => Hang
  end.

(** [handlePick]. Everything thrown is caught and shown as the generic
    error. *)
Definition handlePick (period stationId : string) (file : File) (source : Source)
    (w : World) : outcome Picked :=
  let key := imageKey period stationId in
  let checked :=
    exifMetadata ← extractImageMetadata Date_parse file;
    fields ← exif_fields exifMetadata;
    match source with
    | gallery =>
        if String.prefix "competitor_" stationId
        then validation ← validateImageDate Date_parse file stationId;
             Ret (fields, Some validation)
        else Ret (fields, None)
    | camera => Ret (fields, None)
    end in
  match checked with
  | Ret (fields, Some validation) =>
      if negb (isValid validation) then Ret (refused validation w)
      else
        store key file
          (JObj (field "validationReason" (JStr <$> reason validation)
                   (<["validationStatus" :=
                        JStr (status_text (default validated (status validation)))]> fields)))
          w
  | Ret (fields, None) =>
      store key file (JObj (<["validationStatus" := JStr "validated"]> fields)) w
  | Throw _ => Ret (failed w)
  | Hang => Hang
  end.

End pick.

(** [clear]: the image is removed from both tiers, then the card is
    told of an empty photo and of the clearing. *)
Definition clear (period stationId : string) (w : World) : World * list Call :=
  (removeImageBlob (imageKey period stationId) w, [onBase64 ""; onClear]).

Section card.
Context `{Platform}.

(** The record the card hands to [onChange] for a call, [value] being
    the record it was rendered with: [{ ...value, photoBase64: b64 }],
    [{ ...value, metadata }] and
    [{ ...value, photoBase64: "", metadata: undefined }]. *)
Definition record_for (value : jsval) (call : Call) : jsval :=
  match call with
  | onBase64 b64 => JObj (<["photoBase64" := JStr b64]> (own_props (Some value)))
  | onMetadata metadata => JObj (<["metadata" := metadata]> (own_props (Some value)))
  | onClear =>
      JObj (delete "metadata" (<["photoBase64" := JStr ""]> (own_props (Some value))))
  end.

(** The props the card gives the capture: each call goes to [onChange],
    which is [onStationChange] with the id of the card, and reads the
    two instants [clock] has for it. When the write throws, the page is
    as it was. *)
Definition card_props (period : PeriodKey) (id : string) (value : jsval)
    (clock : Call → string * string) (call : Call) (w : World) : World * outcome unit :=
  match onStationChange period id (record_for value call) (clock call).1 (clock call).2 w with
  | Ret (_, w') => (w', Ret tt)
  | Throw e => (w, Throw e)
  | Hang => (w, Hang)
  end.

(** The instants of the two calls of a pick. *)
Definition instants (first second : string * string) (call : Call) : string * string :=
  match call with
  | onBase64 _ => first
  | _ => second
  end.

(** The calls of one pick reach [onStationChange] one after the other,
    each with the record of the same rendering. [clock] gives the two
    instants each of them reads. *)
Fixpoint deliver (period : PeriodKey) (id : string) (value : jsval)
    (clock : list (string * string)) (calls : list Call) (w : World) : outcome World :=
  match calls, clock with
  | call :: rest, (now, now') :: later =>
      '(_, w') ← onStationChange period id (record_for value call) now now' w;
      deliver period id value later rest w'
  | _, _ => Ret w
  end.

End card.
End ImageCapture.

(** ** Vocabulary of the further statements *)

Module Terms.
Import LocalStorage CardStation Payload.

(** A price as the form writes it: one digit, or one digit, the
    separator and one or two digits. *)
Definition price_text (sep : ascii) (s : string) : bool :=
  match String.list_ascii_of_string s with
  | [a] => is_digit a
  | [a; p; b] => is_digit a && Ascii.eqb p sep && is_digit b
  | [a; p; b; c] => is_digit a && Ascii.eqb p sep && is_digit b && is_digit c
  | _ => false
  end.

(** Whether a text has a digit. *)
Definition has_digit (s : string) : bool :=
  existsb is_digit (String.list_ascii_of_string s).

(** The prefix of the fields of the station of index [i], from 0 to 10. *)
Definition station_prefix (i : Z) : string :=
  if i =? 0 then "(Posto Natureza 1)" else "(Concorrente " +:+ pretty i +:+ ")".














End Terms.

(** ** src/hooks/usePersistedState *)

Module PersistedState.

Section hook.
Context `{Platform}.

(** The state the hook starts with. *)
Definition initial_state (key : string) (initial : jsval) (w : World) : outcome jsval :=
  try_catch
    (let raw := getItem (localStorage w) key in
     if falsy_text raw then Ret initial else JSON_parse (default (Text "") raw))
    (λ _, Ret initial).

(** The effect that persists the state: a failure is logged and
    nothing else happens. *)
Definition persist (key : string) (state : jsval) (w : World) : World :=
  match setItem (localStorage w) key (Json state) with
  | Ret ls => dispatchEvent (with_local w ls) ("persisted-state:" +:+ key)
  | _ => w
  end.

(** [onSync]: the state to set, if any. *)
Definition onSync (key : string) (w : World) : option jsval :=
  let raw := getItem (localStorage w) key in
  if falsy_text raw then None
  else
    match JSON_parse (default (Text "") raw) with
    | Ret v => Some v
    | _ => None
    end.

End hook.
End PersistedState.

(** ** Sample picks *)

Module Picks.
Import ImagesDB ImageMetadata ImageCapture.

(** A decoder that reads every file as a picture of 1200 by 800, and a
    canvas that encodes every picture into the same byte. *)
Definition decodes : File → option Resize.Picture :=
  λ _, Some {| Resize.width := 1200; Resize.height := 800 |}.

Definition one_byte : Blob := {| bytes := [Byte.xff]; type := "image/jpeg" |}.

Definition encodes : File → Resize.Canvas → option Blob := λ _ _, Some one_byte.

(** The tags of [photo_of_march_3], as they are extracted and as they
    go into the metadata object. *)
Definition tags_of_march_3 : ImageMetadata :=
  {| dateTime := Some (DateFns.Time 1709500000000);
     make := Some "Apple";
     model := Some "iPhone 13";
     software := None;
     gps := None |}.

Definition fields_of_march_3 : gmap string jsval :=
  <["dateTime" := JStr "2024-03-03T21:06:40.000Z"]>
    (<["make" := JStr "Apple"]> (<["model" := JStr "iPhone 13"]> ∅)).

(** What the component shows for [photo_of_march_3] chosen from the
    gallery on 5 March. *)
Definition refusal_of_march_3 (w : World) : Picked :=
  {| world_after := w;
     validationError := Some "Esta imagem foi tirada em 03/03/2024, não no dia atual";
     validationSuggestion := Some "Use a câmera para tirar uma foto atual";
     preview := None;
     calls := [] |}.

(** The fields of the empty record a card shows at first. *)
Definition empty_fields : gmap string jsval := own_props (Some LocalStorage.emptyStation).

(** A page whose [localStorage] accepts no write and whose
    [sessionStorage] accepts every write. *)
Definition full_primary : World :=
  {| localStorage := {| items := ∅; fits := λ _, false |};
     sessionStorage := {| items := ∅; fits := λ _, true |};
     events := [] |}.

End Picks.

(** ** Vocabulary of the statements on the form *)

Module FormTerms.
Import LocalStorage ImagesDB.

(** A record after the hydration of [validateForm]: the photo found in
    the two tiers under the key of the station, when the record has
    none. *)
Definition hydrated (JSON_text : jsval → string) (period : PeriodKey) (w : World)
    (id : string) (record : jsval) : jsval :=
  match record with
  | JObj o =>
      if truthy (o !! "photoBase64") then record
      else
        match first_tier w (imageKey (period_name period) id) with
        | Some text =>
            if falsy_text (Some text) then record
            else JObj (<["photoBase64" := JStr (text_of JSON_text text)]> o)
        | None => record
        end
  | _ => record
  end.

(** The eight prices of a station value, in the order the refinement
    goes through them. *)
Definition price_values (val : Validation.StationValue) : list (option string) :=
  [Validation.etanol (Validation.vista val); Validation.gasolinaComum (Validation.vista val);
   Validation.gasolinaAditivada (Validation.vista val);
   Validation.dieselS10 (Validation.vista val);
   Validation.etanol (Validation.prazo val); Validation.gasolinaComum (Validation.prazo val);
   Validation.gasolinaAditivada (Validation.prazo val);
   Validation.dieselS10 (Validation.prazo val)].

End FormTerms.

(** * Sample pages for the sends *)

Module Sends.
Import LocalStorage Spec Samples.

(** One competitor, the afternoon of the reference station filled in,
    the morning sent at eight. *)
Definition stored_afternoon : jsval :=
  JObj (<["config" := JObj {[ "concorrentesCount" := JNum 1 ]}]>
       (<["meta" := JObj {[ "lastSent" :=
            JObj {[ "manha" := JStr "2024-03-05T08:00:00.000Z" ]} ]}]>
       (<["periods" := JObj {[ "tarde" := JObj {[ "stations" :=
            JObj {[ "reference" := filled_station ]} ]} ]}]> ∅))).

(** The page that holds [stored_afternoon] and, in the image store, the
    afternoon photo of the reference station with its metadata. *)
Definition afternoon_page : World :=
  page (<[ImagesDB.imageKey "tarde" "reference" := Text "/w=="]>
       (<[ImagesDB.metadataKey "tarde" "reference" :=
            Json (JObj {[ "validationStatus" := JStr "validated" ]})]>
       {[ STORAGE_KEY := Json stored_afternoon ]})) ∅.


End Sends.

(** * Properties *)

Import LocalStorage Spec Samples.

Section store_facts.
Context `{Platform}.

Lemma default_fold_names (idx : list Z) (acc : gmap string jsval * gmap string jsval) :
  (foldl default_step acc idx).1
  = foldl (λ m i, <[stationIdForIndex i := JStr (defaultNameForIndex i)]> m) acc.1 idx.
Proof.
  revert acc. induction idx as [|i idx IH]; intros acc; [done|].
  simpl. by rewrite IH.
Qed.

Lemma default_fold_stations (idx : list Z) (acc : gmap string jsval * gmap string jsval) :
  (foldl default_step acc idx).2
  = foldl (λ m i, <[stationIdForIndex i := emptyStation]> m) acc.2 idx.
Proof.
  revert acc. induction idx as [|i idx IH]; intros acc; [done|].
  simpl. by rewrite IH.
Qed.

Lemma fold_insert_dom {A} (key : Z → string) (val : Z → A) (idx : list Z)
    (m : gmap string A) (k : string) :
  k ∈ dom (foldl (λ m i, <[key i := val i]> m) m idx)
  ↔ k ∈ dom m ∨ ∃ i, i ∈ idx ∧ k = key i.
Proof.
  revert m. induction idx as [|i idx IH]; intros m; simpl.
  - split; [auto|]. intros [?|(i & Hi & _)]; [done|]. by apply elem_of_nil in Hi.
  - rewrite IH, dom_insert, elem_of_union, elem_of_singleton.
    split.
    + intros [[->|?]|(j & ? & ?)].
      * right. exists i. split; [apply list_elem_of_here|done].
      * by left.
      * right. exists j. split; [by apply list_elem_of_further|done].
    + intros [?|(j & Hj & ->)]; [by left; right|].
      apply elem_of_cons in Hj as [->|?]; [by left; left|right; eauto].
Qed.

Lemma loop_ends_upto (bound : number) :
  loop_ends bound = true → ∃ idx, upto bound = Ret idx.
Proof.
  destruct bound as [| | |q]; simpl; try by eauto.
  destruct (Qle_bool _ _); [done|eauto].
Qed.

Lemma buildDefaultState_one now :
  buildDefaultState now (JNum 1) = Ret (default_state now).
Proof. reflexivity. Qed.

(** What [buildDefaultState] returns when its loop ends. *)
Lemma buildDefaultState_ret now c idx :
  upto (ToNumber coerce c) = Ret idx →
  ∃ safe, buildDefaultState now c = Ret safe
    ∧ concorrentesCount safe = c
    ∧ (∀ i, i ∈ idx → stationIdForIndex i ∈ dom (names safe)
                      ∧ stationIdForIndex i ∈ dom (manha safe)
                      ∧ stationIdForIndex i ∈ dom (tarde safe)).
Proof.
  intros Hup. unfold buildDefaultState. rewrite Hup. simpl.
  destruct (foldl default_step (∅, ∅) idx) as [nm sts] eqn:Hfold.
  eexists; split; [reflexivity|]. split; [done|]. simpl.
  assert (nm = (foldl default_step (∅, ∅) idx).1) as -> by by rewrite Hfold.
  assert (sts = (foldl default_step (∅, ∅) idx).2) as -> by by rewrite Hfold.
  rewrite default_fold_names, default_fold_stations.
  intros i Hi. rewrite !fold_insert_dom. repeat split; right; by exists i.
Qed.

End store_facts.

Section read_facts.
Context `{Platform}.

Lemma try_catch_never_throws {A} (body : outcome A) (handler : error → outcome A) (a : A) :
  (∀ e, handler e = Ret a) → ∀ e, try_catch body handler ≠ Throw e.
Proof. intros Hh e. destruct body; simpl; [done| |done]. by rewrite Hh. Qed.

(** The body of [readAppState] once the stored text has been parsed. *)
Lemma readAppState_parsed now w raw parsed :
  persisted w = Some raw → falsy_text (Some raw) = false →
  JSON_parse raw = Ret parsed →
  readAppState now w =
    try_catch
      (safe ← buildDefaultState now (stored_count parsed);
       pmeta ← member (Some parsed) "meta";
       Ret {| concorrentesCount := stored_count parsed;
               webhookUrl := opt_member (opt_member (Some parsed) "config") "webhookUrl";
               meta := delete "names" (own_props pmeta ∪ meta safe);
               names := own_props (or_else (opt_member pmeta "names") (Some (JObj ∅)))
                          ∪ names safe;
               manha := incoming parsed Manha ∪ manha safe;
               tarde := incoming parsed Tarde ∪ tarde safe |})
      (λ _, buildDefaultState now (JNum 1)).
Proof.
  unfold persisted, readAppState. intros -> Hf Hp. rewrite Hf. simpl.
  by rewrite Hp.
Qed.

Lemma default_state_visible now :
  getVisibleStationIds (default_state now) = Ret ["reference"; "competitor_1"].
Proof. reflexivity. Qed.

End read_facts.

Section read_claims.
Context `{Platform}.

(** Nothing stored, or a text that is empty or is not JSON: the default
    aggregate. *)
Lemma readAppState_unreadable (now : string) (w : World) :
  falsy_text (persisted w) = true
  ∨ (∃ raw, persisted w = Some raw ∧ JSON_parse raw = Throw SyntaxError) →
  readAppState now w = Ret (default_state now).
Proof.
  intros [Hf|(raw & Hraw & Hp)].
  - unfold readAppState. unfold persisted in Hf. by rewrite Hf.
  - unfold readAppState. unfold persisted in Hraw. rewrite Hraw.
    destruct (falsy_text (Some raw)); [done|]. simpl. by rewrite Hp.
Qed.


End read_claims.


(** What that read gives for the second competitor, whose record was
    stored, and for the first, whose record was not: the stored record
    as it is, without the fields of the default, and the default. *)
Example readAppState_merges_stored :
  (λ st, (concorrentesCount st, manha st !! "competitor_2", manha st !! "competitor_1",
          tarde st !! "competitor_2"))
    <$> @readAppState strict_host "2024-03-05T12:00:00.000Z"
          (page {[ STORAGE_KEY := Json stored_two ]} ∅)
  = Ret (JNum 2, Some (JObj {[ "noChange" := JBool true ]}), Some emptyStation,
         Some emptyStation).
Proof. vm_compute. reflexivity. Qed.


(** ** [setConcorrentesCount] *)

Lemma stationIdForIndex_inj (i j : Z) :
  LocalStorage.stationIdForIndex i = LocalStorage.stationIdForIndex j → i = j.
Proof.
  unfold stationIdForIndex.
  destruct (Z.eqb_spec i 0) as [->|Hi], (Z.eqb_spec j 0) as [->|Hj]; simpl;
    [done|discriminate|discriminate|].
  intros Heq. simplify_eq. by apply (inj pretty).
Qed.

Lemma elem_of_station_ids (i : Z) (l : list Z) :
  stationIdForIndex i ∈ stationIdForIndex <$> l ↔ i ∈ l.
Proof.
  rewrite list_elem_of_fmap. split.
  - by intros (j & ->%stationIdForIndex_inj & ?).
  - intros ?. by exists i.
Qed.

Lemma elem_of_seqZ' (i m n : Z) : i ∈ seqZ m n ↔ m ≤ i < m + n.
Proof.
  rewrite list_elem_of_lookup. setoid_rewrite lookup_seqZ. split.
  - intros (k & -> & ?). lia.
  - intros ?. exists (Z.to_nat (i - m)). lia.
Qed.

Section loops.
Context {A : Type} (key : Z → string) (Hkey : ∀ i j, key i = key j → i = j).


End loops.

Section ensure_loop.
Context (key : Z → string) (Hkey : ∀ i j, key i = key j → i = j) (val : Z → jsval).



End ensure_loop.

Section count_facts.
Context `{Platform}.










End count_facts.

Section persistence_facts.
Context `{Platform}.

Lemma buildDefaultState_unfold now c idx :
  upto (ToNumber coerce c) = Ret idx →
  buildDefaultState now c
  = Ret {| concorrentesCount := c; webhookUrl := None;
           meta := {[ "lastEdited" := JStr now ]};
           names := (default_maps idx).1;
           manha := (default_maps idx).2;
           tarde := (default_maps idx).2 |}.
Proof.
  intros Hup. unfold buildDefaultState, default_maps. rewrite Hup. simpl.
  by destruct (foldl default_step (∅, ∅) idx).
Qed.

Lemma buildDefaultState_stuck now c :
  (∀ idx, upto (ToNumber coerce c) ≠ Ret idx) → buildDefaultState now c = Hang.
Proof.
  intros Hup. unfold buildDefaultState.
  destruct (ToNumber coerce c) as [| | |q]; simpl in *;
    try done; try by destruct (Hup []).
  destruct (Qle_bool _ _); [done|]. by edestruct Hup.
Qed.


Lemma to_json_meta s :
  get_prop (to_json s) "meta" = Some (JObj (<["names" := JObj (names s)]> (meta s))).
Proof. reflexivity. Qed.

Lemma to_json_count s :
  opt_member (opt_member (Some (to_json s)) "config") "concorrentesCount"
  = Some (concorrentesCount s).
Proof. unfold to_json. by destruct (webhookUrl s). Qed.

Lemma to_json_webhookUrl s :
  opt_member (opt_member (Some (to_json s)) "config") "webhookUrl" = webhookUrl s.
Proof. unfold to_json. by destruct (webhookUrl s). Qed.

Lemma to_json_incoming s p : incoming (to_json s) p = stations p s.
Proof. by destruct p. Qed.


Lemma persisted_saved now s w w' :
  saveAppState now s w = Ret w' →
  persisted w' = Some (Json (to_json (stamped now s)))
  ∧ fits (localStorage w') = fits (localStorage w).
Proof.
  unfold saveAppState, setItem. destruct (fits _ _); [|done]. simpl.
  intros [= <-]. split; [|done]. unfold persisted, getItem. simpl.
  apply lookup_insert_eq.
Qed.

Lemma saveAppState_fits now s w :
  (∀ m, fits (localStorage w) m = true) → ∃ w', saveAppState now s w = Ret w'.
Proof. intros Hfits. unfold saveAppState, setItem. rewrite Hfits. by eexists. Qed.

End persistence_facts.

Section count_claims.
Context `{Platform}.


(** C10. When the requested count is strictly equal to the count of the
    state just read, [setConcorrentesCount] returns that state and leaves
    the page as it was: nothing is written to either storage area and no
    event is dispatched. *)
Theorem setConcorrentesCount_same (count : Z) (now : string) (w : World) (st : AppState) :
  readAppState now w = Ret st →
  strict_eq_num (inject_Z count) (concorrentesCount st) = true →
  setConcorrentesCount count now w = Ret (st, w).
Proof.
  intros Hread Heq. unfold setConcorrentesCount. rewrite Hread.
  cbn [mbind outcome_bind]. by rewrite Heq.
Qed.

Lemma upto_whole (n : Z) :
  n < two53 → upto (Finite (inject_Z n)) = Ret (seqZ 0 (n + 1)).
Proof.
  intros Hn. unfold upto.
  destruct (Qle_bool (inject_Z two53) (inject_Z n)) eqn:Hle.
  - apply Qle_bool_iff in Hle. rewrite <- Zle_Qle in Hle. lia.
  - by rewrite Qfloor_Z.
Qed.




End count_claims.

Section count_sequence.
Context `{Platform}.







End count_sequence.

(** Witness of [setConcorrentesCount_same]: two competitors stored, two
    requested. *)
Lemma setConcorrentesCount_same_witness :
  ∃ st, @readAppState strict_host "2024-03-05T12:00:00.000Z"
          (page {[ STORAGE_KEY := Json stored_two ]} ∅) = Ret st
    ∧ @setConcorrentesCount strict_host 2 "2024-03-05T12:00:00.000Z"
          (page {[ STORAGE_KEY := Json stored_two ]} ∅)
      = Ret (st, page {[ STORAGE_KEY := Json stored_two ]} ∅).
Proof.
  eexists. split; [reflexivity|].
  apply (@setConcorrentesCount_same strict_host); reflexivity.
Defined.


(** ** [getWebhookUrl] *)

Section webhook_claims.
Context `{Platform}.

Lemma first_nonempty_or_else (a b c : option jsval) :
  first_nonempty [a; b; c] = None ∧ truthy (or_else a (or_else b c)) = false
  ∨ first_nonempty [a; b; c] = Some (or_else a (or_else b c))
    ∧ truthy (or_else a (or_else b c)) = true.
Proof.
  unfold or_else. cbn [first_nonempty].
  destruct (truthy a) eqn:Ha; [by right|].
  destruct (truthy b) eqn:Hb; [by right|].
  destruct (truthy c) eqn:Hc; [by right|by left].
Qed.

(** C4. The webhook URL is resolved by precedence: the internal override
    when it is a non-empty string; else the first non-empty
    environment-supplied override; else the URL stored in the application
    state; else the hard-coded default. *)
Theorem getWebhookUrl_precedence (internal : option string) (env : option Env)
    (now : string) (w : World) :
  (∀ url, internal = Some url → url ≠ "" →
     getWebhookUrl_from internal env now w = Ret (JStr url))
  ∧ (no_override internal →
     ∀ url, first_nonempty (env_values env) = Some (Some (JStr url)) →
       getWebhookUrl_from internal env now w = Ret (JStr url))
  ∧ (no_override internal → first_nonempty (env_values env) = None →
     ∀ st url, readAppState now w = Ret st →
       webhookUrl st = Some url → truthy (Some url) = true →
       getWebhookUrl_from internal env now w = Ret url)
  ∧ (no_override internal → first_nonempty (env_values env) = None →
     ∀ st, readAppState now w = Ret st → truthy (webhookUrl st) = false →
       getWebhookUrl_from internal env now w = Ret (JStr DEFAULT_WEBHOOK_URL)).
Proof.
  assert (∀ url : string, url ≠ "" → truthy (Some (JStr url)) = true) as Hne.
  { intros url Hurl. simpl. destruct (String.eqb_spec url ""); done. }
  assert (no_override internal → truthy (JStr <$> internal) = false) as Hno.
  { by intros [->| ->]. }
  unfold getWebhookUrl_from, env_values.
  destruct (first_nonempty_or_else (env ≫= NEXT_PUBLIC_WEBHOOK_URL)
              (env ≫= REACT_APP_WEBHOOK_URL) (env ≫= VITE_WEBHOOK_URL))
    as [[Hfirst Hfalsy]|[Hfirst Htruthy]]; rewrite Hfirst.
  - split; [|split; [|split]].
    + intros url -> Hurl. change (JStr <$> Some url) with (Some (JStr url)).
      by rewrite (Hne url Hurl).
    + done.
    + intros Hi _ st url Hread Hst Hurl. rewrite (Hno Hi), Hfalsy.
      cbn [andb]. rewrite Hread. cbn [mbind outcome_bind].
      by rewrite Hst, Hurl.
    + intros Hi _ st Hread Hst. rewrite (Hno Hi), Hfalsy.
      cbn [andb]. rewrite Hread. cbn [mbind outcome_bind]. by rewrite Hst.
  - split; [|split; [|split]].
    + intros url -> Hurl. change (JStr <$> Some url) with (Some (JStr url)).
      by rewrite (Hne url Hurl).
    + intros Hi url [= Hurl]. rewrite (Hno Hi), Htruthy, Hurl. done.
    + done.
    + done.
Qed.

(** With the constant that ships in [src/config/webhook.ts] every other
    source is shadowed. *)
Lemma getWebhookUrl_shipped (env : option Env) (now : string) (w : World) :
  LocalStorageShipped.getWebhookUrl env now w
  = Ret (JStr "https://criadordigital-n8n-webhook.xpr5o6.easypanel.host/webhook/SiteFormulario2").
Proof. reflexivity. Qed.

End webhook_claims.

(** Witness of [getWebhookUrl_precedence]: no internal override, no
    environment, nothing stored. *)
Lemma getWebhookUrl_precedence_witness :
  @getWebhookUrl_from strict_host None None "2024-03-05T12:00:00.000Z" (page ∅ ∅)
  = Ret (JStr DEFAULT_WEBHOOK_URL).
Proof.
  destruct (@getWebhookUrl_precedence strict_host None None
              "2024-03-05T12:00:00.000Z" (page ∅ ∅)) as (_ & _ & _ & Hdefault).
  apply (Hdefault (or_introl eq_refl) eq_refl (default_state "2024-03-05T12:00:00.000Z"));
    reflexivity.
Defined.

(** ** Base64: decoding undoes encoding *)

Section base64_facts.
Import Base64.

#[local] Ltac Zify.zify_post_hook ::= Z.to_euclidean_division_equations.

Lemma list_ind3 {A} (P : list A → Prop) :
  P [] → (∀ a, P [a]) → (∀ a b, P [a; b]) →
  (∀ a b c l, P l → P (a :: b :: c :: l)) →
  ∀ l, P l.
Proof.
  intros H0 H1 H2 H3 l.
  cut (P l ∧ (∀ a, P (a :: l)) ∧ (∀ a b, P (a :: b :: l))); [by intros [? _]|].
  induction l as [|x l (IH0 & IH1 & IH2)]; [done|].
  split; [apply IH1|]. split; [intros a; apply IH2|]. intros a b. by apply H3.
Qed.

Lemma value_digit (n : N) : (n < 64)%N → value (digit n) = Some n.
Proof.
  intros Hn. rewrite <- (N2Nat.id n). assert (N.to_nat n < 64)%nat as Hk by lia.
  revert Hk. generalize (N.to_nat n). intros k Hk.
  do 64 (destruct k as [|k]; [reflexivity|]). lia.
Qed.

Lemma digit_plain (n : N) :
  (n < 64)%N → is_whitespace (digit n) = false ∧ Ascii.eqb (digit n) "=" = false.
Proof.
  intros Hn. rewrite <- (N2Nat.id n). assert (N.to_nat n < 64)%nat as Hk by lia.
  revert Hk. generalize (N.to_nat n). intros k Hk.
  do 64 (destruct k as [|k]; [by split|]). lia.
Qed.

Lemma sextets_lt (bytes : list byte) : Forall (λ n, (n < 64)%N) (sextets bytes).
Proof.
  induction bytes as [|a|a b|a b c rest IH] using list_ind3; cbn [sextets].
  - constructor.
  - pose proof (Byte.to_N_bounded a). repeat constructor; lia.
  - pose proof (Byte.to_N_bounded a). pose proof (Byte.to_N_bounded b).
    repeat constructor; lia.
  - pose proof (Byte.to_N_bounded a). pose proof (Byte.to_N_bounded b).
    pose proof (Byte.to_N_bounded c). repeat (constructor; [lia|]). done.
Qed.

Lemma encode_split (bytes : list byte) :
  encode bytes = (digit <$> sextets bytes) ++ padding bytes.
Proof.
  induction bytes as [|a|a b|a b c rest IH] using list_ind3; try done.
  cbn [encode sextets padding fmap list_fmap app]. by rewrite IH.
Qed.

Lemma byte_of_to_N (a : byte) (n : N) : (n mod 256)%N = Byte.to_N a → byte_of n = a.
Proof. intros Hn. unfold byte_of. by rewrite Hn, Byte.of_to_N. Qed.

Lemma decode_sextets (bytes : list byte) : decode_digits (sextets bytes) = bytes.
Proof.
  induction bytes as [|a|a b|a b c rest IH] using list_ind3; cbn [sextets decode_digits].
  - done.
  - pose proof (Byte.to_N_bounded a). f_equal. apply byte_of_to_N. lia.
  - pose proof (Byte.to_N_bounded a). pose proof (Byte.to_N_bounded b).
    f_equal; [|f_equal]; apply byte_of_to_N; lia.
  - pose proof (Byte.to_N_bounded a). pose proof (Byte.to_N_bounded b).
    pose proof (Byte.to_N_bounded c). rewrite IH.
    f_equal; [|f_equal; [|f_equal]]; apply byte_of_to_N; lia.
Qed.

Lemma sextets_length (bytes : list byte) :
  Nat.modulo (length (sextets bytes)) 4 ≠ 1%nat
  ∧ Nat.modulo (length (sextets bytes) + length (padding bytes)) 4 = 0%nat.
Proof.
  induction bytes as [|a|a b|a b c rest IH] using list_ind3; try done.
  cbn [sextets padding length].
  replace (S (S (S (S (length (sextets rest))))))
    with (length (sextets rest) + 1 * 4)%nat by lia.
  replace (length (sextets rest) + 1 * 4 + length (padding rest))%nat
    with (length (sextets rest) + length (padding rest) + 1 * 4)%nat by lia.
  by rewrite !Nat.Div0.mod_add.
Qed.

Lemma padding_cases (bytes : list byte) :
  padding bytes = [] ∨ padding bytes = ["="%char]
  ∨ padding bytes = ["="%char; "="%char].
Proof. induction bytes using list_ind3; cbn [padding]; auto. Qed.

Lemma padding_body (bytes : list byte) : padding bytes ≠ [] → sextets bytes ≠ [].
Proof. induction bytes using list_ind3; cbn [padding sextets]; done. Qed.

Lemma strip_padding_digits (body : list N) (pad : list ascii) :
  Forall (λ n, (n < 64)%N) body →
  pad = [] ∨ pad = ["="%char] ∨ pad = ["="%char; "="%char] →
  (pad ≠ [] → body ≠ []) →
  Nat.modulo (length body + length pad) 4 = 0%nat →
  strip_padding ((digit <$> body) ++ pad) = digit <$> body.
Proof.
  intros Hbody Hpad Hne Hlen. unfold strip_padding.
  rewrite length_app, length_fmap, Hlen. cbn [Nat.eqb].
  rewrite reverse_app.
  assert (∀ c rest, reverse (digit <$> body) = c :: rest → Ascii.eqb c "=" = false)
    as Hlast.
  { intros c rest Hrev.
    assert (c ∈ digit <$> body) as (n & -> & Hn)%list_elem_of_fmap.
    { apply elem_of_reverse. rewrite Hrev. apply list_elem_of_here. }
    rewrite Forall_forall in Hbody. by apply digit_plain, Hbody. }
  destruct Hpad as [->|[->| ->]].
  - change (reverse []) with (@nil ascii). cbn [app]. rewrite app_nil_r.
    destruct (reverse (digit <$> body)) as [|c1 [|c2 rest]] eqn:Hrev.
    + done.
    + by rewrite (Hlast c1 []).
    + by rewrite (Hlast c1 (c2 :: rest)).
  - change (reverse ["="%char]) with ["="%char]. cbn [app].
    destruct (reverse (digit <$> body)) as [|c1 rest] eqn:Hrev.
    + apply (f_equal reverse) in Hrev. rewrite reverse_involutive in Hrev.
      destruct body; [by destruct Hne|done].
    + rewrite Ascii.eqb_refl, (Hlast c1 rest) by done.
      by rewrite <- Hrev, reverse_involutive.
  - change (reverse ["="%char; "="%char]) with ["="%char; "="%char]. cbn [app].
    by rewrite !Ascii.eqb_refl, reverse_involutive.
Qed.

Lemma filter_all {A} (P : A → Prop) `{∀ x, Decision (P x)} (l : list A) :
  Forall P l → filter P l = l.
Proof.
  induction 1 as [|x l Hx _ IH]; [done|]. by rewrite filter_cons_True, IH.
Qed.

Lemma filter_digits (body : list N) (pad : list ascii) :
  Forall (λ n, (n < 64)%N) body →
  pad = [] ∨ pad = ["="%char] ∨ pad = ["="%char; "="%char] →
  filter (λ c, is_whitespace c = false) ((digit <$> body) ++ pad)
  = (digit <$> body) ++ pad.
Proof.
  intros Hbody Hpad. apply filter_all, Forall_app. split.
  - apply Forall_fmap. eapply Forall_impl; [done|]. intros n Hn. by apply digit_plain.
  - by destruct Hpad as [->|[->| ->]]; repeat constructor.
Qed.

Lemma mapM_value_digits (body : list N) :
  Forall (λ n, (n < 64)%N) body → mapM value (digit <$> body) = Some body.
Proof.
  intros Hbody. apply mapM_Some. apply Forall2_fmap_l.
  apply Forall_Forall2_diag. eapply Forall_impl; [done|]. apply value_digit.
Qed.

(** Decoding what was encoded gives the bytes back. *)
Lemma decode_encode (bytes : list byte) : decode (encode bytes) = Some bytes.
Proof.
  unfold decode. rewrite encode_split.
  rewrite filter_digits by auto using sextets_lt, padding_cases.
  rewrite strip_padding_digits
    by (auto using sextets_lt, padding_cases, padding_body; apply sextets_length).
  rewrite length_fmap.
  destruct (length (sextets bytes) mod 4 =? 1)%nat eqn:Hmod.
  { apply Nat.eqb_eq in Hmod. by destruct (sextets_length bytes). }
  rewrite mapM_value_digits by apply sextets_lt. simpl.
  by rewrite decode_sextets.
Qed.

End base64_facts.

(** ** The blob store *)

Section blob_facts.
Import ImagesDB.

Lemma drop_prefix_Some (pre s rest : string) :
  drop_prefix pre s = Some rest → s = pre +:+ rest.
Proof.
  revert s. induction pre as [|a pre IH]; intros s; simpl.
  - by intros [= ->].
  - destruct s as [|b s]; [done|]. destruct (Ascii.eqb_spec a b) as [->|]; [|done].
    intros Hd. by rewrite (IH s Hd).
Qed.

Lemma drop_prefix_app (pre rest : string) : drop_prefix pre (pre +:+ rest) = Some rest.
Proof.
  induction pre as [|a pre IH]; simpl; [done|]. by rewrite Ascii.eqb_refl.
Qed.

Lemma span_subtype_run (run rest : string) :
  forallb subtype_char (String.list_ascii_of_string run) = true →
  span_subtype (run +:+ ";" +:+ rest) = (run, ";" +:+ rest).
Proof.
  induction run as [|c run IH]; simpl; [done|].
  intros [Hc Hrun]%andb_prop. rewrite Hc. by rewrite (IH Hrun).
Qed.

Lemma dataURLToBase64_image (run b64 : string) :
  String.eqb run "" = false →
  forallb subtype_char (String.list_ascii_of_string run) = true →
  dataURLToBase64 ("data:image/" +:+ run +:+ ";base64," +:+ b64) = b64.
Proof.
  intros Hne Hchars. unfold dataURLToBase64. rewrite drop_prefix_app.
  change (run +:+ ";base64," +:+ b64) with (run +:+ ";" +:+ ("base64," +:+ b64)).
  rewrite (span_subtype_run run _ Hchars).
  change (";" +:+ "base64," +:+ b64) with (";base64," +:+ b64).
  by rewrite drop_prefix_app, Hne.
Qed.

Lemma stored_text (blob : Blob) :
  is_image_type (type blob) = true →
  dataURLToBase64 (blobToDataURL blob) = base64_text (bytes blob).
Proof.
  unfold is_image_type, blobToDataURL, base64_text.
  destruct (drop_prefix "image/" (type blob)) as [run|] eqn:Hrun; [|done].
  apply drop_prefix_Some in Hrun. rewrite Hrun.
  intros [Hne%negb_true_iff Hchars]%andb_prop.
  change (("image/" +:+ run =? "")%string) with false. cbv iota.
  by apply dataURLToBase64_image.
Qed.

Lemma base64_text_truthy (bytes : list byte) :
  bytes ≠ [] → falsy_text (Some (Text (base64_text bytes))) = false.
Proof. by destruct bytes as [|a [|b [|c rest]]]. Qed.

Lemma fetch_stored (bytes : list byte) :
  fetch_jpeg (base64_text bytes) = Ret {| bytes := bytes; type := "image/jpeg" |}.
Proof.
  unfold fetch_jpeg, base64_text.
  by rewrite String.list_ascii_of_string_of_list_ascii, decode_encode.
Qed.

(** Where a successful [write_tier] leaves the image. *)
Lemma write_tier_image st key base64 metadata st' :
  truthy metadata = false ∨ replace_first "img:" "meta:" key ≠ key →
  write_tier st key base64 metadata = Ret st' →
  getItem st' key = Some (Text base64).
Proof.
  intros Hmeta. unfold write_tier, setItem, getItem.
  destruct (fits st _); [|done]. cbn [mbind outcome_bind].
  destruct (truthy metadata) eqn:Ht.
  - destruct Hmeta as [|Hne]; [done|].
    cbn [items fits]. destruct (fits st _); [|done]. intros [= <-]. cbn [items].
    by rewrite lookup_insert_ne, lookup_insert_eq.
  - intros [= <-]. cbn [items]. apply lookup_insert_eq.
Qed.

Lemma get_first_tier JSON_text key w bytes :
  bytes ≠ [] →
  first_tier w key = Some (Text (base64_text bytes)) →
  getImageBlob JSON_text key w = Ret (Some {| bytes := bytes; type := "image/jpeg" |}).
Proof.
  intros Hne Hfirst. unfold getImageBlob. rewrite Hfirst.
  rewrite base64_text_truthy by done.
  change (text_of JSON_text (default (Text "") (Some (Text (base64_text bytes)))))
    with (base64_text bytes).
  by rewrite fetch_stored.
Qed.

End blob_facts.

Section blob_claims.
Import ImagesDB.

(** C7, as amended. For every key and every non-empty byte content in a
    blob whose type is [image/] followed by letters, saved without
    metadata or with metadata that goes under a key of its own: when
    [saveImageBlob] succeeds and the primary tier either took the image
    or held no text under that key, [getImageBlob] returns a blob with
    the same bytes. *)
Theorem blob_round_trip (JSON_text : jsval → string) (key : string) (blob : Blob)
    (metadata : option jsval) (w w' : World) :
  is_image_type (type blob) = true →
  bytes blob ≠ [] →
  truthy metadata = false ∨ replace_first "img:" "meta:" key ≠ key →
  falsy_text (getItem (localStorage w) key) = true
  ∨ fits (localStorage w)
      (<[key := Text (base64_text (bytes blob))]> (items (localStorage w))) = true →
  saveImageBlob key blob metadata w = Ret w' →
  getImageBlob JSON_text key w' = Ret (Some {| bytes := bytes blob; type := "image/jpeg" |}).
Proof.
  intros Htype Hbytes Hmeta Hprimary. unfold saveImageBlob.
  rewrite (stored_text blob Htype).
  pose proof (base64_text_truthy (bytes blob) Hbytes) as Htruthy.
  set (b64 := base64_text (bytes blob)) in *.
  destruct (write_tier (localStorage w) key b64 metadata) as [ls| |] eqn:Hlocal.
  - intros [= <-]. apply get_first_tier; [done|]. unfold first_tier.
    cbn [localStorage with_local].
    by rewrite (write_tier_image _ _ _ _ _ Hmeta Hlocal), Htruthy.
  - destruct (write_tier (sessionStorage _) key b64 metadata) as [ss| |] eqn:Hsession;
      [|done..].
    intros [= <-]. apply get_first_tier; [done|]. unfold first_tier.
    cbn [localStorage sessionStorage with_local with_session].
    cbn [sessionStorage with_local] in Hsession.
    unfold after_failed_primary, setItem.
    destruct (fits (localStorage w) _) eqn:Hfits.
    + unfold getItem. cbn [items]. by rewrite !lookup_insert_eq, Htruthy.
    + destruct Hprimary as [Hfalsy|?]; [|congruence]. rewrite Hfalsy.
      apply (write_tier_image _ _ _ _ _ Hmeta Hsession).
  - unfold write_tier, setItem in Hlocal. destruct (fits (localStorage w) _); [|done].
    cbn [mbind outcome_bind] in Hlocal. destruct (truthy metadata); [|done].
    cbn [items fits] in Hlocal. by destruct (fits (localStorage w) _).
Qed.

End blob_claims.

(** Witness of [blob_round_trip]: one byte saved on an empty page under
    the key of the morning photo of the reference station. *)
Lemma blob_round_trip_witness :
  ImagesDB.getImageBlob (λ _, "") (ImagesDB.imageKey "manha" "reference")
    (with_local (page ∅ ∅)
       (unlimited {[ ImagesDB.imageKey "manha" "reference" := Text "/w==" ]}))
  = Ret (Some {| ImagesDB.bytes := [Byte.xff]; ImagesDB.type := "image/jpeg" |}).
Proof.
  apply (blob_round_trip (λ _, "") (ImagesDB.imageKey "manha" "reference")
           {| ImagesDB.bytes := [Byte.xff]; ImagesDB.type := "image/jpeg" |}
           None (page ∅ ∅));
    [reflexivity|done|by left|by left|reflexivity].
Defined.

(** C7, as stated, fails in four ways. When the primary tier is full and
    still holds an older image under the key, the save lands in the
    secondary tier and the read returns the older image. An empty
    content is saved as the empty text, which the read takes for
    nothing stored. A blob whose type has a character outside letters
    and [+] is stored with its [data:] prefix, which does not decode.
    And under a key without [img:] the metadata is written over the
    image. *)
Lemma blob_round_trip_fails :
  (∃ w', ImagesDB.saveImageBlob "img:manha:reference"
           {| ImagesDB.bytes := [Byte.xff]; ImagesDB.type := "image/jpeg" |} None
           {| localStorage := full {[ "img:manha:reference" := Text "AAAA" ]};
              sessionStorage := unlimited ∅; events := [] |} = Ret w'
     ∧ ImagesDB.getImageBlob (λ _, "") "img:manha:reference" w'
       = Ret (Some {| ImagesDB.bytes := [Byte.x00; Byte.x00; Byte.x00];
                      ImagesDB.type := "image/jpeg" |}))
  ∧ (∃ w', ImagesDB.saveImageBlob "img:manha:reference"
             {| ImagesDB.bytes := []; ImagesDB.type := "image/jpeg" |} None
             (page ∅ ∅) = Ret w'
     ∧ ImagesDB.getImageBlob (λ _, "") "img:manha:reference" w' = Ret None)
  ∧ (∃ w', ImagesDB.saveImageBlob "img:manha:reference"
             {| ImagesDB.bytes := [Byte.xff]; ImagesDB.type := "image/x-icon" |} None
             (page ∅ ∅) = Ret w'
     ∧ ImagesDB.getImageBlob (λ _, "") "img:manha:reference" w' = Ret None)
  ∧ (∃ w', ImagesDB.saveImageBlob "photo"
             {| ImagesDB.bytes := [Byte.xff]; ImagesDB.type := "image/jpeg" |}
             (Some (JBool true)) (page ∅ ∅) = Ret w'
     ∧ ImagesDB.getImageBlob (λ _, "true") "photo" w'
       = Ret (Some {| ImagesDB.bytes := [Byte.xb6; Byte.xbb; Byte.x9e];
                      ImagesDB.type := "image/jpeg" |})).
Proof. repeat split; eexists; split; reflexivity. Qed.

(** ** The same-day policy *)

Section validator_claims.
Import DateFns ImageMetadata.
Context `{Device} (Date_parse : string → Date).

Lemma competitor_not_reference (stationId : string) :
  String.prefix "competitor_" stationId = true →
  String.eqb stationId "reference" = false.
Proof.
  intros Hp. destruct (String.eqb_spec stationId "reference") as [->|]; [|done].
  discriminate Hp.
Qed.

(** [extractImageMetadata] swallows what [exifr] throws. *)
Lemma extractImageMetadata_never_throws (file : File) (e : error) :
  extractImageMetadata Date_parse file ≠ Throw e.
Proof.
  unfold extractImageMetadata. by destruct (exifr_parse file) as [[exif|]|e'|].
Qed.

Lemma extractImageMetadata_failed (file : File) (e : error) :
  exifr_parse file = Throw e → extractImageMetadata Date_parse file = Ret None.
Proof. intros Hp. unfold extractImageMetadata. by rewrite Hp. Qed.

(** The validator on a competitor, once the metadata is there. *)
Lemma validateImageDate_competitor (file : File) (stationId : string)
    (md : option ImageMetadata) :
  String.prefix "competitor_" stationId = true →
  extractImageMetadata Date_parse file = Ret md →
  validateImageDate Date_parse file stationId
  = match md with
    | None =>
        Ret (rejected "Não foi possível verificar os metadados da imagem"
               "Use a câmera para tirar uma foto atual" None)
    | Some md =>
        match dateTime md with
        | None =>
            Ret (rejected "Não foi possível verificar a data da imagem"
                   "Use a câmera para tirar uma foto atual" None)
        | Some InvalidDate =>
            Ret (rejected "Erro ao processar a imagem"
                   "Tente novamente ou use a câmera" None)
        | Some (Time ms) =>
            if local_day ms =? local_day current_time
            then Ret {| isValid := true; reason := None; suggestion := None;
                        metadata := Some md; status := Some validated |}
            else
              let '(y, m, d) := civil_from_days (local_day ms) in
              Ret (rejected
                     ("Esta imagem foi tirada em "
                        +:+ (pad 2 d +:+ "/" +:+ pad 2 m +:+ "/"
                               +:+ pad 4 (if 0 <? y then y else 1 - y))
                        +:+ ", não no dia atual")
                     "Use a câmera para tirar uma foto atual" (Some md))
        end
    end.
Proof.
  intros Hp Hmd. unfold validateImageDate.
  rewrite (competitor_not_reference _ Hp), Hp, Hmd. cbn [negb mbind outcome_bind].
  destruct md as [md|]; [|done].
  destruct (dateTime md) as [[ms|]|]; [|done..].
  cbn [isToday format_ddMMyyyy]. destruct (local_day ms =? local_day current_time); [done|].
  cbn [negb]. by destruct (civil_from_days (local_day ms)) as [[y m] d].
Qed.

(** C1. For a competitor station and a file whose extracted capture
    timestamp is a time that does not fall on the current local calendar
    day, the result is invalid, its reason names the capture date as
    day/month/year, and it carries the extracted metadata. *)
Theorem stale_photo_rejected (file : File) (stationId : string)
    (md : ImageMetadata) (ms : Z) :
  String.prefix "competitor_" stationId = true →
  extractImageMetadata Date_parse file = Ret (Some md) →
  dateTime md = Some (Time ms) →
  local_day ms ≠ local_day current_time →
  ∃ y m d,
    civil_from_days (local_day ms) = (y, m, d)
    ∧ validateImageDate Date_parse file stationId
      = Ret {| isValid := false;
               reason := Some ("Esta imagem foi tirada em "
                                 +:+ (pad 2 d +:+ "/" +:+ pad 2 m +:+ "/"
                                        +:+ pad 4 (if 0 <? y then y else 1 - y))
                                 +:+ ", não no dia atual");
               metadata := Some md;
               suggestion := Some "Use a câmera para tirar uma foto atual";
               status := Some invalid |}.
Proof.
  intros Hp Hmd Hdate Hday.
  rewrite (validateImageDate_competitor file stationId (Some md) Hp Hmd), Hdate.
  destruct (Z.eqb_spec (local_day ms) (local_day current_time)) as [|_]; [done|].
  destruct (civil_from_days (local_day ms)) as [[y m] d]. by exists y, m, d.
Qed.

(** C2, as amended. For the reference station every file is accepted
    without looking at it: the result is valid and carries neither
    status, reason, suggestion nor metadata. *)
Theorem reference_trusted (file : File) :
  validateImageDate Date_parse file "reference"
  = Ret {| isValid := true; reason := None; metadata := None;
           suggestion := None; status := None |}.
Proof. reflexivity. Qed.

(** C3, as amended. [validateImageDate] never throws. On a competitor
    station: a failure of the EXIF reader is swallowed by the extraction
    and reported as metadata that cannot be verified, as is an
    extraction that yields nothing; metadata without a capture date is
    reported as a date that cannot be verified; the generic
    error-processing result is what the failure to format a capture date
    that is not a date is turned into. The first three come with the
    suggestion to use the camera. *)
Theorem validateImageDate_failures (file : File) (stationId : string) :
  (∀ e, validateImageDate Date_parse file stationId ≠ Throw e)
  ∧ (String.prefix "competitor_" stationId = true →
     (∀ e, exifr_parse file = Throw e →
        validateImageDate Date_parse file stationId
        = Ret (rejected "Não foi possível verificar os metadados da imagem"
                 "Use a câmera para tirar uma foto atual" None))
     ∧ (extractImageMetadata Date_parse file = Ret None →
        validateImageDate Date_parse file stationId
        = Ret (rejected "Não foi possível verificar os metadados da imagem"
                 "Use a câmera para tirar uma foto atual" None))
     ∧ (∀ md, extractImageMetadata Date_parse file = Ret (Some md) →
        dateTime md = None →
        validateImageDate Date_parse file stationId
        = Ret (rejected "Não foi possível verificar a data da imagem"
                 "Use a câmera para tirar uma foto atual" None))
     ∧ (∀ md, extractImageMetadata Date_parse file = Ret (Some md) →
        dateTime md = Some InvalidDate →
        validateImageDate Date_parse file stationId
        = Ret (rejected "Erro ao processar a imagem"
                 "Tente novamente ou use a câmera" None))).
Proof.
  split.
  - intros e. unfold validateImageDate.
    destruct (String.eqb stationId "reference"); [done|].
    destruct (negb (String.prefix "competitor_" stationId)); [done|].
    eapply try_catch_never_throws. by intros _.
  - intros Hp. split; [|split; [|split]].
    + intros e He.
      by rewrite (validateImageDate_competitor file stationId None Hp
                    (extractImageMetadata_failed file e He)).
    + intros Hmd. by rewrite (validateImageDate_competitor file stationId None Hp Hmd).
    + intros md Hmd Hdate.
      by rewrite (validateImageDate_competitor file stationId (Some md) Hp Hmd), Hdate.
    + intros md Hmd Hdate.
      by rewrite (validateImageDate_competitor file stationId (Some md) Hp Hmd), Hdate.
Qed.

End validator_claims.

(** Witness of [stale_photo_rejected]: a photo of 3 March offered on
    5 March for the first competitor. *)
Lemma stale_photo_rejected_witness :
  ∃ y m d,
    DateFns.civil_from_days (@DateFns.local_day march_5 1709500000000) = (y, m, d)
    ∧ @ImageMetadata.validateImageDate march_5 reads_no_text photo_of_march_3 "competitor_1"
      = Ret {| ImageMetadata.isValid := false;
               ImageMetadata.reason :=
                 Some ("Esta imagem foi tirada em "
                         +:+ (DateFns.pad 2 d +:+ "/" +:+ DateFns.pad 2 m +:+ "/"
                                +:+ DateFns.pad 4 (if 0 <? y then y else 1 - y))
                         +:+ ", não no dia atual");
               ImageMetadata.metadata :=
                 Some {| ImageMetadata.dateTime := Some (DateFns.Time 1709500000000);
                         ImageMetadata.make := Some "Apple";
                         ImageMetadata.model := Some "iPhone 13";
                         ImageMetadata.software := None;
                         ImageMetadata.gps := None |};
               ImageMetadata.suggestion := Some "Use a câmera para tirar uma foto atual";
               ImageMetadata.status := Some ImageMetadata.invalid |}.
Proof.
  apply (@stale_photo_rejected march_5 reads_no_text photo_of_march_3 "competitor_1");
    [reflexivity|reflexivity|reflexivity|by vm_compute].
Defined.

(** The reason that witness carries, spelled out. *)
Example stale_photo_reason :
  ImageMetadata.reason
    <$> @ImageMetadata.validateImageDate march_5 reads_no_text photo_of_march_3 "competitor_1"
  = Ret (Some "Esta imagem foi tirada em 03/03/2024, não no dia atual").
Proof. reflexivity. Qed.

(** C2, as stated, fails: the result for the reference station has no
    status, so its status is not [validated]. *)
Lemma reference_has_no_status :
  ∃ r, @ImageMetadata.validateImageDate march_5 reads_no_text photo_of_march_3 "reference"
       = Ret r
    ∧ ImageMetadata.isValid r = true
    ∧ ImageMetadata.status r ≠ Some ImageMetadata.validated.
Proof. eexists. split; [reflexivity|]. by split. Qed.

(** Witness of [validateImageDate_failures]: a date tag that is not a
    date ends in the generic result. *)
Lemma validateImageDate_failures_witness :
  @ImageMetadata.validateImageDate march_5 reads_no_text photo_with_bad_date "competitor_2"
  = Ret (rejected "Erro ao processar a imagem" "Tente novamente ou use a câmera" None).
Proof.
  destruct (@validateImageDate_failures march_5 reads_no_text photo_with_bad_date
              "competitor_2") as (_ & Hcompetitor).
  destruct (Hcompetitor eq_refl) as (_ & _ & _ & Hgeneric).
  by eapply Hgeneric.
Defined.

(** C3, as stated, fails: when the EXIF reader throws, the result does not
    carry the generic reason but the one for metadata that cannot be
    verified. *)
Lemma reader_failure_is_not_generic :
  ∃ r, @ImageMetadata.validateImageDate march_5 reads_no_text unreadable_photo "competitor_1"
       = Ret r
    ∧ ImageMetadata.reason r = Some "Não foi possível verificar os metadados da imagem"
    ∧ ImageMetadata.reason r ≠ Some "Erro ao processar a imagem".
Proof. eexists. split; [reflexivity|]. by split. Qed.

(** ** The update after a successful send *)

Section submit_facts.
Import PriceForm.

Lemma is_station_inv (m : jsval) :
  is_station m = true →
  ∃ o p v z, m = JObj o ∧ o !! "prices" = Some (JObj p)
    ∧ p !! "vista" = Some (JObj v) ∧ p !! "prazo" = Some (JObj z).
Proof.
  unfold is_station. intros Hs.
  destruct m as [|b|q|s|l|o]; try done.
  destruct (o !! "prices") as [[|b|q|s|l|p]|] eqn:Hp; try done.
  destruct (p !! "vista") as [[|b|q|s|l|v]|] eqn:Hv; try done.
  destruct (p !! "prazo") as [[|b|q|s|l|z]|] eqn:Hz; try done.
  by exists o, p, v, z.
Qed.

Lemma copied_prices_station (m : jsval) :
  is_station m = true → copied_prices (Some m) = Ret (prices_copy (Some m)).
Proof.
  intros (o & p & v & z & -> & Hp & Hv & Hz)%is_station_inv.
  unfold copied_prices, prices_copy, member, opt_member, get_prop. cbn [own_props].
  rewrite Hp. cbn [mbind outcome_bind own_props]. by rewrite Hv, Hz.
Qed.

Lemma is_station_truthy (m : jsval) : is_station m = true → truthy (Some m) = true.
Proof. by intros (o & p & v & z & -> & _)%is_station_inv. Qed.

(** The copy loop changes nothing but the afternoon records of the ids
    it visits. *)
Lemma copy_loop (l : list string) (s : AppState) (proto : option jsval) :
  NoDup l →
  (∀ sid m, sid ∈ l → manha s !! sid = Some m → is_station m = true) →
  ∃ s' proto', for_each copy_step l (s, proto) = Ret (s', proto')
    ∧ manha s' = manha s ∧ names s' = names s ∧ meta s' = meta s
    ∧ concorrentesCount s' = concorrentesCount s ∧ webhookUrl s' = webhookUrl s
    ∧ ∀ sid a, tarde s !! sid = Some a →
        tarde s' !! sid
        = if decide (sid ∈ l) then copy_one (manha s !! sid) (Some a) else Some a.
Proof.
  revert s proto. induction l as [|x l IH]; intros s proto Hnd Hst.
  { exists s, proto. by repeat split. }
  apply NoDup_cons in Hnd as [Hx Hnd]. cbn [for_each].
  assert (∃ s1 proto1, copy_step (s, proto) x = Ret (s1, proto1)
            ∧ manha s1 = manha s ∧ names s1 = names s ∧ meta s1 = meta s
            ∧ concorrentesCount s1 = concorrentesCount s ∧ webhookUrl s1 = webhookUrl s
            ∧ (∀ a, tarde s !! x = Some a →
                 tarde s1 !! x = copy_one (manha s !! x) (Some a))
            ∧ ∀ sid, sid ≠ x → tarde s1 !! sid = tarde s !! sid)
    as (s1 & proto1 & -> & Hm1 & Hn1 & Hme1 & Hc1 & Hu1 & Hx1 & Hother1).
  { unfold copy_step, copy_one.
    destruct (manha s !! x) as [m|] eqn:Hmx;
      [|exists s, proto; by repeat split].
    pose proof (Hst x m (list_elem_of_here _ _) Hmx) as Hm.
    rewrite (is_station_truthy m Hm). cbn [andb].
    destruct (tarde s !! x) as [a|] eqn:Hax.
    - destruct (truthy (Some a)) eqn:Hta.
      2:{ exists s, proto. split; [done|]. repeat split; try done.
          intros ? [= <-]. by rewrite Hta, Hax. }
      rewrite (copied_prices_station m Hm). cbn [mbind outcome_bind].
      rewrite bool_decide_true by by eexists. rewrite andb_false_r.
      eexists _, _. split; [reflexivity|]. repeat split; try done.
      + intros ? [= <-]. rewrite Hta. cbn [tarde set_stations]. apply lookup_insert_eq.
      + intros sid Hne. cbn [tarde set_stations]. by apply lookup_insert_ne.
    - destruct (truthy (inherited proto x)); [|exists s, proto; by repeat split].
      rewrite (copied_prices_station m Hm). cbn [mbind outcome_bind].
      destruct (String.eqb x "__proto__" && _).
      + eexists _, _. split; [reflexivity|]. by repeat split.
      + eexists _, _. split; [reflexivity|]. repeat split; try done.
        intros sid Hne. cbn [tarde set_stations]. by apply lookup_insert_ne. }
  cbn [mbind outcome_bind].
  destruct (IH s1 proto1 Hnd) as (s' & proto' & Hrun & Hm & Hn & Hme & Hc & Hu & Ht).
  { intros sid m Hin. rewrite Hm1. apply Hst. by apply list_elem_of_further. }
  exists s', proto'. split; [done|]. rewrite Hm, Hn, Hme, Hc, Hu.
  repeat split; try done.
  intros sid a Ha. destruct (decide (sid = x)) as [->|Hne].
  - rewrite (decide_True (P := x ∈ x :: l)) by apply list_elem_of_here.
    pose proof (Hx1 a Ha) as Hcopied.
    assert (∃ a1, copy_one (manha s !! x) (Some a) = Some a1) as [a1 Ha1]
      by (unfold copy_one; destruct (_ && _); by eexists).
    rewrite Ha1 in Hcopied |- *. rewrite (Ht x a1 Hcopied). by rewrite decide_False.
  - rewrite <- (Hother1 sid Hne) in Ha. rewrite (Ht sid a Ha), Hm1.
    destruct (decide (sid ∈ l)) as [Hin|Hin].
    + by rewrite decide_True by by apply list_elem_of_further.
    + by rewrite decide_False by (intros [?|?]%elem_of_cons; done).
Qed.

(** The clearing loop replaces the records of the ids it visits. *)
Lemma clear_loop (p : PeriodKey) (l : list string) (s : AppState) :
  NoDup l →
  ∀ sid, stations p (foldl (clear_step p) s l) !! sid
         = if decide (sid ∈ l) then Some (cleared (stations p s !! sid))
           else stations p s !! sid.
Proof.
  revert s. induction l as [|x l IH]; intros s Hnd sid; cbn [foldl].
  { by rewrite decide_False by apply not_elem_of_nil. }
  apply NoDup_cons in Hnd as [Hx Hnd]. rewrite (IH _ Hnd).
  assert (stations p (clear_step p s x)
          = <[x := cleared (stations p s !! x)]> (stations p s)) as -> by by destruct p.
  destruct (decide (sid = x)) as [->|Hne].
  - rewrite decide_False by done.
    rewrite (decide_True (P := x ∈ x :: l)) by apply list_elem_of_here.
    apply lookup_insert_eq.
  - rewrite lookup_insert_ne by done. destruct (decide (sid ∈ l)) as [Hin|Hin].
    + by rewrite decide_True by by apply list_elem_of_further.
    + by rewrite decide_False by (intros [?|?]%elem_of_cons; done).
Qed.

(** The clearing loop of one period leaves the other period alone. *)
Lemma clear_loop_other (l : list string) (s : AppState) :
  tarde (foldl (clear_step Manha) s l) = tarde s.
Proof. revert s. induction l as [|x l IH]; intros s; [done|]. cbn [foldl]. by rewrite IH. Qed.

Lemma elem_of_keys (m : gmap string jsval) (sid : string) :
  sid ∈ keys m ↔ is_Some (m !! sid).
Proof.
  unfold keys. rewrite list_elem_of_fmap. split.
  - intros ([k v] & -> & Hin). apply elem_of_map_to_list in Hin. by eexists.
  - intros [v Hv]. exists (sid, v). split; [done|]. by apply elem_of_map_to_list.
Qed.

Lemma NoDup_keys (m : gmap string jsval) : NoDup (keys m).
Proof. apply NoDup_fst_map_to_list. Qed.

End submit_facts.

Section submit_claims.
Import PriceForm.
Context `{Platform} (Object_keys : gmap string jsval → list string).

(** What is used of [Object.keys]: it lists the keys of the object,
    each once. *)
Lemma NoDup_Object_keys (m : gmap string jsval) :
  (∀ m, Object_keys m ≡ₚ keys m) → NoDup (Object_keys m).
Proof. intros Hkeys. rewrite (Hkeys m). apply NoDup_keys. Qed.

Lemma elem_of_Object_keys (m : gmap string jsval) (sid : string) :
  (∀ m, Object_keys m ≡ₚ keys m) → sid ∈ Object_keys m ↔ is_Some (m !! sid).
Proof. intros Hkeys. rewrite (Hkeys m). apply elem_of_keys. Qed.

Lemma deleteImagesForPeriod_local (p : PeriodKey) (w : World) :
  fits (localStorage (deleteImagesForPeriod p w)) = fits (localStorage w).
Proof.
  unfold deleteImagesForPeriod. generalize ("reference" :: ((λ i, "competitor_" +:+ pretty i) <$> seqZ 1 10)).
  intros l. revert w. induction l as [|id l IH]; intros w; [done|].
  cbn [foldl]. by rewrite IH.
Qed.

Lemma copied_blocks (m a : jsval) (rest : gmap string jsval) :
  is_station m = true →
  price_block (JObj (<["noChange" := JBool false]>
                       (<["prices" := prices_copy (Some m)]> rest))) "vista"
  = price_block m "vista"
  ∧ price_block (JObj (<["noChange" := JBool false]>
                         (<["prices" := prices_copy (Some m)]> rest))) "prazo"
    = price_block m "prazo".
Proof.
  intros (o & p & v & z & -> & Hp & Hv & Hz)%is_station_inv.
  unfold price_block, prices_copy, get_prop, opt_member, get_prop. cbn [own_props].
  rewrite lookup_insert_ne, lookup_insert_eq by done. rewrite Hp. cbn [own_props].
  rewrite lookup_insert_eq, lookup_insert_ne, lookup_insert_eq by done.
  by rewrite Hv, Hz.
Qed.

Lemma cleared_fields (m : jsval) :
  get_prop (cleared (Some m)) "photoBase64" = Some (JStr "")
  ∧ get_prop (cleared (Some m)) "metadata" = None
  ∧ get_prop (cleared (Some m)) "noChange" = Some (JBool false)
  ∧ (is_station m = true → get_prop (cleared (Some m)) "prices" = get_prop m "prices").
Proof.
  unfold cleared, get_prop. cbn [own_props]. repeat split.
  - by rewrite lookup_insert_ne, lookup_delete_ne, lookup_insert_eq.
  - by rewrite lookup_insert_ne, lookup_delete_eq.
  - by rewrite lookup_insert_eq.
  - intros (o & p & v & z & -> & _)%is_station_inv. cbn [own_props].
    by rewrite lookup_insert_ne, lookup_delete_ne, lookup_insert_ne.
Qed.

(** C6. After a morning send that the webhook answered with 2xx, and
    with every morning record a station record, in whatever order
    [Object.keys] lists the stations: for every station that
    has a record in both periods, the afternoon record holds the vista
    and prazo prices of the morning record as they were; every morning
    record has an empty photo, no metadata, [noChange] false and the
    prices it had. This is the state that is persisted. *)
Theorem morning_submission (now : string) (w : World) (next : AppState) :
  (∀ m, Object_keys m ≡ₚ keys m) →
  readAppState now w = Ret next →
  (∀ sid m, manha next !! sid = Some m → is_station m = true) →
  (∀ m, fits (localStorage w) m = true) →
  ∃ st w', submitted Object_keys Manha now w = Ret (st, w')
    ∧ persisted w' = Some (Json (to_json (stamped now st)))
    ∧ (∀ sid m a, manha next !! sid = Some m → tarde next !! sid = Some a →
         truthy (Some a) = true →
         ∃ a', tarde st !! sid = Some a'
           ∧ price_block a' "vista" = price_block m "vista"
           ∧ price_block a' "prazo" = price_block m "prazo")
    ∧ (∀ sid m, manha next !! sid = Some m →
         ∃ m', manha st !! sid = Some m'
           ∧ get_prop m' "photoBase64" = Some (JStr "")
           ∧ get_prop m' "metadata" = None
           ∧ get_prop m' "noChange" = Some (JBool false)
           ∧ get_prop m' "prices" = get_prop m "prices").
Proof.
  intros Hkeys Hread Hst Hfits. unfold submitted. rewrite Hread.
  cbn [mbind outcome_bind].
  set (next1 := set_meta _ next).
  destruct (copy_loop (Object_keys (manha next1)) next1 None (NoDup_Object_keys _ Hkeys))
    as (next2 & proto & -> & Hm2 & _ & _ & _ & _ & Ht2).
  { intros sid m _. apply Hst. }
  cbn [mbind outcome_bind stations fst].
  set (next3 := foldl (clear_step Manha) next2 (Object_keys (manha next2))).
  destruct (saveAppState_fits now next3 (deleteImagesForPeriod Manha w)) as [w2 Hsave].
  { intros m. by rewrite deleteImagesForPeriod_local. }
  rewrite Hsave. cbn [mbind outcome_bind]. exists next3, w2.
  split; [done|]. split; [by apply persisted_saved in Hsave as [? _]|]. split.
  - intros sid m a Hm Ha Hta. subst next3. rewrite clear_loop_other.
    rewrite (Ht2 sid a) by done.
    change (manha next1) with (manha next).
    rewrite decide_True by (apply elem_of_Object_keys; [done|by rewrite Hm]).
    rewrite Hm. unfold copy_one.
    rewrite (is_station_truthy m (Hst sid m Hm)), Hta. cbn [andb].
    eexists. split; [done|]. apply (copied_blocks m a), (Hst sid m Hm).
  - intros sid m Hm.
    pose proof (clear_loop Manha (Object_keys (manha next2)) next2
                  (NoDup_Object_keys _ Hkeys) sid) as Hc.
    cbn [stations] in Hc. fold next3 in Hc. rewrite Hc, Hm2.
    change (manha next1) with (manha next).
    rewrite decide_True by (apply elem_of_Object_keys; [done|by rewrite Hm]). rewrite Hm.
    eexists. split; [done|].
    destruct (cleared_fields m) as (? & ? & ? & Hprices).
    repeat split; try done. apply Hprices, (Hst sid m Hm).
Qed.

End submit_claims.

(** Witness of [morning_submission]: one competitor, the morning filled
    in for the reference station, the afternoon still empty. *)
Lemma morning_submission_witness :
  ∃ st w', @PriceForm.submitted strict_host PriceForm.keys Manha
             "2024-03-05T12:00:00.000Z"
             (page {[ STORAGE_KEY := Json stored_morning ]} ∅) = Ret (st, w')
    ∧ persisted w' = Some (Json (to_json (stamped "2024-03-05T12:00:00.000Z" st)))
    ∧ (∀ sid m a, manha morning_state !! sid = Some m →
         tarde morning_state !! sid = Some a → truthy (Some a) = true →
         ∃ a', tarde st !! sid = Some a'
           ∧ price_block a' "vista" = price_block m "vista"
           ∧ price_block a' "prazo" = price_block m "prazo")
    ∧ (∀ sid m, manha morning_state !! sid = Some m →
         ∃ m', manha st !! sid = Some m'
           ∧ get_prop m' "photoBase64" = Some (JStr "")
           ∧ get_prop m' "metadata" = None
           ∧ get_prop m' "noChange" = Some (JBool false)
           ∧ get_prop m' "prices" = get_prop m "prices").
Proof.
  apply (@morning_submission strict_host PriceForm.keys "2024-03-05T12:00:00.000Z"
           (page {[ STORAGE_KEY := Json stored_morning ]} ∅) morning_state).
  - done.
  - vm_compute. reflexivity.
  - apply map_Forall_lookup. apply (bool_decide_unpack _). by vm_compute.
  - done.
Defined.

(** A morning record stored under the id [constructor], the afternoon
    without a record of its own for it: the lookup finds the inherited
    method, and the step gives the afternoon a record that holds the
    morning prices and [noChange] false. *)
Example copy_step_inherited_id :
  PriceForm.copy_step
    (set_stations Manha {[ "constructor" := filled_station ]}
       (set_stations Tarde ∅ morning_state), None) "constructor"
  = Ret (set_stations Tarde
           {[ "constructor" :=
                JObj (<["noChange" := JBool false]>
                     {[ "prices" := prices_copy (Some filled_station) ]}) ]}
           (set_stations Manha {[ "constructor" := filled_station ]}
              (set_stations Tarde ∅ morning_state)), None).
Proof. vm_compute. reflexivity. Qed.

(** The same for the id [__proto__]: the assignment goes to the setter,
    the afternoon gets no record of its own and the new record becomes
    the prototype the later lookups walk to. *)
Example copy_step_proto_id :
  PriceForm.copy_step
    (set_stations Manha {[ "__proto__" := filled_station ]}
       (set_stations Tarde ∅ morning_state), None) "__proto__"
  = Ret (set_stations Manha {[ "__proto__" := filled_station ]}
           (set_stations Tarde ∅ morning_state),
         Some (JObj (<["noChange" := JBool false]>
                    {[ "prices" := prices_copy (Some filled_station) ]}))).
Proof. vm_compute. reflexivity. Qed.

(** The spread of a string copies its UTF-16 code units: a character
    outside the basic plane gives two indices, one for each half. *)
Example own_props_of_text :
  length (chars "a😀é") = 4%nat
  ∧ dom (own_props (Some (JStr "a😀é"))) = {[ "0"; "1"; "2"; "3" ]}
  ∧ own_props (Some (JStr "a😀é")) !! "3" = Some (JStr "é").
Proof. repeat split; vm_compute; reflexivity. Qed.

(** ** Double arithmetic *)

Section double_facts.
Import Resize.

Lemma pow2_pos (e : Z) : (0 < 2 ^ e)%Q.
Proof. by apply Qpower_0_lt. Qed.

Lemma pow2_split (a b : Z) : (2 ^ (a + b) == 2 ^ a * 2 ^ b)%Q.
Proof. by apply Qpower_plus. Qed.

Lemma pow2_Z (a : Z) : 0 ≤ a → (2 ^ a == inject_Z (2 ^ a))%Q.
Proof. intros Ha. symmetry. by apply (Zpower_Qpower 2). Qed.

Lemma pow2_le (a b : Z) : a ≤ b → (2 ^ a <= 2 ^ b)%Q.
Proof. intros Hab. by apply Qpower_le_compat_l. Qed.

Lemma pow2_lt_inv (a b : Z) : (2 ^ a < 2 ^ b)%Q → a < b.
Proof.
  intros Hlt. destruct (Z.lt_ge_cases a b) as [|Hge]; [done|].
  apply pow2_le in Hge. lra.
Qed.

(** The quotient of two positive whole numbers lies within a factor of
    two of the power of two their binary lengths give. *)
Lemma log2_bounds (q : Q) :
  (0 < q)%Q →
  let e := Z.log2 (Qnum q) - Z.log2 (Zpos (Qden q)) in
  (2 ^ (e - 1) <= q)%Q ∧ (q < 2 ^ (e + 1))%Q.
Proof.
  intros Hq. cbv zeta. destruct q as [n d]. cbn [Qnum Qden].
  assert (0 < n) as Hn by (unfold Qlt in Hq; simpl in Hq; lia).
  pose proof (Z.log2_spec n Hn) as [Hn1 Hn2].
  pose proof (Z.log2_spec (Z.pos d) (Pos2Z.is_pos d)) as [Hd1 Hd2].
  pose proof (Z.log2_nonneg n) as Ha. pose proof (Z.log2_nonneg (Z.pos d)) as Hb.
  set (a := Z.log2 n) in *. set (b := Z.log2 (Z.pos d)) in *.
  rewrite !Z.pow_succ_r in * by lia.
  assert (0 < 2 ^ b) as HB by lia.
  assert (2 ^ (a - b - 1) == inject_Z (2 ^ a) / (2 * inject_Z (2 ^ b)))%Q as ->.
  { replace (a - b - 1) with (a + (- b + - 1)) by lia.
    rewrite !pow2_split, !Qpower_opp, !pow2_Z by lia.
    change (2 ^ (-1))%Q with (/ 2)%Q. field. unfold Qeq. simpl. lia. }
  assert (2 ^ (a - b + 1) == (2 * inject_Z (2 ^ a)) / inject_Z (2 ^ b))%Q as ->.
  { replace (a - b + 1) with (a + (- b + 1)) by lia.
    rewrite !pow2_split, !Qpower_opp. change (2 ^ 1)%Q with 2%Q.
    rewrite !pow2_Z by lia. field. unfold Qeq. simpl. lia. }
  set (A := 2 ^ a) in *. set (B := 2 ^ b) in *.
  split.
  - apply Qle_shift_div_r.
    + change 2%Q with (inject_Z 2). change 0%Q with (inject_Z 0).
      rewrite <- inject_Z_mult, <- Zlt_Qlt. lia.
    + change 2%Q with (inject_Z 2). rewrite <- inject_Z_mult.
      unfold Qle. simpl. rewrite Pos.mul_1_r. nia.
  - apply Qlt_shift_div_l.
    + change 0%Q with (inject_Z 0). rewrite <- Zlt_Qlt. lia.
    + change 2%Q with (inject_Z 2). rewrite <- inject_Z_mult.
      unfold Qlt. simpl. nia.
Qed.

Lemma ulp_exponent_spec (q : Q) :
  (0 < q)%Q →
  (2 ^ (ulp_exponent q + 52) <= q)%Q ∧ (q < 2 ^ (ulp_exponent q + 53))%Q.
Proof.
  intros Hq. destruct (log2_bounds q Hq) as [Hlo Hhi]. unfold ulp_exponent.
  set (e := Z.log2 (Qnum q) - Z.log2 (Z.pos (Qden q))) in *.
  destruct (Qle_bool (2 ^ e) q) eqn:Hle.
  - apply Qle_bool_iff in Hle.
    replace (e - 52 + 52) with e by lia. replace (e - 52 + 53) with (e + 1) by lia.
    done.
  - assert (q < 2 ^ e)%Q as Hlt.
    { apply Qnot_le_lt. intros Hge. apply Qle_bool_iff in Hge. congruence. }
    replace (e - 1 - 52 + 52) with (e - 1) by lia.
    replace (e - 1 - 52 + 53) with e by lia. done.
Qed.

(** The exponent is the only one that puts the significand in range. *)
Lemma ulp_exponent_unique (q : Q) (e : Z) :
  (2 ^ (e + 52) <= q)%Q → (q < 2 ^ (e + 53))%Q → ulp_exponent q = e.
Proof.
  intros Hlo Hhi.
  assert (0 < q)%Q as Hq by (pose proof (pow2_pos (e + 52)); lra).
  destruct (ulp_exponent_spec q Hq) as [Hlo' Hhi'].
  assert (ulp_exponent q + 52 < e + 53) by (apply pow2_lt_inv; lra).
  assert (e + 52 < ulp_exponent q + 53) by (apply pow2_lt_inv; lra).
  lia.
Qed.

Lemma ulp_exponent_proper (p q : Q) :
  (0 < p)%Q → (p == q)%Q → ulp_exponent p = ulp_exponent q.
Proof.
  intros Hp Heq. destruct (ulp_exponent_spec p Hp) as [Hlo Hhi].
  symmetry. apply ulp_exponent_unique; lra.
Qed.

Lemma ulp_exponent_mono (p q : Q) :
  (0 < p)%Q → (p <= q)%Q → ulp_exponent p ≤ ulp_exponent q.
Proof.
  intros Hp Hpq. destruct (ulp_exponent_spec p Hp) as [Hlo Hhi].
  destruct (ulp_exponent_spec q) as [Hlo' Hhi']; [lra|].
  assert (ulp_exponent p + 52 < ulp_exponent q + 53) by (apply pow2_lt_inv; lra).
  lia.
Qed.

(** Rounding a significand to a whole number. *)

Lemma nearest_even_close (y : Q) :
  (inject_Z (nearest_even y) - y <= 1 # 2)%Q ∧ (y - inject_Z (nearest_even y) <= 1 # 2)%Q.
Proof.
  unfold nearest_even. pose proof (Qfloor_le y) as Hlo. pose proof (Qlt_floor y) as Hhi.
  rewrite inject_Z_plus in Hhi. change (inject_Z 1) with 1%Q in Hhi.
  destruct (Qcompare_spec (y - inject_Z (Qfloor y)) (1 # 2)) as [Heq|Hlt|Hgt].
  - destruct (Z.even (Qfloor y)); rewrite ?inject_Z_plus; change (inject_Z 1) with 1%Q; lra.
  - lra.
  - rewrite inject_Z_plus. change (inject_Z 1) with 1%Q. lra.
Qed.

Lemma nearest_even_whole (y : Q) (k : Z) : (y == inject_Z k)%Q → nearest_even y = k.
Proof.
  intros Hy. unfold nearest_even.
  assert (Qfloor y = k) as -> by (rewrite Hy; apply Qfloor_Z).
  destruct (Qcompare_spec (y - inject_Z k) (1 # 2)) as [Heq|Hlt|Hgt]; [lra|done|lra].
Qed.

Lemma nearest_even_mono (x y : Q) : (x <= y)%Q → nearest_even x ≤ nearest_even y.
Proof.
  intros Hxy. pose proof (Qfloor_resp_le _ _ Hxy) as Hfl.
  pose proof (Qfloor_le x) as Hx1. pose proof (Qlt_floor x) as Hx2.
  pose proof (Qfloor_le y) as Hy1. pose proof (Qlt_floor y) as Hy2.
  rewrite inject_Z_plus in Hx2, Hy2. change (inject_Z 1) with 1%Q in Hx2, Hy2.
  unfold nearest_even.
  destruct (Z.eq_dec (Qfloor x) (Qfloor y)) as [Heq|Hne].
  - rewrite <- Heq in *.
    destruct (Qcompare_spec (x - inject_Z (Qfloor x)) (1 # 2)) as [Hx|Hx|Hx];
      destruct (Qcompare_spec (y - inject_Z (Qfloor x)) (1 # 2)) as [Hy|Hy|Hy];
      try destruct (Z.even (Qfloor x)); first [lia | lra].
  - assert (Qfloor x + 1 ≤ Qfloor y) by lia.
    destruct (Qcompare_spec (x - inject_Z (Qfloor x)) (1 # 2)) as [Hx|Hx|Hx];
      destruct (Qcompare_spec (y - inject_Z (Qfloor y)) (1 # 2)) as [Hy|Hy|Hy];
      try destruct (Z.even (Qfloor x)); try destruct (Z.even (Qfloor y)); lia.
Qed.

(** Rounding a positive number. *)

Lemma pow2_52 (e : Z) : (2 ^ (e + 52) == 2 ^ e * 4503599627370496)%Q.
Proof. by rewrite pow2_split. Qed.

Lemma pow2_53 (e : Z) : (2 ^ (e + 53) == 2 ^ e * 9007199254740992)%Q.
Proof. by rewrite pow2_split. Qed.

Lemma significand_range (q : Q) :
  (0 < q)%Q →
  (4503599627370496 <= q / 2 ^ ulp_exponent q)%Q
  ∧ (q / 2 ^ ulp_exponent q < 9007199254740992)%Q.
Proof.
  intros Hq. destruct (ulp_exponent_spec q Hq) as [Hlo Hhi].
  rewrite pow2_52 in Hlo. rewrite pow2_53 in Hhi.
  pose proof (pow2_pos (ulp_exponent q)) as HE.
  split.
  - apply Qle_shift_div_l; [done|]. lra.
  - apply Qlt_shift_div_r; [done|]. lra.
Qed.

Lemma nearest_even_range (y : Q) :
  (4503599627370496 <= y)%Q → (y <= 9007199254740992)%Q →
  4503599627370496 ≤ nearest_even y ≤ 9007199254740992.
Proof.
  intros Hlo Hhi. split.
  - rewrite <- (nearest_even_whole 4503599627370496 4503599627370496 (Qeq_refl _)).
    by apply nearest_even_mono.
  - rewrite <- (nearest_even_whole 9007199254740992 9007199254740992 (Qeq_refl _)).
    by apply nearest_even_mono.
Qed.

Lemma round_positive_bounds (q : Q) :
  (0 < q)%Q →
  (2 ^ (ulp_exponent q + 52) <= round_positive q)%Q
  ∧ (round_positive q <= 2 ^ (ulp_exponent q + 53))%Q.
Proof.
  intros Hq. destruct (significand_range q Hq) as [Hlo Hhi].
  destruct (nearest_even_range (q / 2 ^ ulp_exponent q)) as [Hm1 Hm2]; [lra..|].
  rewrite pow2_52, pow2_53. unfold round_positive.
  set (m := nearest_even _) in *. pose proof (pow2_pos (ulp_exponent q)) as HE.
  set (E := (2 ^ ulp_exponent q)%Q) in *.
  rewrite Zle_Qle in Hm1, Hm2.
  change (inject_Z 4503599627370496) with 4503599627370496%Q in Hm1.
  change (inject_Z 9007199254740992) with 9007199254740992%Q in Hm2.
  split; nra.
Qed.

Lemma round_positive_close (q : Q) :
  (0 < q)%Q →
  (q * (1 - (1 # 9007199254740992)) <= round_positive q)%Q
  ∧ (round_positive q <= q * (1 + (1 # 9007199254740992)))%Q.
Proof.
  intros Hq. destruct (significand_range q Hq) as [Hlo Hhi].
  destruct (nearest_even_close (q / 2 ^ ulp_exponent q)) as [Hc1 Hc2].
  unfold round_positive.
  set (m := nearest_even _) in *. pose proof (pow2_pos (ulp_exponent q)) as HE.
  set (E := (2 ^ ulp_exponent q)%Q) in *.
  assert (q == (q / E) * E)%Q as Hq' by (field; lra).
  set (y := (q / E)%Q) in *. rewrite Hq'. clearbody y m E. clear Hq' Hq.
  split; nra.
Qed.

Lemma round_positive_mono (p q : Q) :
  (0 < p)%Q → (p <= q)%Q → (round_positive p <= round_positive q)%Q.
Proof.
  intros Hp Hpq. assert (0 < q)%Q as Hq by lra.
  pose proof (ulp_exponent_mono p q Hp Hpq) as He.
  destruct (Z.eq_dec (ulp_exponent p) (ulp_exponent q)) as [Heq|Hne].
  - unfold round_positive. rewrite Heq.
    pose proof (pow2_pos (ulp_exponent q)) as HE.
    apply Qmult_le_compat_r; [|lra].
    rewrite <- Zle_Qle. apply nearest_even_mono.
    apply Qmult_le_compat_r; [done|]. apply Qinv_le_0_compat. lra.
  - destruct (round_positive_bounds p Hp) as [_ Hhi].
    destruct (round_positive_bounds q Hq) as [Hlo _].
    apply Qle_trans with (2 ^ (ulp_exponent p + 53))%Q; [done|].
    apply Qle_trans with (2 ^ (ulp_exponent q + 52))%Q; [|done].
    apply pow2_le. lia.
Qed.

Lemma round_positive_whole (n : Z) :
  0 < n ≤ 9007199254740992 → (round_positive (inject_Z n) == inject_Z n)%Q.
Proof.
  intros Hn.
  assert (0 < inject_Z n)%Q as Hq by (change 0%Q with (inject_Z 0); rewrite <- Zlt_Qlt; lia).
  destruct (ulp_exponent_spec _ Hq) as [Hlo _].
  assert (inject_Z n <= 2 ^ 53)%Q as Hhi.
  { change (2 ^ 53)%Q with (inject_Z 9007199254740992). rewrite <- Zle_Qle. lia. }
  unfold round_positive. set (e := ulp_exponent (inject_Z n)) in *.
  pose proof (pow2_pos e) as HE.
  destruct (Z.le_gt_cases e 0) as [He|He].
  - rewrite (nearest_even_whole _ (n * 2 ^ (- e))).
    + rewrite inject_Z_mult, <- pow2_Z by lia. rewrite Qpower_opp. field. lra.
    + rewrite inject_Z_mult, <- pow2_Z by lia. rewrite Qpower_opp. done.
  - assert (e + 52 ≤ 53).
    { destruct (Z.le_gt_cases (e + 52) 53) as [|Hgt]; [done|].
      assert (2 ^ 53 < 2 ^ (e + 52))%Q by (apply Qpower_lt_compat_l; [lia|done]).
      lra. }
    assert (e = 1) as -> by lia.
    change (2 ^ (1 + 52))%Q with (2 ^ 53)%Q in Hlo.
    assert (inject_Z n == 2 ^ 53)%Q as Hn' by lra.
    rewrite (nearest_even_whole _ 4503599627370496).
    + rewrite Hn'. done.
    + rewrite Hn'. done.
Qed.

Lemma round_positive_pos (q : Q) : (0 < q)%Q → (0 < round_positive q)%Q.
Proof.
  intros Hq. destruct (round_positive_bounds q Hq) as [Hlo _].
  pose proof (pow2_pos (ulp_exponent q + 52)). lra.
Qed.

Lemma binary64_pos (q : Q) : (0 < q)%Q → binary64 q = round_positive q.
Proof. intros Hq. unfold binary64. by rewrite (proj1 (Qgt_alt q 0) Hq). Qed.

Lemma binary64_neg (q : Q) : (q < 0)%Q → binary64 q = (- round_positive (- q))%Q.
Proof. intros Hq. unfold binary64. by rewrite (proj1 (Qlt_alt q 0) Hq). Qed.

Lemma binary64_zero (q : Q) : (q == 0)%Q → binary64 q = 0%Q.
Proof. intros Hq. unfold binary64. by rewrite (proj1 (Qeq_alt q 0) Hq). Qed.

Lemma binary64_monotone (p q : Q) : (p <= q)%Q → (binary64 p <= binary64 q)%Q.
Proof.
  intros Hpq.
  destruct (Q_dec p 0) as [[Hp|Hp]|Hp]; destruct (Q_dec q 0) as [[Hq|Hq]|Hq];
    rewrite ?(binary64_pos p), ?(binary64_neg p), ?(binary64_zero p),
            ?(binary64_pos q), ?(binary64_neg q), ?(binary64_zero q) by done;
    try lra.
  - apply Qopp_le_compat. apply round_positive_mono; lra.
  - assert (0 < round_positive (- p))%Q by (apply round_positive_pos; lra).
    assert (0 < round_positive q)%Q by (apply round_positive_pos; lra). lra.
  - assert (0 < round_positive (- p))%Q by (apply round_positive_pos; lra). lra.
  - by apply round_positive_mono.
  - assert (0 < round_positive q)%Q by (apply round_positive_pos; lra). lra.
Qed.

Lemma binary64_whole (n : Z) :
  - two53 ≤ n ≤ two53 → (binary64 (inject_Z n) == inject_Z n)%Q.
Proof.
  unfold two53. intros Hn. destruct (Z.lt_trichotomy n 0) as [Hneg|[->|Hpos]].
  - rewrite binary64_neg by (change 0%Q with (inject_Z 0); rewrite <- Zlt_Qlt; lia).
    rewrite <- inject_Z_opp, round_positive_whole by lia.
    rewrite inject_Z_opp. ring.
  - done.
  - rewrite binary64_pos by (change 0%Q with (inject_Z 0); rewrite <- Zlt_Qlt; lia).
    apply round_positive_whole. lia.
Qed.

(** Double rounding has the properties the resize step needs. *)
Lemma binary64_standard : standard_rounding binary64.
Proof.
  split.
  - apply binary64_monotone.
  - apply binary64_whole.
  - intros q Hlo _. rewrite binary64_pos by lra. unfold half_ulp.
    apply round_positive_close. lra.
Qed.

End double_facts.

(** ** The resize step *)

Section resize_facts.
Import Resize.
Context (rnd : Q → Q) (Hrnd : standard_rounding rnd).

Lemma rnd_proper (p q : Q) : (p == q)%Q → (rnd p == rnd q)%Q.
Proof using Hrnd.
  intros Heq. apply Qle_antisym; apply (rnd_monotone rnd Hrnd); rewrite Heq; apply Qle_refl.
Qed.

Lemma Qfloor_between (n : Z) (x : Q) :
  (inject_Z n <= x)%Q → (x < inject_Z (n + 1))%Q → Qfloor x = n.
Proof.
  intros Hlo Hhi. apply Z.le_antisymm.
  - apply Z.lt_succ_r. rewrite Zlt_Qlt. eapply Qle_lt_trans; [apply Qfloor_le|].
    by rewrite <- Z.add_1_r.
  - rewrite <- (Qfloor_Z n). by apply Qfloor_resp_le.
Qed.

Lemma Math_round_whole (n : Z) (x : Q) : (x == inject_Z n)%Q → Math_round x = n.
Proof.
  intros Hx. unfold Math_round.
  apply Qfloor_between; rewrite Hx, ?inject_Z_plus; change (inject_Z 1) with 1%Q; lra.
Qed.

Lemma Math_round_near (x : Q) :
  (inject_Z (Math_round x) <= x + (1 # 2))%Q ∧ (x - (1 # 2) < inject_Z (Math_round x))%Q.
Proof.
  unfold Math_round. split; [apply Qfloor_le|].
  pose proof (Qlt_floor (x + (1 # 2))) as Hlt. rewrite inject_Z_plus in Hlt.
  change (inject_Z 1) with 1%Q in Hlt. lra.
Qed.

(** One side of the canvas, for a side [d] of the picture no longer than
    the longer side [m], when [m] exceeds the bound. *)
Lemma scaled_side (m d : Z) :
  600 < m < 4294967296 → 0 ≤ d ≤ m →
  let exact := (inject_Z d * (600 / inject_Z m))%Q in
  let side := Math_round (rnd (inject_Z d * Qmin 1 (rnd (600 / inject_Z m)))%Q) in
  side ≤ 600
  ∧ (inject_Z side - exact <= (1 # 2) + (1 # 1099511627776))%Q
  ∧ (exact - inject_Z side <= (1 # 2) + (1 # 1099511627776))%Q.
Proof using Hrnd.
  intros Hm Hd. cbv zeta.
  set (M := inject_Z m). set (D := inject_Z d). set (a := (600 / M)%Q).
  assert (600 < M)%Q as HM600 by (subst M; unfold Qlt; simpl; lia).
  assert (M < 4294967296)%Q as HMhi by (subst M; unfold Qlt; simpl; lia).
  assert (0 <= D)%Q as HD0 by (subst D; unfold Qle; simpl; lia).
  assert (D <= M)%Q as HDM by (subst D M; rewrite <- Zle_Qle; lia).
  assert (a * M == 600)%Q as HaM by (subst a; field; lra).
  assert (0 < a)%Q as Ha0 by (subst a; apply Qlt_shift_div_l; lra).
  assert (a < 1)%Q as Ha1 by (subst a; apply Qlt_shift_div_r; lra).
  assert (601 <= M)%Q as HM601 by (subst M; unfold Qle; simpl; lia).
  assert ((1 # 18446744073709551616) <= a)%Q as Halo by nra.
  assert (a <= 600 # 601)%Q as Hahi by nra.
  destruct (rnd_close rnd Hrnd a Halo) as [Hrlo Hrhi]; [lra|].
  unfold half_ulp in *. set (r := rnd a) in *.
  assert (Qmin 1 r == r)%Q as Hmin by (apply Q.min_r; lra).
  assert (Math_round (rnd (D * Qmin 1 r)) = Math_round (rnd (D * r))) as ->.
  { unfold Math_round. apply Qfloor_comp. apply Qplus_comp; [|done].
    apply rnd_proper. by rewrite Hmin. }
  destruct (Z.eq_dec d 0) as [->|Hd0].
  - assert (rnd (D * r) == inject_Z 0)%Q as Hzero.
    { rewrite <- (rnd_whole rnd Hrnd 0) by done. apply rnd_proper. subst D. ring. }
    rewrite (Math_round_whole 0 _ Hzero). subst D. change (inject_Z 0) with 0%Q.
    split; [lia|]. split; lra.
  - assert (1 <= D)%Q as HD1 by (subst D; unfold Qle; simpl; lia).
    set (t := (D * a)%Q). set (q := (D * r)%Q).
    assert (t <= 600)%Q as Ht by (subst t; nra).
    assert (0 <= t)%Q as Ht0 by (subst t; nra).
    assert (q <= t * (1 + (1 # 9007199254740992)))%Q as Hqhi by (subst q t; nra).
    assert (t * (1 - (1 # 9007199254740992)) <= q)%Q as Hqlo by (subst q t; nra).
    assert ((1 # 18446744073709551616) <= q)%Q as Hq64 by (subst q; nra).
    destruct (rnd_close rnd Hrnd q Hq64) as [Hxlo Hxhi]; [subst q; nra|].
    unfold half_ulp in *. set (x := rnd q) in *.
    destruct (Math_round_near x) as [Hup Hdown].
    set (out := Math_round x) in *.
    assert (x <= t * (1 + (1 # 9007199254740992)) * (1 + (1 # 9007199254740992)))%Q
      as Hx1 by nra.
    assert (t * (1 - (1 # 9007199254740992)) * (1 - (1 # 9007199254740992)) <= x)%Q
      as Hx2 by nra.
    split; [|split; lra].
    assert (inject_Z out < inject_Z 601)%Q as Hlt by (change (inject_Z 601) with 601%Q; lra).
    rewrite <- Zlt_Qlt in Hlt. lia.
Qed.

(** One side of the canvas when the longer side [m] is within the bound:
    the quotient rounds to at least 1, so the scale is 1. *)
Lemma unscaled_side (m d : Z) :
  0 < m ≤ 600 → 0 ≤ d < 4294967296 →
  Math_round (rnd (inject_Z d * Qmin 1 (rnd (600 / inject_Z m)))%Q) = d.
Proof using Hrnd.
  intros Hm Hd. apply Math_round_whole.
  transitivity (rnd (inject_Z d)); [|apply (rnd_whole rnd Hrnd); unfold two53; lia].
  apply rnd_proper.
  assert (Qmin 1 (rnd (600 / inject_Z m)) == 1)%Q as ->; [|ring].
  apply Q.min_l.
  apply Qle_trans with (rnd (inject_Z 1)); [by rewrite (rnd_whole rnd Hrnd 1)|].
  apply (rnd_monotone rnd Hrnd). change (inject_Z 1) with 1%Q.
  apply Qle_shift_div_l; unfold Qlt, Qle; simpl; lia.
Qed.

End resize_facts.

(** C8. For a picture whose sides are unsigned 32-bit numbers and a
    bound of 600, in double arithmetic: when the longer side is at most
    600 the canvas has the sides of the picture; when it is longer,
    neither side of the canvas exceeds 600 and each is within half a
    pixel, and a rounding error below 2^-40, of the side scaled by 600
    over the longer side. *)
Theorem compressImage_size {File Blob : Type} (load : File → option Resize.Picture)
    (toBlob : File → Resize.Canvas → Blob) (file : File) (img : Resize.Picture) :
  load file = Some img →
  reportable img →
  ∃ canvas, Resize.compressImage load toBlob file 600 = Ret (canvas, toBlob file canvas)
    ∧ (Z.max (Resize.width img) (Resize.height img) ≤ 600 →
       Resize.canvas_width canvas = Resize.width img
       ∧ Resize.canvas_height canvas = Resize.height img)
    ∧ (600 < Z.max (Resize.width img) (Resize.height img) →
       Resize.canvas_width canvas ≤ 600 ∧ Resize.canvas_height canvas ≤ 600
       ∧ (Qabs (inject_Z (Resize.canvas_width canvas)
                - inject_Z (Resize.width img)
                  * (600 / inject_Z (Z.max (Resize.width img) (Resize.height img))))
          <= (1 # 2) + (1 # 1099511627776))%Q
       ∧ (Qabs (inject_Z (Resize.canvas_height canvas)
                - inject_Z (Resize.height img)
                  * (600 / inject_Z (Z.max (Resize.width img) (Resize.height img))))
          <= (1 # 2) + (1 # 1099511627776))%Q).
Proof.
  intros Hload [Hw Hh]. unfold Resize.compressImage. rewrite Hload.
  eexists. split; [reflexivity|].
  cbn [Resize.canvas_for Resize.canvas_width Resize.canvas_height].
  unfold Resize.scale_for. change (inject_Z 600) with 600%Q.
  set (m := Z.max (Resize.width img) (Resize.height img)).
  destruct (Z.eqb_spec m 0) as [Hzero|Hne]; split.
  - intros _. assert (Resize.width img = 0) as -> by lia.
    assert (Resize.height img = 0) as -> by lia. done.
  - lia.
  - intros Hmax.
    split; apply (unscaled_side Resize.binary64 binary64_standard); lia.
  - intros Hmax.
    destruct (scaled_side Resize.binary64 binary64_standard m (Resize.width img))
      as (Hw1 & Hw2 & Hw3); [lia..|].
    destruct (scaled_side Resize.binary64 binary64_standard m (Resize.height img))
      as (Hh1 & Hh2 & Hh3); [lia..|].
    repeat split; try done; apply Qabs_Qle_condition; split; lra.
Qed.

(** Witness of [compressImage_size]: a picture of 1200 by 800. *)
Lemma compressImage_size_witness :
  ∃ canvas,
    Resize.compressImage (λ _ : unit, Some {| Resize.width := 1200; Resize.height := 800 |})
      (λ _ c, c) tt 600 = Ret (canvas, canvas)
    ∧ (Z.max 1200 800 ≤ 600 →
       Resize.canvas_width canvas = 1200 ∧ Resize.canvas_height canvas = 800)
    ∧ (600 < Z.max 1200 800 →
       Resize.canvas_width canvas ≤ 600 ∧ Resize.canvas_height canvas ≤ 600
       ∧ (Qabs (inject_Z (Resize.canvas_width canvas)
                - inject_Z 1200 * (600 / inject_Z (Z.max 1200 800)))
          <= (1 # 2) + (1 # 1099511627776))%Q
       ∧ (Qabs (inject_Z (Resize.canvas_height canvas)
                - inject_Z 800 * (600 / inject_Z (Z.max 1200 800)))
          <= (1 # 2) + (1 # 1099511627776))%Q).
Proof.
  apply (compressImage_size
           (λ _ : unit, Some {| Resize.width := 1200; Resize.height := 800 |})
           (λ _ c, c) tt {| Resize.width := 1200; Resize.height := 800 |});
    [reflexivity|]. unfold reportable. simpl. lia.
Defined.

(** The doubles nearest to one third and to one tenth, and the tie at
    [2^53 + 1]. *)
Example binary64_third :
  Qred (Resize.binary64 (1 # 3)) = (6004799503160661 # 18014398509481984)%Q.
Proof. by vm_compute. Qed.

Example binary64_tenth :
  Qred (Resize.binary64 (1 # 10)) = (3602879701896397 # 36028797018963968)%Q.
Proof. by vm_compute. Qed.

Example binary64_tie :
  Qred (Resize.binary64 9007199254740993) = 9007199254740992%Q.
Proof. by vm_compute. Qed.

(** The canvas of that picture, of one that is within the bound, and of
    one whose scale factor is not a double. *)
Example canvas_1200_800 :
  Resize.canvas_for {| Resize.width := 1200; Resize.height := 800 |} 600
  = {| Resize.canvas_width := 600; Resize.canvas_height := 400 |}.
Proof. by vm_compute. Qed.

Example canvas_480_600 :
  Resize.canvas_for {| Resize.width := 480; Resize.height := 600 |} 600
  = {| Resize.canvas_width := 480; Resize.canvas_height := 600 |}.
Proof. by vm_compute. Qed.

Example canvas_4000_3000 :
  Resize.canvas_for {| Resize.width := 4000; Resize.height := 3000 |} 600
  = {| Resize.canvas_width := 600; Resize.canvas_height := 450 |}.
Proof. by vm_compute. Qed.

(** * Further properties *)

(** ** Reading, editing and saving the state *)

Section state_shape.
Context `{Platform}.

(** What every state [readAppState] returns looks like: the loop over
    its count ends, its count is not [null], its names and records lie
    over the defaults of that count, and [names] is not a field of its
    [meta]. *)
Lemma readAppState_shape now w st :
  readAppState now w = Ret st →
  ∃ idx,
    upto (ToNumber coerce (concorrentesCount st)) = Ret idx
    ∧ concorrentesCount st ≠ JNull
    ∧ names st ∪ (default_maps idx).1 = names st
    ∧ manha st ∪ (default_maps idx).2 = manha st
    ∧ tarde st ∪ (default_maps idx).2 = tarde st
    ∧ meta st !! "names" = None.
Proof.
  assert (∀ st, buildDefaultState now (JNum 1) = Ret st →
            ∃ idx,
              upto (ToNumber coerce (concorrentesCount st)) = Ret idx
              ∧ concorrentesCount st ≠ JNull
              ∧ names st ∪ (default_maps idx).1 = names st
              ∧ manha st ∪ (default_maps idx).2 = manha st
              ∧ tarde st ∪ (default_maps idx).2 = tarde st
              ∧ meta st !! "names" = None) as Hdefault.
  { intros s. rewrite (buildDefaultState_unfold now (JNum 1) (seqZ 0 2)) by done.
    intros [= <-]. exists (seqZ 0 2). cbn [concorrentesCount names manha tarde meta].
    by rewrite !(idemp_L (∪)). }
  destruct (falsy_text (persisted w)) eqn:Hf.
  { rewrite (readAppState_unreadable now) by auto. rewrite <- buildDefaultState_one.
    apply Hdefault. }
  destruct (persisted w) as [raw|] eqn:Hraw; [|done].
  destruct (JSON_parse raw) as [parsed|e|] eqn:Hp.
  - rewrite (readAppState_parsed _ w raw parsed) by done.
    destruct (upto (ToNumber coerce (stored_count parsed))) as [idx|e|] eqn:Hup.
    + rewrite (buildDefaultState_unfold now _ idx) by done.
      cbn [mbind outcome_bind].
      destruct (member (Some parsed) "meta") as [pmeta|e|] eqn:Hm;
        cbn [mbind outcome_bind try_catch]; [|apply Hdefault|done].
      intros [= <-]. cbn [concorrentesCount names manha tarde meta].
      exists idx. split; [done|]. split.
      { unfold stored_count, coalesce.
        by destruct (opt_member _ "concorrentesCount") as [[]|]. }
      rewrite <- !(assoc_L (∪)), !(idemp_L (∪)). by rewrite lookup_delete_eq.
    + by rewrite (buildDefaultState_stuck now) by (by rewrite Hup).
    + by rewrite (buildDefaultState_stuck now) by (by rewrite Hup).
  - assert (e = SyntaxError) as ->.
    { destruct raw; simpl in Hp; [by destruct (JSON_parse_text s); simplify_eq|done]. }
    rewrite (readAppState_unreadable now) by eauto. rewrite <- buildDefaultState_one.
    apply Hdefault.
  - destruct raw; simpl in Hp; [by destruct (JSON_parse_text s)|done].
Qed.

(** Reading back a saved state, whatever its count is. *)
Lemma readAppState_saved_any now w s idx :
  persisted w = Some (Json (to_json s)) →
  concorrentesCount s ≠ JNull →
  upto (ToNumber coerce (concorrentesCount s)) = Ret idx →
  readAppState now w = Ret (reloaded now idx s).
Proof.
  intros Hraw Hc Hup.
  rewrite (readAppState_parsed now w (Json (to_json s)) (to_json s)) by done.
  assert (stored_count (to_json s) = concorrentesCount s) as Hsc.
  { unfold stored_count. rewrite to_json_count. by destruct (concorrentesCount s). }
  rewrite Hsc. rewrite (buildDefaultState_unfold _ _ idx) by done.
  cbn [mbind outcome_bind].
  assert (member (Some (to_json s)) "meta"
          = Ret (Some (JObj (<["names" := JObj (names s)]> (meta s))))) as -> by done.
  cbn [mbind outcome_bind try_catch].
  rewrite to_json_webhookUrl, !to_json_incoming.
  unfold reloaded. cbn [names manha tarde meta stations].
  f_equal. f_equal.
  unfold opt_member, get_prop, own_props. rewrite lookup_insert_eq. done.
Qed.

(** A state whose names and records lie over the defaults is read back
    as it was saved. *)
Lemma reloaded_stamped_fixed now now' idx s :
  names s ∪ (default_maps idx).1 = names s →
  manha s ∪ (default_maps idx).2 = manha s →
  tarde s ∪ (default_maps idx).2 = tarde s →
  meta s !! "names" = None →
  reloaded now' idx (stamped now s) = stamped now s.
Proof.
  intros Hn Hm Ht Hmeta. unfold reloaded, stamped, set_meta.
  cbn [names manha tarde meta concorrentesCount webhookUrl]. rewrite Hn, Hm, Ht.
  f_equal. apply map_eq. intros k.
  destruct (decide (k = "names")) as [->|Hk].
  { rewrite lookup_delete_eq. by rewrite lookup_insert_ne. }
  rewrite lookup_delete_ne by done. rewrite lookup_union, lookup_insert_ne by done.
  destruct (decide (k = "lastEdited")) as [->|Hk'].
  - by rewrite lookup_insert_eq, lookup_singleton_eq.
  - rewrite lookup_singleton_ne by done. by destruct (_ !! k).
Qed.

(** Saving, then reading: the state that was saved, with the time of
    the save. *)
Lemma save_then_read now now' s idx w w' :
  upto (ToNumber coerce (concorrentesCount s)) = Ret idx →
  concorrentesCount s ≠ JNull →
  names s ∪ (default_maps idx).1 = names s →
  manha s ∪ (default_maps idx).2 = manha s →
  tarde s ∪ (default_maps idx).2 = tarde s →
  meta s !! "names" = None →
  saveAppState now s w = Ret w' →
  readAppState now' w' = Ret (stamped now s).
Proof.
  intros Hup Hc Hn Hm Ht Hmeta Hsave.
  apply persisted_saved in Hsave as [Hp _].
  rewrite (readAppState_saved_any now' w' (stamped now s) idx) by done.
  by rewrite reloaded_stamped_fixed.
Qed.

Lemma union_covered {A} (m d : gmap string A) :
  (∀ k, is_Some (d !! k) → is_Some (m !! k)) → m ∪ d = m.
Proof.
  intros Hd. apply map_eq. intros k. rewrite lookup_union.
  destruct (m !! k) as [v|] eqn:Hk; [by destruct (d !! k)|].
  destruct (d !! k) as [v|] eqn:Hdk; [|done].
  destruct (Hd k) as [v' Hv']; [by rewrite Hdk|congruence].
Qed.


End state_shape.

Section state_edits.
Import StateEdits.
Context `{Platform}.





(** X4. [updateWebhookUrl] on a storage with room, followed by
    [getWebhookUrl] when neither the internal constant nor the
    environment supplies a URL: a non-empty URL that was set is the one
    returned; after setting [undefined] or the empty string the default
    constant is returned. *)
Theorem updateWebhookUrl_then_get (url : option string) (env : option Env)
    (now now' now'' : string) (w : World) (st : AppState) :
  readAppState now w = Ret st →
  (∀ m, fits (localStorage w) m = true) →
  first_nonempty (env_values env) = None →
  ∃ st' w', updateWebhookUrl url now now' w = Ret (st', w')
    ∧ webhookUrl st' = JStr <$> url
    ∧ getWebhookUrl_from None env now'' w'
      = Ret (JStr (match url with
                   | Some u => if String.eqb u "" then DEFAULT_WEBHOOK_URL else u
                   | None => DEFAULT_WEBHOOK_URL
                   end)).
Proof.
  intros Hread Hfits Henv. unfold updateWebhookUrl. rewrite Hread.
  cbn [mbind outcome_bind]. set (st' := set_webhookUrl _ st).
  destruct (saveAppState_fits now' st' w Hfits) as [w' Hsave]. rewrite Hsave.
  cbn [mbind outcome_bind]. exists st', w'. repeat split; try done.
  destruct (readAppState_shape now w st Hread) as (idx & Hup & Hcn & Hnm & Hm & Ht & Hmeta).
  assert (readAppState now'' w' = Ret (stamped now' st')) as Hback
    by by apply (save_then_read now' now'' st' idx w w').
  unfold getWebhookUrl_from. cbn [fmap option_fmap option_map truthy].
  destruct (first_nonempty_or_else (env ≫= NEXT_PUBLIC_WEBHOOK_URL)
              (env ≫= REACT_APP_WEBHOOK_URL) (env ≫= VITE_WEBHOOK_URL))
    as [[_ ->]|[Hsome _]]; [|unfold env_values in Henv; congruence].
  cbn [andb]. rewrite Hback. cbn [mbind outcome_bind].
  subst st'. cbn [webhookUrl stamped set_meta set_webhookUrl].
  destruct url as [u|]; [|done]. cbn [fmap option_fmap option_map truthy].
  by destruct (String.eqb u "").
Qed.


End state_edits.



(** The record of the reference station of [stored_morning] before and
    after the morning is cleared. *)
Example cleared_filled_morning :
  manha morning_state !! "reference" = Some filled_station
  ∧ filled_station ≠ emptyStation
  ∧ ∃ st' w', @StateEdits.clearPeriodData strict_host Manha "2024-03-05T12:00:00.000Z"
                "2024-03-05T12:01:00.000Z"
                (page {[ STORAGE_KEY := Json stored_morning ]} ∅) = Ret (st', w')
      ∧ manha st' !! "reference" = Some emptyStation.
Proof.
  split; [vm_compute; reflexivity|]. split; [by vm_compute|]. eexists _, _.
  split; [vm_compute; reflexivity|]. vm_compute. reflexivity.
Qed.


(** Witness of [updateWebhookUrl_then_get]: a URL is stored on a page
    without environment. *)
Lemma updateWebhookUrl_then_get_witness :
  ∃ st' w', @StateEdits.updateWebhookUrl strict_host (Some "https://example.org/hook")
              "2024-03-05T12:00:00.000Z" "2024-03-05T12:01:00.000Z"
              (page ∅ ∅) = Ret (st', w')
    ∧ webhookUrl st' = Some (JStr "https://example.org/hook")
    ∧ @getWebhookUrl_from strict_host None None "2024-03-05T12:02:00.000Z" w'
      = Ret (JStr "https://example.org/hook").
Proof.
  apply (@updateWebhookUrl_then_get strict_host (Some "https://example.org/hook") None
           "2024-03-05T12:00:00.000Z" "2024-03-05T12:01:00.000Z"
           "2024-03-05T12:02:00.000Z"
           (page ∅ ∅) (default_state "2024-03-05T12:00:00.000Z")).
  - reflexivity.
  - reflexivity.
  - reflexivity.
Defined.


(** ** The editing functions on a storage that is full *)

Section full_storage.
Import StateEdits FormActions.
Context `{Platform}.

(** X6. None of the editing functions catches what the storage throws:
    when the state can be read and the storage takes no write, each of
    them ends in the quota error of [setItem], and so does
    [setConcorrentesCount] for a count that differs from the stored
    one. *)
Theorem edits_throw_when_full (now now' : string) (w : World) (st : AppState) :
  readAppState now w = Ret st →
  (∀ m, fits (localStorage w) m = false) →
  (∀ period, clearPeriodData period now now' w = Throw QuotaExceededError)
  ∧ (∀ id name, updateStationName id name now now' w = Throw QuotaExceededError)
  ∧ (∀ url, updateWebhookUrl url now now' w = Throw QuotaExceededError)
  ∧ (∀ period id updater,
       onStationChange period id updater now now' w = Throw QuotaExceededError)
  ∧ (∀ count, strict_eq_num (inject_Z count) (concorrentesCount st) = false →
       count < two53 →
       setConcorrentesCount count now w = Throw QuotaExceededError).
Proof.
  intros Hread Hfull.
  assert (∀ t s, saveAppState t s w = Throw QuotaExceededError) as Hsave.
  { intros t s. unfold saveAppState, setItem. by rewrite Hfull. }
  repeat split.
  - intros period. unfold clearPeriodData. rewrite Hread. cbn [mbind outcome_bind].
    by rewrite Hsave.
  - intros id name. unfold updateStationName. rewrite Hread. cbn [mbind outcome_bind].
    by rewrite Hsave.
  - intros url. unfold updateWebhookUrl. rewrite Hread. cbn [mbind outcome_bind].
    by rewrite Hsave.
  - intros period id updater. unfold onStationChange. rewrite Hread.
    cbn [mbind outcome_bind]. by rewrite Hsave.
  - intros count Hne Hcount. unfold setConcorrentesCount. rewrite Hread.
    cbn [mbind outcome_bind]. rewrite Hne, (upto_whole count Hcount).
    cbn [mbind outcome_bind]. by rewrite Hsave.
Qed.

End full_storage.

(** Witness of [edits_throw_when_full]: an empty storage that takes no
    write. *)
Lemma edits_throw_when_full_witness :
  (∀ period, @StateEdits.clearPeriodData strict_host period "2024-03-05T12:00:00.000Z"
       "2024-03-05T12:01:00.000Z"
       {| localStorage := full ∅;
          sessionStorage := unlimited ∅; events := [] |} = Throw QuotaExceededError)
  ∧ (∀ id name, @StateEdits.updateStationName strict_host id name "2024-03-05T12:00:00.000Z"
       "2024-03-05T12:01:00.000Z"
       {| localStorage := full ∅;
          sessionStorage := unlimited ∅; events := [] |} = Throw QuotaExceededError)
  ∧ (∀ url, @StateEdits.updateWebhookUrl strict_host url "2024-03-05T12:00:00.000Z"
       "2024-03-05T12:01:00.000Z"
       {| localStorage := full ∅;
          sessionStorage := unlimited ∅; events := [] |} = Throw QuotaExceededError)
  ∧ (∀ period id updater,
       @FormActions.onStationChange strict_host period id updater "2024-03-05T12:00:00.000Z"
         "2024-03-05T12:01:00.000Z"
         {| localStorage := full ∅;
            sessionStorage := unlimited ∅; events := [] |} = Throw QuotaExceededError)
  ∧ (∀ count, strict_eq_num (inject_Z count) (concorrentesCount (default_state "2024-03-05T12:00:00.000Z")) = false →
       count < two53 →
       @setConcorrentesCount strict_host count "2024-03-05T12:00:00.000Z"
         {| localStorage := full ∅;
            sessionStorage := unlimited ∅; events := [] |} = Throw QuotaExceededError).
Proof.
  apply (@edits_throw_when_full strict_host "2024-03-05T12:00:00.000Z"
           "2024-03-05T12:01:00.000Z"
           {| localStorage := full ∅;
              sessionStorage := unlimited ∅; events := [] |} (default_state "2024-03-05T12:00:00.000Z")).
  - reflexivity.
  - reflexivity.
Defined.

(** ** Images and their metadata in the two tiers *)

Section cache_facts.
Import ImagesDB ImageCache.

Lemma items_fold_remove (l : list string) (st : Storage) (k : string) :
  items (foldl removeItem st l) !! k = if decide (k ∈ l) then None else items st !! k.
Proof.
  revert st. induction l as [|x l IH]; intros st; cbn [foldl].
  { by rewrite decide_False by apply not_elem_of_nil. }
  rewrite IH. cbn [removeItem items].
  destruct (decide (k ∈ l)) as [Hl|Hl].
  - by rewrite decide_True by by apply list_elem_of_further.
  - destruct (decide (k = x)) as [->|Hne].
    + rewrite lookup_delete_eq. by rewrite decide_True by apply list_elem_of_here.
    + rewrite lookup_delete_ne by done.
      by rewrite decide_False by (intros [?|?]%elem_of_cons; done).
Qed.

Lemma fits_fold_remove (l : list string) (st : Storage) :
  fits (foldl removeItem st l) = fits st.
Proof. revert st. induction l as [|x l IH]; intros st; [done|]. cbn [foldl]. by rewrite IH. Qed.

Lemma elem_of_storage_keys (st : Storage) (k : string) :
  k ∈ storage_keys st ↔ is_Some (items st !! k).
Proof.
  unfold storage_keys. rewrite list_elem_of_fmap. split.
  - intros ([k' v] & -> & Hin). apply elem_of_map_to_list in Hin. by eexists.
  - intros [v Hv]. exists (k, v). split; [done|]. by apply elem_of_map_to_list.
Qed.

(** What one area holds after [clearImageCache]. *)
Lemma clear_area_lookup (st : Storage) (k : string) :
  getItem (clear_area st) k
  = if String.prefix "img:" k || String.prefix "meta:" k then None else getItem st k.
Proof.
  unfold clear_area, getItem. rewrite !items_fold_remove.
  destruct (String.prefix "meta:" k) eqn:Hmeta.
  - rewrite orb_true_r. destruct (items st !! k) as [v|] eqn:Hk.
    + rewrite decide_True; [done|]. apply list_elem_of_filter. split; [done|].
      apply elem_of_storage_keys. by rewrite Hk.
    + by repeat case_decide.
  - rewrite orb_false_r.
    rewrite (decide_False (P := k ∈ filter _ _))
      by (intros [? _]%list_elem_of_filter; congruence).
    destruct (String.prefix "img:" k) eqn:Himg.
    + destruct (items st !! k) as [v|] eqn:Hk; [|by case_decide].
      rewrite decide_True; [done|]. apply list_elem_of_filter. split; [done|].
      apply elem_of_storage_keys. by rewrite Hk.
    + by rewrite decide_False by (intros [? _]%list_elem_of_filter; congruence).
Qed.

Lemma imageKey_prefix (period stationId : string) :
  String.prefix "img:" (imageKey period stationId) = true.
Proof.
  unfold imageKey. generalize (period +:+ ":" +:+ stationId). intros rest.
  change ("img:" +:+ rest) with (String "i" (String "m" (String "g" (String ":" rest)))).
  by destruct rest.
Qed.

End cache_facts.

Section cache_claims.
Import ImagesDB ImageCache.
Context `{Platform} (JSON_text : jsval → string).

(** X7. Metadata saved with an image on a primary tier with room is
    what [getImageMetadata] returns for the same key afterwards,
    whatever the key and the image are. *)
Theorem metadata_round_trip (key : string) (blob : Blob) (metadata : jsval) (w : World) :
  truthy (Some metadata) = true →
  (∀ m, fits (localStorage w) m = true) →
  ∃ w', saveImageBlob key blob (Some metadata) w = Ret w'
    ∧ getImageMetadata key w' = Ret (Some metadata).
Proof.
  intros Hmeta Hfits. unfold saveImageBlob, write_tier, setItem.
  rewrite Hfits. cbn [mbind outcome_bind fits items]. rewrite Hmeta, Hfits.
  eexists. split; [reflexivity|].
  unfold getImageMetadata, first_tier, getItem. cbn [localStorage with_local items].
  rewrite lookup_insert_eq. done.
Qed.

(** X8. After [removeImageBlob] neither the image nor its metadata can
    be read under the key, from either tier; every other key of both
    tiers holds what it held. *)
Theorem removeImageBlob_forgets (key : string) (w : World) :
  getImageBlob JSON_text key (removeImageBlob key w) = Ret None
  ∧ getImageMetadata key (removeImageBlob key w) = Ret None
  ∧ ∀ k, k ≠ key → k ≠ replace_first "img:" "meta:" key →
      getItem (localStorage (removeImageBlob key w)) k = getItem (localStorage w) k
      ∧ getItem (sessionStorage (removeImageBlob key w)) k = getItem (sessionStorage w) k.
Proof.
  unfold getImageBlob, getImageMetadata, first_tier, removeImageBlob, removeItem, getItem.
  cbn [localStorage sessionStorage items]. repeat split.
  - destruct (decide (replace_first "img:" "meta:" key = key)) as [->|Hne].
    + by rewrite !lookup_delete_eq.
    + rewrite !(lookup_delete_ne _ (replace_first "img:" "meta:" key)) by done.
      by rewrite !lookup_delete_eq.
  - by rewrite !lookup_delete_eq.
  - by rewrite !lookup_delete_ne.
  - by rewrite !lookup_delete_ne.
Qed.

(** X9. [clearImageCache] removes from both tiers exactly the keys that
    start with [img:] or [meta:]. So no image of any period and station
    can be read afterwards, while the application state is read as
    before. *)
Theorem clearImageCache_clears (w : World) :
  (∀ k, getItem (localStorage (clearImageCache w)) k
        = if String.prefix "img:" k || String.prefix "meta:" k then None
          else getItem (localStorage w) k)
  ∧ (∀ k, getItem (sessionStorage (clearImageCache w)) k
          = if String.prefix "img:" k || String.prefix "meta:" k then None
            else getItem (sessionStorage w) k)
  ∧ (∀ period stationId,
       getImageBlob JSON_text (imageKey period stationId) (clearImageCache w) = Ret None)
  ∧ (∀ now, readAppState now (clearImageCache w) = readAppState now w).
Proof.
  split; [|split; [|split]].
  - intros k. apply clear_area_lookup.
  - intros k. apply clear_area_lookup.
  - intros period stationId. unfold getImageBlob, first_tier.
    cbn [clearImageCache localStorage sessionStorage].
    by rewrite !clear_area_lookup, imageKey_prefix.
  - intros now. unfold readAppState. cbn [clearImageCache localStorage].
    by rewrite clear_area_lookup.
Qed.

(** X10. Reading an image or its metadata never fails, whatever the
    two tiers hold: both functions return. They return [undefined] when
    neither tier holds a non-empty text under the key, and the metadata
    is [undefined] when the text found is not JSON. *)
Theorem image_reads_never_fail (key : string) (w : World) :
  (∃ r, getImageBlob JSON_text key w = Ret r)
  ∧ (∃ r, getImageMetadata key w = Ret r)
  ∧ (falsy_text (getItem (localStorage w) key) = true →
     falsy_text (getItem (sessionStorage w) key) = true →
     getImageBlob JSON_text key w = Ret None)
  ∧ (∀ s, first_tier w (replace_first "img:" "meta:" key) = Some (Text s) →
       JSON_parse_text s = None →
       getImageMetadata key w = Ret None).
Proof.
  split; [|split; [|split]].
  - unfold getImageBlob. destruct (falsy_text (first_tier w key)); [by eexists|].
    unfold fetch_jpeg. destruct (Base64.decode _); by eexists.
  - unfold getImageMetadata.
    destruct (falsy_text (first_tier w _)); [by eexists|].
    destruct (default (Text "") (first_tier w _)) as [s|v]; unfold JSON_parse;
      [destruct (JSON_parse_text s)|]; by eexists.
  - intros Hlocal Hsession. unfold getImageBlob, first_tier. by rewrite Hlocal, Hsession.
  - intros s Hfirst Hparse. unfold getImageMetadata. rewrite Hfirst.
    destruct (falsy_text _); [done|]. unfold JSON_parse, default. cbn [from_option id].
    by rewrite Hparse.
Qed.

(** X11. [saveImageBlob] throws nothing but its own error. When the
    primary tier takes no write and the secondary tier has room, the
    image goes to the secondary tier, with the metadata beside it when
    there is some, and the primary tier is left as it was; when neither
    tier takes a write, the error is thrown. *)
Theorem saveImageBlob_tiers (key : string) (blob : Blob) (metadata : option jsval)
    (w : World) :
  (∀ e, saveImageBlob key blob metadata w = Throw e →
     e = Error "Não foi possível salvar a imagem")
  ∧ saveImageBlob key blob metadata w ≠ Hang
  ∧ ((∀ m, fits (localStorage w) m = false) →
     (∀ m, fits (sessionStorage w) m = true) →
     ∃ w', saveImageBlob key blob metadata w = Ret w'
       ∧ localStorage w' = localStorage w
       ∧ (truthy metadata = true →
          getItem (sessionStorage w') (replace_first "img:" "meta:" key)
          = Some (Json (default JNull metadata)))
       ∧ (truthy metadata = false ∨ replace_first "img:" "meta:" key ≠ key →
          getItem (sessionStorage w') key
          = Some (Text (dataURLToBase64 (blobToDataURL blob)))))
  ∧ ((∀ m, fits (localStorage w) m = false) →
     (∀ m, fits (sessionStorage w) m = false) →
     saveImageBlob key blob metadata w = Throw (Error "Não foi possível salvar a imagem")).
Proof.
  split; [|split; [|split]].
  - intros e. unfold saveImageBlob.
    destruct (write_tier (localStorage w) _ _ _); [done| |];
      destruct (write_tier (sessionStorage _) _ _ _); try done; by intros [= <-].
  - unfold saveImageBlob.
    destruct (write_tier (localStorage w) _ _ _); [done| |];
      by destruct (write_tier (sessionStorage _) _ _ _).
  - intros Hlocal Hsession. unfold saveImageBlob, after_failed_primary, write_tier, setItem.
    rewrite Hlocal. cbn [mbind outcome_bind sessionStorage with_local].
    rewrite Hsession. cbn [mbind outcome_bind fits items].
    destruct (truthy metadata) eqn:Hmeta.
    + rewrite Hsession. eexists. split; [reflexivity|].
      cbn [localStorage sessionStorage with_session with_local].
      split; [by destruct w as [[] ? ?]|]. split.
      * intros _. unfold getItem. cbn [items]. apply lookup_insert_eq.
      * intros [|Hne]; [done|]. unfold getItem. cbn [items].
        by rewrite lookup_insert_ne, lookup_insert_eq.
    + eexists. split; [reflexivity|].
      cbn [localStorage sessionStorage with_session with_local].
      split; [by destruct w as [[] ? ?]|]. split; [done|].
      intros _. unfold getItem. cbn [items]. apply lookup_insert_eq.
  - intros Hlocal Hsession. unfold saveImageBlob, after_failed_primary, write_tier, setItem.
    rewrite Hlocal. cbn [mbind outcome_bind sessionStorage with_local].
    by rewrite Hsession.
Qed.

End cache_claims.

(** Witness of [metadata_round_trip]: one byte and its validation status
    saved on an empty page. *)
Lemma metadata_round_trip_witness :
  ∃ w', ImagesDB.saveImageBlob "img:manha:reference"
          {| ImagesDB.bytes := [Byte.xff]; ImagesDB.type := "image/jpeg" |}
          (Some (JObj {[ "validationStatus" := JStr "validated" ]})) (page ∅ ∅) = Ret w'
    ∧ @ImageCache.getImageMetadata strict_host "img:manha:reference" w'
      = Ret (Some (JObj {[ "validationStatus" := JStr "validated" ]})).
Proof.
  apply (@metadata_round_trip strict_host "img:manha:reference"
           {| ImagesDB.bytes := [Byte.xff]; ImagesDB.type := "image/jpeg" |}
           (JObj {[ "validationStatus" := JStr "validated" ]}) (page ∅ ∅));
    reflexivity.
Defined.

(** ** Digits and station ids *)

Section digit_facts.
Import ImagesDB CardStation Payload Terms.

Lemma list_ascii_app (s1 s2 : string) :
  String.list_ascii_of_string (s1 +:+ s2)
  = String.list_ascii_of_string s1 ++ String.list_ascii_of_string s2.
Proof.
  induction s1 as [|c s1 IH]; [done|].
  change (String c s1 +:+ s2) with (String c (s1 +:+ s2)).
  cbn [String.list_ascii_of_string]. by rewrite IH.
Qed.

Lemma pretty_N_char_digit (d : N) :
  (d < 10)%N →
  is_digit (pretty_N_char d) = true
  ∧ Z.of_N (N_of_ascii (pretty_N_char d)) - 48 = Z.of_N d.
Proof.
  intros Hd.
  assert (d = 0 ∨ d = 1 ∨ d = 2 ∨ d = 3 ∨ d = 4 ∨ d = 5 ∨ d = 6 ∨ d = 7 ∨ d = 8 ∨ d = 9)%N
    as Hcases by lia.
  repeat destruct Hcases as [->|Hcases]; try subst d; by vm_compute.
Qed.

(** The digits [pretty] writes, read back. *)
Lemma pretty_N_go_value (x : N) (s : string) :
  foldl (λ acc c, 10 * acc + (Z.of_N (N_of_ascii c) - 48)) 0
        (String.list_ascii_of_string (pretty_N_go x s))
  = foldl (λ acc c, 10 * acc + (Z.of_N (N_of_ascii c) - 48)) (Z.of_N x)
          (String.list_ascii_of_string s).
Proof.
  revert s. induction (N.lt_wf_0 x) as [x _ IH]. intros s.
  destruct (decide (x = 0)%N) as [->|Hx]; [done|].
  rewrite pretty_N_go_step by lia. rewrite IH by (apply N.div_lt; lia).
  cbn [String.list_ascii_of_string foldl].
  destruct (pretty_N_char_digit (x `mod` 10)) as [_ ->]; [by apply N.mod_lt|].
  f_equal. rewrite (N.div_mod x 10) at 3 by done. lia.
Qed.

Lemma pretty_N_go_digits (x : N) (s : string) :
  forallb is_digit (String.list_ascii_of_string s) = true →
  forallb is_digit (String.list_ascii_of_string (pretty_N_go x s)) = true.
Proof.
  revert s. induction (N.lt_wf_0 x) as [x _ IH]. intros s Hs.
  destruct (decide (x = 0)%N) as [->|Hx]; [done|].
  rewrite pretty_N_go_step by lia. apply IH; [apply N.div_lt; lia|].
  cbn [String.list_ascii_of_string forallb].
  destruct (pretty_N_char_digit (x `mod` 10)) as [-> _]; [by apply N.mod_lt|done].
Qed.

(** What [pretty] writes for a positive whole number: a run of digits
    that is not empty and denotes the number. *)
Lemma pretty_positive_digits (i : Z) :
  0 < i →
  forallb is_digit (String.list_ascii_of_string (pretty i)) = true
  ∧ Number_of_digits (pretty i) = i
  ∧ pretty i ≠ "".
Proof.
  intros Hi. destruct i as [|p|p]; try lia.
  change (pretty (Z.pos p)) with (pretty_N_go (N.pos p) "").
  assert (Number_of_digits (pretty_N_go (N.pos p) "") = Z.pos p) as Hvalue.
  { unfold Number_of_digits. by rewrite pretty_N_go_value. }
  split; [by apply pretty_N_go_digits|]. split; [done|].
  intros Hempty. rewrite Hempty in Hvalue. discriminate Hvalue.
Qed.

Lemma span_digits_all (ds : string) :
  forallb is_digit (String.list_ascii_of_string ds) = true → span_digits ds = (ds, "").
Proof.
  induction ds as [|c ds IH]; [done|]. cbn [String.list_ascii_of_string forallb].
  intros [Hc Hds]%andb_prop. cbn [span_digits]. by rewrite Hc, IH.
Qed.

Lemma match_competitor_unfold (s : string) :
  match_competitor s
  = match
      match drop_prefix "competitor_" s with
      | Some rest =>
          let '(run, _) := span_digits rest in
          if String.eqb run "" then None else Some run
      | None => None
      end
    with
    | Some run => Some run
    | None =>
        match s with
        | String _ rest => match_competitor rest
        | EmptyString => None
        end
    end.
Proof. by destruct s. Qed.

(** The id of a competitor, as both patterns read it. *)
Lemma competitor_id (i : Z) :
  0 < i →
  stationIdForIndex i = "competitor_" +:+ pretty i
  ∧ String.eqb (stationIdForIndex i) "reference" = false
  ∧ match_competitor (stationIdForIndex i) = Some (pretty i)
  ∧ competitor_number (stationIdForIndex i) = Some (pretty i)
  ∧ Number_of_digits (pretty i) = i.
Proof.
  intros Hi. destruct (pretty_positive_digits i Hi) as (Hdigits & Hvalue & Hne).
  assert (stationIdForIndex i = "competitor_" +:+ pretty i) as Hid.
  { unfold stationIdForIndex. by destruct (Z.eqb_spec i 0) as [|_]; [lia|]. }
  assert (String.eqb (pretty i) "" = false) as Hne' by by apply String.eqb_neq.
  rewrite Hid. repeat split; try done.
  - rewrite match_competitor_unfold, drop_prefix_app, (span_digits_all _ Hdigits).
    by rewrite Hne'.
  - unfold competitor_number. by rewrite drop_prefix_app, Hne', Hdigits.
Qed.

Lemma prefix_refl (s : string) : String.prefix s s = true.
Proof. induction s as [|c s IH]; [done|]. cbn. by destruct (ascii_dec c c). Qed.

Lemma prefix_app (s t : string) : String.prefix s (s +:+ t) = true.
Proof.
  induction s as [|c s IH]; [by destruct t|].
  change (String c s +:+ t) with (String c (s +:+ t)). cbn [String.prefix].
  by destruct (ascii_dec c c).
Qed.

End digit_facts.

(** ** The price input and the station name of the card *)

Section card_claims.
Import ImagesDB CardStation Payload Terms.

Lemma digit_is_plain (a : ascii) :
  is_digit a = true →
  Ascii.eqb a "S" = false ∧ Ascii.eqb "," a = false ∧ Ascii.eqb a "." = false.
Proof. by destruct a as [[] [] [] [] [] [] [] []]. Qed.

Lemma filter_nil_existsb {A} (f : A → bool) (l : list A) :
  filter (λ x, f x = true) l = [] ↔ existsb f l = false.
Proof.
  induction l as [|x l IH]; [done|]. cbn [existsb]. rewrite filter_cons.
  destruct (f x) eqn:Hx.
  - rewrite decide_True by done. done.
  - rewrite decide_False by congruence. by rewrite IH.
Qed.

Lemma filter_head_digit (l : list ascii) (a : ascii) (rest : list ascii) :
  filter (λ c, is_digit c = true) l = a :: rest →
  is_digit a = true ∧ Forall (λ c, is_digit c = true) rest.
Proof.
  intros Hl.
  assert (Forall (λ c, is_digit c = true) (a :: rest)) as Hall.
  { rewrite <- Hl. apply Forall_forall. by intros c [? _]%list_elem_of_filter. }
  by apply Forall_cons in Hall.
Qed.

(** The cases of what [sanitizePrice] returns. *)
Lemma sanitizePrice_cases (raw : string) :
  (raw = "Sem dados" ∧ sanitizePrice raw = "Sem dados")
  ∨ (raw ≠ "Sem dados" ∧ has_digit raw = false ∧ sanitizePrice raw = "")
  ∨ (raw ≠ "Sem dados" ∧ has_digit raw = true
     ∧ ∃ a, is_digit a = true
         ∧ (sanitizePrice raw = String a ""
            ∨ ∃ b, is_digit b = true
                ∧ (sanitizePrice raw = String a (String "," (String b ""))
                   ∨ ∃ c, is_digit c = true
                       ∧ sanitizePrice raw
                         = String a (String "," (String b (String c "")))))).
Proof.
  unfold sanitizePrice, has_digit. destruct (String.eqb_spec raw "Sem dados") as [->|Hne].
  { by left. }
  right.
  destruct (filter _ (String.list_ascii_of_string raw)) as [|a l] eqn:Hl.
  { left. by apply filter_nil_existsb in Hl. }
  right. split; [done|]. split.
  { destruct (existsb is_digit _) eqn:He; [done|].
    apply filter_nil_existsb in He. congruence. }
  apply filter_head_digit in Hl as [Ha Hrest]. exists a. split; [done|].
  destruct l as [|b l]; [by left|]. right.
  apply Forall_cons in Hrest as [Hb Hrest]. exists b. split; [done|].
  destruct l as [|c l]; [by left|]. right.
  apply Forall_cons in Hrest as [Hc _]. by exists c.
Qed.

(** X12. What [sanitizePrice] makes of any text: [Sem dados], the empty
    text, or one digit followed, if there are more, by a comma and one
    or two digits. It is empty exactly when the text has no digit and
    is not [Sem dados], and sanitising again changes nothing. *)
Theorem sanitizePrice_shape (raw : string) :
  (sanitizePrice raw = "Sem dados" ∨ sanitizePrice raw = ""
   ∨ price_text "," (sanitizePrice raw) = true)
  ∧ sanitizePrice (sanitizePrice raw) = sanitizePrice raw
  ∧ (sanitizePrice raw = "" ↔ raw ≠ "Sem dados" ∧ has_digit raw = false).
Proof.
  destruct (sanitizePrice_cases raw)
    as [[-> ->]|[(Hne & Hd & ->)|(Hne & Hd & a & Ha & Hcases)]].
  - split; [by left|]. split; [done|]. split; [done|]. by intros [? _].
  - split; [by right; left|]. split; [done|]. by split.
  - destruct (digit_is_plain a Ha) as (HaS & _ & _).
    assert (∀ s, sanitizePrice raw = s → s ≠ "" →
              price_text "," s = true → sanitizePrice s = s →
              (s = "Sem dados" ∨ s = "" ∨ price_text "," s = true)
              ∧ sanitizePrice s = s
              ∧ (s = "" ↔ raw ≠ "Sem dados" ∧ has_digit raw = false)) as Hgoal.
    { intros s _ Hs Hp Hidem. split; [by right; right|]. split; [done|].
      split; [done|]. intros [_ ?]. congruence. }
    destruct Hcases as [Hs|(b & Hb & [Hs|(c & Hc & Hs)])]; rewrite Hs;
      apply Hgoal; try done;
      first
        [ by unfold price_text; cbn [String.list_ascii_of_string]; rewrite ?Ha, ?Hb, ?Hc
        | unfold sanitizePrice; cbn [String.eqb]; rewrite HaS;
          cbn [String.list_ascii_of_string];
          repeat first [ rewrite filter_cons, decide_True by done
                       | rewrite filter_cons, decide_False by done ];
          by rewrite filter_nil ].
Qed.

(** X13. A price typed into the form reaches the payload as a decimal
    number: [normalizePrice] of what [sanitizePrice] returns never
    throws, and gives [Sem dados], the empty text, or one digit
    followed, if there are more, by a point and one or two digits. It
    is empty exactly when the sanitised text is. *)
Theorem normalizePrice_of_sanitized (raw : string) :
  ∃ out, normalizePrice (Some (JStr (sanitizePrice raw))) = Ret out
    ∧ (out = "Sem dados" ∨ out = "" ∨ price_text "." out = true)
    ∧ (out = "" ↔ sanitizePrice raw = "").
Proof.
  destruct (sanitizePrice_cases raw)
    as [[_ ->]|[(_ & _ & ->)|(_ & _ & a & Ha & Hcases)]].
  - exists "Sem dados". split; [done|]. split; [by left|done].
  - exists "". split; [done|]. split; [by right; left|done].
  - destruct (digit_is_plain a Ha) as (HaS & Hacomma & Hadot).
    assert (∀ rest, Forall (λ c, Ascii.eqb c "." = false) rest →
              normalizePrice (Some (JStr (String a (String.string_of_list_ascii rest))))
              = Ret (replace_first "," "." (String a (String.string_of_list_ascii rest))))
      as Hnorm.
    { intros rest Hrest. unfold normalizePrice. cbn [truthy String.eqb negb]. rewrite HaS.
      unfold remove_dots. cbn [String.list_ascii_of_string].
      rewrite filter_cons, decide_True by done.
      rewrite String.list_ascii_of_string_of_list_ascii, (filter_all _ rest) by done.
      done. }
    destruct Hcases as [->|(b & Hb & [->|(c & Hc & ->)])].
    + exists (String a ""). split.
      { pose proof (Hnorm [] ltac:(done)) as Hn.
        cbn [String.string_of_list_ascii] in Hn. rewrite Hn.
        cbn [String.string_of_list_ascii replace_first drop_prefix]. by rewrite Hacomma. }
      split; [|done]. right; right.
      unfold price_text. cbn [String.list_ascii_of_string]. by rewrite Ha.
    + destruct (digit_is_plain b Hb) as (_ & _ & Hbdot).
      exists (String a (String "." (String b ""))). split.
      { pose proof (Hnorm [","%char; b] ltac:(repeat constructor; done)) as Hn.
        cbn [String.string_of_list_ascii] in Hn. rewrite Hn.
        cbn [String.string_of_list_ascii replace_first drop_prefix]. by rewrite Hacomma. }
      split; [|done]. right; right.
      unfold price_text. cbn [String.list_ascii_of_string]. by rewrite Ha, Hb.
    + destruct (digit_is_plain b Hb) as (_ & _ & Hbdot).
      destruct (digit_is_plain c Hc) as (_ & _ & Hcdot).
      exists (String a (String "." (String b (String c "")))). split.
      { pose proof (Hnorm [","%char; b; c] ltac:(repeat constructor; done)) as Hn.
        cbn [String.string_of_list_ascii] in Hn. rewrite Hn.
        cbn [String.string_of_list_ascii replace_first drop_prefix]. by rewrite Hacomma. }
      split; [|done]. right; right.
      unfold price_text. cbn [String.list_ascii_of_string]. by rewrite Ha, Hb, Hc.
Qed.

Section names.
Context (large_number_text : string → string).

(** X14. The default name of every station starts with the prefix the
    card keeps in front of its name: for an index from 0 below [2^53],
    [prefixForId] of the id is the default name itself, so the card
    leaves a default name as it is. *)
Theorem default_name_is_prefix (i : Z) :
  0 ≤ i < two53 →
  prefixForId large_number_text (stationIdForIndex i) = defaultNameForIndex i
  ∧ synced_name large_number_text (stationIdForIndex i) (defaultNameForIndex i)
    = defaultNameForIndex i.
Proof.
  intros [Hlo Hhi].
  assert (prefixForId large_number_text (stationIdForIndex i) = defaultNameForIndex i)
    as Hpref.
  { destruct (decide (i = 0)) as [->|Hne]; [done|].
    destruct (competitor_id i) as (_ & Href & Hmatch & _ & Hvalue); [lia|].
    unfold prefixForId, number_text, defaultNameForIndex. rewrite Href, Hmatch, Hvalue.
    destruct (Z.ltb_spec i two53) as [_|?]; [|lia].
    by destruct (Z.eqb_spec i 0) as [|_]. }
  split; [done|]. unfold synced_name. by rewrite Hpref, prefix_refl.
Qed.

(** X15. Whatever the name of the station becomes and whatever is typed
    into the name input, from the first effect on the name being edited
    starts with the prefix of the station: the prefix cannot be typed
    away. *)
Theorem edited_name_keeps_prefix (id name : string) (events : list name_event) :
  String.prefix (prefixForId large_number_text id)
    (foldl (name_step large_number_text id) (synced_name large_number_text id name) events)
  = true.
Proof.
  assert (∀ name, String.prefix (prefixForId large_number_text id)
                    (synced_name large_number_text id name) = true) as Hsync.
  { intros n. unfold synced_name.
    destruct (String.prefix _ n) eqn:Hp; [done|]. apply prefix_app. }
  generalize (Hsync name). generalize (synced_name large_number_text id name).
  induction events as [|ev events IH]; intros s Hs; [done|]. cbn [foldl]. apply IH.
  destruct ev as [n|raw]; cbn [name_step]; [apply Hsync|].
  unfold onChange_name. destruct (drop_prefix _ raw); [apply prefix_app|done].
Qed.

End names.
End card_claims.

(** Witness of [default_name_is_prefix]: the third competitor. *)
Lemma default_name_is_prefix_witness :
  CardStation.prefixForId (λ ds, ds) (stationIdForIndex 3) = defaultNameForIndex 3
  ∧ CardStation.synced_name (λ ds, ds) (stationIdForIndex 3) (defaultNameForIndex 3)
    = defaultNameForIndex 3.
Proof. apply (default_name_is_prefix (λ ds, ds) 3). unfold two53. lia. Defined.

(** ** The payload sent to the webhook *)

Section payload_facts.
Import ImagesDB CardStation Payload Terms.

Lemma app_inv_prefix (p s s' : string) : p +:+ s = p +:+ s' → s = s'.
Proof.
  induction p as [|c p IH]; [done|].
  change (String c p +:+ s) with (String c (p +:+ s)).
  change (String c p +:+ s') with (String c (p +:+ s')).
  intros [= Heq]. by apply IH.
Qed.

(** The index of a station from 0 to 10, case by case. *)
Lemma index_cases (i : Z) :
  0 ≤ i ≤ 10 →
  i = 0 ∨ i = 1 ∨ i = 2 ∨ i = 3 ∨ i = 4 ∨ i = 5 ∨ i = 6 ∨ i = 7 ∨ i = 8 ∨ i = 9 ∨ i = 10.
Proof. lia. Qed.

(** No prefix of a station continues into that of another. *)
Lemma station_prefix_free (i j : Z) (s s' : string) :
  0 ≤ i ≤ 10 → 0 ≤ j ≤ 10 →
  station_prefix i +:+ s = station_prefix j +:+ s' → i = j ∧ s = s'.
Proof.
  intros Hi%index_cases Hj%index_cases.
  repeat destruct Hi as [->|Hi]; try subst i;
    repeat destruct Hj as [->|Hj]; try subst j;
    intros Heq; vm_compute in Heq; by simplify_eq.
Qed.


Lemma station_key_high (i : Z) : 10 < i → stationKeyFromId (stationIdForIndex i) = None.
Proof.
  intros Hi. destruct (competitor_id i) as (_ & Href & _ & Hnum & Hvalue); [lia|].
  unfold stationKeyFromId. rewrite Href, Hnum, Hvalue.
  destruct (Z.ltb_spec i 1); [lia|]. by destruct (Z.ltb_spec 10 i); [|lia].
Qed.

End payload_facts.

Section payload_claims.
Import ImagesDB CardStation Payload Terms DateFns.
Context `{Device} (Object_keys : gmap string jsval → list string)
  (String_of : jsval → string) (locale_date : jsval → string) (toFixed6 : Q → string).




















End payload_claims.



(** The payload of that morning, at some of its fields. *)
Example payload_of_default_fields :
  (λ payload : gmap string jsval,
     (payload !! "Data e Hora do Envio", payload !! "Periodo Marcado",
      payload !! "Nome do Concorrente 1",
      payload !! "(Concorrente 1) Preços a vista/etanol",
      payload !! "(Posto Natureza 1) Marcou Opção de Alteração de preço"))
    <$> @Payload.formatPayloadForN8n march_5 PriceForm.keys (λ _, "") (λ _, "") (λ _, "")
          Manha (default_state "2024-03-05T12:00:00.000Z")
  = Ret (Some (JStr "05/03/2024 (09:00)"), Some (JStr "Manhã"),
         Some (JStr "Posto Concorrente 1: "), Some (JStr ""), Some (JStr "NÃO")).
Proof. vm_compute. reflexivity. Qed.

(** ** Picking a photo *)

Section pick_facts.
Import ImagesDB DateFns ImageMetadata ImageCache ImageCapture.
Context `{Platform} `{Device} (JSON_text : jsval → string) (Date_parse : string → Date)
  (load : File → option Resize.Picture) (toBlob : File → Resize.Canvas → option Blob)
  (props : Call → World → World * outcome unit).

Lemma metaKey_of_imageKey (period stationId : string) :
  replace_first "img:" "meta:" (imageKey period stationId) = metadataKey period stationId.
Proof. reflexivity. Qed.

Lemma metadataKey_ne_imageKey (period stationId : string) :
  metadataKey period stationId ≠ imageKey period stationId.
Proof. discriminate. Qed.

Lemma metaKey_ne_imageKey (period stationId : string) :
  replace_first "img:" "meta:" (imageKey period stationId) ≠ imageKey period stationId.
Proof. rewrite metaKey_of_imageKey. discriminate. Qed.

(** The metadata object can be started unless the date is not a date. *)
Lemma exif_fields_cases (exif : option ImageMetadata) :
  (∃ md, exif = Some md ∧ dateTime md = Some InvalidDate
         ∧ exif_fields exif = Throw RangeError)
  ∨ (∃ fields, exif_fields exif = Ret fields
               ∧ ∀ md, exif = Some md → dateTime md ≠ Some InvalidDate).
Proof.
  destruct exif as [md|]; [|right; by eexists].
  unfold exif_fields. destruct (dateTime md) as [[ms|]|] eqn:Hd.
  - right. cbn [toISOString]. destruct (civil_from_days _) as [[y m] d].
    cbn [mbind outcome_bind]. eexists. split; [done|]. intros ? [= <-]. congruence.
  - left. by exists md.
  - right. eexists. split; [done|]. intros ? [= <-]. congruence.
Qed.

(** An image saved with its metadata on a primary tier with room: where
    it is afterwards, and what else the page holds. *)
Lemma saved_with_room (period stationId : string) (metadata : jsval) (w : World)
    (blob : Blob) :
  is_image_type (type blob) = true →
  bytes blob ≠ [] →
  truthy (Some metadata) = true →
  (∀ m, fits (localStorage w) m = true) →
  ∃ w1, saveImageBlob (imageKey period stationId) blob (Some metadata) w = Ret w1
    ∧ first_tier w1 (imageKey period stationId) = Some (Text (base64_text (bytes blob)))
    ∧ getImageBlob JSON_text (imageKey period stationId) w1
      = Ret (Some {| bytes := bytes blob; type := "image/jpeg" |})
    ∧ getImageMetadata (imageKey period stationId) w1 = Ret (Some metadata)
    ∧ fits (localStorage w1) = fits (localStorage w)
    ∧ getItem (localStorage w1) STORAGE_KEY = getItem (localStorage w) STORAGE_KEY.
Proof.
  intros Htype Hbytes Hmeta Hfits.
  unfold saveImageBlob. rewrite (stored_text blob Htype).
  unfold write_tier, setItem. rewrite Hfits. cbn [mbind outcome_bind fits items].
  rewrite Hmeta, Hfits. eexists. split; [reflexivity|].
  assert (first_tier (with_local w
                        {| items := <[replace_first "img:" "meta:" (imageKey period stationId)
                                       := Json (default JNull (Some metadata))]>
                                      (<[imageKey period stationId
                                         := Text (base64_text (bytes blob))]>
                                         (items (localStorage w)));
                           fits := fits (localStorage w) |})
            (imageKey period stationId)
          = Some (Text (base64_text (bytes blob)))) as Hfirst.
  { unfold first_tier, getItem. cbn [localStorage with_local items].
    rewrite lookup_insert_ne by apply metaKey_ne_imageKey.
    by rewrite lookup_insert_eq, base64_text_truthy. }
  split; [done|]. split; [by apply get_first_tier|]. split; [|split; [done|]].
  - unfold getImageMetadata, first_tier, getItem. cbn [localStorage with_local items].
    by rewrite lookup_insert_eq.
  - unfold getItem. cbn [localStorage with_local items].
    by rewrite !lookup_insert_ne.
Qed.

(** A pick that is not checked for its date goes straight to the
    compression. *)
Lemma handlePick_unchecked (period stationId : string) (file : File) (source : Source)
    (w : World) (exif : option ImageMetadata) (fields : gmap string jsval) :
  source = camera ∨ String.prefix "competitor_" stationId = false →
  extractImageMetadata Date_parse file = Ret exif →
  exif_fields exif = Ret fields →
  handlePick Date_parse load toBlob props period stationId file source w
  = store load toBlob props (imageKey period stationId) file
      (JObj (<["validationStatus" := JStr "validated"]> fields)) w.
Proof.
  intros Hsource Hexif Hfields. unfold handlePick. rewrite Hexif.
  cbn [mbind outcome_bind]. rewrite Hfields. cbn [mbind outcome_bind].
  destruct Hsource as [->| ->]; [done|by destruct source].
Qed.

(** X18. A photo chosen from the gallery for a competitor leaves both
    tiers as they were and hands nothing to the card, and an error is
    shown, unless its EXIF date is a time on the current local day. *)
Theorem gallery_pick_needs_today (period stationId : string) (file : File) (w : World)
    (p : Picked) :
  String.prefix "competitor_" stationId = true →
  handlePick Date_parse load toBlob props period stationId file gallery w = Ret p →
  (∃ md ms, extractImageMetadata Date_parse file = Ret (Some md)
            ∧ dateTime md = Some (Time ms)
            ∧ local_day ms = local_day current_time)
  ∨ (world_after p = w ∧ calls p = [] ∧ preview p = None ∧ is_Some (validationError p)).
Proof.
  intros Hp. unfold handlePick. rewrite Hp.
  destruct (extractImageMetadata Date_parse file) as [exif|e|] eqn:Hmd;
    cbn [mbind outcome_bind]; [|intros [= <-]; right; by eauto|done].
  destruct (exif_fields_cases exif) as [(md & -> & Hd & ->)|(fields & -> & Hdate)];
    cbn [mbind outcome_bind]; [intros [= <-]; right; by eauto|].
  rewrite (validateImageDate_competitor Date_parse file stationId exif Hp Hmd).
  destruct exif as [md|]; [|intros [= <-]; right; by eauto].
  destruct (dateTime md) as [[ms|]|] eqn:Hd;
    [|by destruct (Hdate md eq_refl)|intros [= <-]; right; by eauto].
  destruct (Z.eqb_spec (local_day ms) (local_day current_time)) as [Hday|Hday].
  - intros _. left. by exists md, ms.
  - destruct (civil_from_days (local_day ms)) as [[y m] d]. cbn [mbind outcome_bind].
    intros [= <-]. right. by eauto.
Qed.

(** What the end of a pick comes to. *)
Lemma store_outcomes (key : string) (file : File) (metadata : jsval) (w : World) :
  (∀ e, store load toBlob props key file metadata w ≠ Throw e)
  ∧ ∀ p, store load toBlob props key file metadata w = Ret p →
      (validationError p = None
       ∧ ∃ blob w1 w2,
           saveImageBlob key blob (Some metadata) w = Ret w1
           ∧ props (onBase64 (dataURLToBase64 (blobToDataURL blob))) w1 = (w2, Ret tt)
           ∧ props (onMetadata metadata) w2 = (world_after p, Ret tt)
           ∧ calls p = [onBase64 (dataURLToBase64 (blobToDataURL blob));
                        onMetadata metadata]
           ∧ preview p = Some (blobToDataURL blob))
      ∨ (is_Some (validationError p) ∧ calls p = [] ∧ preview p = None
         ∧ ∀ k, k ≠ key →
             getItem (localStorage (world_after p)) k = getItem (localStorage w) k
             ∧ getItem (sessionStorage (world_after p)) k = getItem (sessionStorage w) k)
      ∨ (validationError p = Some "Erro ao processar a imagem"
         ∧ ∃ blob w1,
             saveImageBlob key blob (Some metadata) w = Ret w1
             ∧ preview p = Some (blobToDataURL blob)
             ∧ ((∃ e, props (onBase64 (dataURLToBase64 (blobToDataURL blob))) w1
                      = (world_after p, Throw e)
                      ∧ calls p = [onBase64 (dataURLToBase64 (blobToDataURL blob))])
                ∨ (∃ w2 e,
                     props (onBase64 (dataURLToBase64 (blobToDataURL blob))) w1
                     = (w2, Ret tt)
                     ∧ props (onMetadata metadata) w2 = (world_after p, Throw e)
                     ∧ calls p = [onBase64 (dataURLToBase64 (blobToDataURL blob));
                                  onMetadata metadata]))).
Proof.
  unfold store, Resize.compressImage.
  destruct (load file) as [img|];
    [|split; [done|]; intros p [= <-]; right; left; by eauto].
  destruct (toBlob file _) as [blob|];
    [|split; [done|]; intros p [= <-]; right; left; by eauto].
  destruct (saveImageBlob key blob (Some metadata) w) as [w1|e|] eqn:Hsave.
  - destruct (props (onBase64 _) w1) as [w2 [[]|e|]] eqn:Hfirst; cbn [fst snd].
    + destruct (props (onMetadata metadata) w2) as [w3 [[]|e|]] eqn:Hsecond;
        cbn [fst snd].
      * split; [done|]. intros p [= <-]. left. split; [done|]. by exists blob, w1, w2.
      * split; [done|]. intros p [= <-]. right. right. split; [done|].
        exists blob, w1. split; [done|]. split; [done|]. right. by exists w2, e.
      * done.
    + split; [done|]. intros p [= <-]. right. right. split; [done|].
      exists blob, w1. split; [done|]. split; [done|]. left. by exists e.
    + done.
  - split; [done|]. intros p [= <-]. right. left.
    cbn [validationError failed caught calls preview].
    repeat split; [by eauto|..];
      cbn [world_after failed caught localStorage sessionStorage];
      unfold after_failed_primary, setItem, getItem;
      destruct (fits _ _); cbn [items]; by rewrite ?lookup_insert_ne.
  - done.
Qed.

(** X20. [handlePick] throws nothing, whatever the props do. A pick
    that returns ended in one of three ways. It went through: no error
    is shown, the image was saved under the key of the station with
    metadata whose status is [validated], and [onBase64] was called
    with the image text, then [onMetadata] with that metadata, on the
    page the save left, and both returned. Or it stopped before the
    save went through: an error is shown, no prop was called, the
    preview is not set and every other key of both tiers holds what it
    held. Or a prop threw after the save: the image is stored and the
    preview set, the generic error is shown, and the call that threw
    was the last. A date tag that is not a date always ends in the
    generic error, with nothing stored. *)
Theorem pick_outcomes (period stationId : string) (file : File) (source : Source)
    (w : World) :
  (∀ e, handlePick Date_parse load toBlob props period stationId file source w ≠ Throw e)
  ∧ (∀ p, handlePick Date_parse load toBlob props period stationId file source w = Ret p →
       (validationError p = None
        ∧ ∃ blob metadata w1 w2,
            saveImageBlob (imageKey period stationId) blob (Some metadata) w = Ret w1
            ∧ get_prop metadata "validationStatus" = Some (JStr "validated")
            ∧ props (onBase64 (dataURLToBase64 (blobToDataURL blob))) w1 = (w2, Ret tt)
            ∧ props (onMetadata metadata) w2 = (world_after p, Ret tt)
            ∧ calls p = [onBase64 (dataURLToBase64 (blobToDataURL blob));
                         onMetadata metadata]
            ∧ preview p = Some (blobToDataURL blob))
       ∨ (is_Some (validationError p) ∧ calls p = [] ∧ preview p = None
          ∧ ∀ k, k ≠ imageKey period stationId →
              getItem (localStorage (world_after p)) k = getItem (localStorage w) k
              ∧ getItem (sessionStorage (world_after p)) k
                = getItem (sessionStorage w) k)
       ∨ (validationError p = Some "Erro ao processar a imagem"
          ∧ ∃ blob metadata w1,
              saveImageBlob (imageKey period stationId) blob (Some metadata) w = Ret w1
              ∧ preview p = Some (blobToDataURL blob)
              ∧ ((∃ e, props (onBase64 (dataURLToBase64 (blobToDataURL blob))) w1
                       = (world_after p, Throw e)
                       ∧ calls p = [onBase64 (dataURLToBase64 (blobToDataURL blob))])
                 ∨ (∃ w2 e,
                      props (onBase64 (dataURLToBase64 (blobToDataURL blob))) w1
                      = (w2, Ret tt)
                      ∧ props (onMetadata metadata) w2 = (world_after p, Throw e)
                      ∧ calls p = [onBase64 (dataURLToBase64 (blobToDataURL blob));
                                   onMetadata metadata]))))
  ∧ (∀ md, extractImageMetadata Date_parse file = Ret (Some md) →
       dateTime md = Some InvalidDate →
       handlePick Date_parse load toBlob props period stationId file source w
       = Ret (failed w)).
Proof.
  set (outcomes := λ p : Picked,
         (validationError p = None
          ∧ ∃ blob metadata w1 w2,
              saveImageBlob (imageKey period stationId) blob (Some metadata) w = Ret w1
              ∧ get_prop metadata "validationStatus" = Some (JStr "validated")
              ∧ props (onBase64 (dataURLToBase64 (blobToDataURL blob))) w1 = (w2, Ret tt)
              ∧ props (onMetadata metadata) w2 = (world_after p, Ret tt)
              ∧ calls p = [onBase64 (dataURLToBase64 (blobToDataURL blob));
                           onMetadata metadata]
              ∧ preview p = Some (blobToDataURL blob))
         ∨ (is_Some (validationError p) ∧ calls p = [] ∧ preview p = None
            ∧ ∀ k, k ≠ imageKey period stationId →
                getItem (localStorage (world_after p)) k = getItem (localStorage w) k
                ∧ getItem (sessionStorage (world_after p)) k
                  = getItem (sessionStorage w) k)
         ∨ (validationError p = Some "Erro ao processar a imagem"
            ∧ ∃ blob metadata w1,
                saveImageBlob (imageKey period stationId) blob (Some metadata) w = Ret w1
                ∧ preview p = Some (blobToDataURL blob)
                ∧ ((∃ e, props (onBase64 (dataURLToBase64 (blobToDataURL blob))) w1
                         = (world_after p, Throw e)
                         ∧ calls p = [onBase64 (dataURLToBase64 (blobToDataURL blob))])
                   ∨ (∃ w2 e,
                        props (onBase64 (dataURLToBase64 (blobToDataURL blob))) w1
                        = (w2, Ret tt)
                        ∧ props (onMetadata metadata) w2 = (world_after p, Throw e)
                        ∧ calls p = [onBase64 (dataURLToBase64 (blobToDataURL blob));
                                     onMetadata metadata])))).
  assert (∀ metadata,
            get_prop metadata "validationStatus" = Some (JStr "validated") →
            (∀ e, store load toBlob props (imageKey period stationId) file metadata w
                  ≠ Throw e)
            ∧ ∀ p, store load toBlob props (imageKey period stationId) file metadata w
                   = Ret p → outcomes p) as Hstore.
  { intros metadata Hstatus.
    destruct (store_outcomes (imageKey period stationId) file metadata w) as [Hthrow Hret].
    split; [done|]. intros p Hp. unfold outcomes.
    destruct (Hret p Hp)
      as [(Herr & blob & w1 & w2 & ? & ? & ? & ? & ?)
         |[Hquiet|(Herr & blob & w1 & ? & ? & Hcall)]].
    - left. split; [done|]. by exists blob, metadata, w1, w2.
    - by right; left.
    - right. right. split; [done|]. by exists blob, metadata, w1. }
  assert (∀ fields : gmap string jsval,
            get_prop (JObj (<["validationStatus" := JStr "validated"]> fields))
              "validationStatus" = Some (JStr "validated")) as Hplain.
  { intros fields. unfold get_prop. cbn [own_props]. apply lookup_insert_eq. }
  assert (∀ p : Picked, p = failed w ∨ (∃ v, p = refused v w) → outcomes p) as Hquiet.
  { intros p Hp. unfold outcomes. right. left. destruct Hp as [->|[v ->]]; by eauto. }
  split; [|split].
  - intros e. unfold handlePick.
    destruct (extractImageMetadata Date_parse file) as [exif| |] eqn:Hmd;
      cbn [mbind outcome_bind]; [|done..].
    destruct (exif_fields_cases exif) as [(md & -> & Hd & ->)|(fields & -> & Hdate)];
      cbn [mbind outcome_bind]; [done|].
    destruct source; [by apply Hstore|].
    destruct (String.prefix "competitor_" stationId) eqn:Hp; [|by apply Hstore].
    rewrite (validateImageDate_competitor Date_parse file stationId exif Hp Hmd).
    destruct exif as [md|]; [|done].
    destruct (dateTime md) as [[ms|]|] eqn:Hd; [|done..].
    destruct (local_day ms =? local_day current_time).
    + cbn [mbind outcome_bind isValid negb reason status default from_option id
           status_text fmap option_fmap option_map field].
      by apply Hstore.
    + by destruct (civil_from_days (local_day ms)) as [[y m] d].
  - intros p. fold (outcomes p). unfold handlePick.
    destruct (extractImageMetadata Date_parse file) as [exif| |] eqn:Hmd;
      cbn [mbind outcome_bind]; [|intros [= <-]; apply Hquiet; by left|done].
    destruct (exif_fields_cases exif) as [(md & -> & Hd & ->)|(fields & -> & Hdate)];
      cbn [mbind outcome_bind]; [intros [= <-]; apply Hquiet; by left|].
    destruct source; [by apply Hstore|].
    destruct (String.prefix "competitor_" stationId) eqn:Hp; [|by apply Hstore].
    rewrite (validateImageDate_competitor Date_parse file stationId exif Hp Hmd).
    destruct exif as [md|]; [|intros [= <-]; apply Hquiet; right; by eexists].
    destruct (dateTime md) as [[ms|]|] eqn:Hd;
      [|by destruct (Hdate md eq_refl)
       |intros [= <-]; apply Hquiet; right; by eexists].
    destruct (local_day ms =? local_day current_time).
    + cbn [mbind outcome_bind isValid negb reason status default from_option id
           status_text fmap option_fmap option_map field].
      by apply Hstore.
    + destruct (civil_from_days (local_day ms)) as [[y m] d]. cbn [mbind outcome_bind].
      intros [= <-]. apply Hquiet. right. by eexists.
  - intros md Hexif Hd. unfold handlePick. rewrite Hexif. cbn [mbind outcome_bind].
    unfold exif_fields. by rewrite Hd.
Qed.

End pick_facts.

(** Witness of [gallery_pick_needs_today]: the photo of 3 March chosen
    from the gallery on 5 March is refused. *)
Lemma gallery_pick_needs_today_witness :
  (∃ md ms,
     @ImageMetadata.extractImageMetadata reads_no_text photo_of_march_3 = Ret (Some md)
     ∧ ImageMetadata.dateTime md = Some (DateFns.Time ms)
     ∧ @DateFns.local_day march_5 ms = @DateFns.local_day march_5 (@DateFns.current_time march_5))
  ∨ (ImageCapture.world_after (Picks.refusal_of_march_3 (page ∅ ∅)) = page ∅ ∅
     ∧ ImageCapture.calls (Picks.refusal_of_march_3 (page ∅ ∅)) = []
     ∧ ImageCapture.preview (Picks.refusal_of_march_3 (page ∅ ∅)) = None
     ∧ is_Some (ImageCapture.validationError (Picks.refusal_of_march_3 (page ∅ ∅)))).
Proof.
  apply (@gallery_pick_needs_today march_5 reads_no_text Picks.decodes Picks.encodes
           (@ImageCapture.card_props strict_host Manha "competitor_1" emptyStation
              (ImageCapture.instants
                 ("2024-03-05T12:00:00.000Z", "2024-03-05T12:00:00.001Z")
                 ("2024-03-05T12:00:00.002Z", "2024-03-05T12:00:00.003Z")))
           "manha" "competitor_1" photo_of_march_3 (page ∅ ∅)
           (Picks.refusal_of_march_3 (page ∅ ∅))); reflexivity.
Defined.

(** ** The card and the form *)

Section card_facts.
Import StateEdits FormActions ImageCapture Validation ImagesDB FormTerms.
Context `{Platform} (JSON_text : jsval → string).

Lemma assign_covers (m d : gmap string jsval) (id : string) (v : jsval) :
  m ∪ d = m → assign m id v ∪ d = assign m id v.
Proof.
  intros Hm. unfold assign. destruct (_ && _); [done|]. by rewrite <- insert_union_l, Hm.
Qed.

Lemma stations_set_stations (p : PeriodKey) (m : gmap string jsval) (s : AppState) :
  stations p (set_stations p m s) = m.
Proof. by destruct p. Qed.


(** A state read and changed in its records of one period, under ids it
    keeps, is read back as it is saved. *)
Lemma changed_records_read_back (period : PeriodKey) (m : gmap string jsval)
    (now now' now'' : string) (w w' : World) (st : AppState) :
  readAppState now w = Ret st →
  (∀ k, is_Some (stations period st !! k) → is_Some (m !! k)) →
  saveAppState now' (set_stations period m st) w = Ret w' →
  readAppState now'' w' = Ret (stamped now' (set_stations period m st)).
Proof.
  intros Hread Hkeep Hsave.
  destruct (readAppState_shape now w st Hread) as (idx & Hup & Hcn & Hnm & Hm & Ht & Hmeta).
  assert (m ∪ (default_maps idx).2 = m) as Hcover.
  { apply union_covered. intros k Hk. apply Hkeep.
    assert ((stations period st ∪ (default_maps idx).2) !! k = stations period st !! k)
      as Heq by (by destruct period; cbn [stations]; rewrite ?Hm, ?Ht).
    rewrite lookup_union in Heq. destruct Hk as [v Hv]. rewrite Hv in Heq.
    destruct (stations period st !! k); [by eexists|done]. }
  apply (save_then_read now' now'' _ idx w w'); try (by destruct period).
Qed.

Lemma onStationChange_saved (period : PeriodKey) (id : string) (updater : jsval)
    (now now' now'' : string) (w w' : World) (st' : AppState) :
  onStationChange period id updater now now' w = Ret (st', w') →
  ∃ st, readAppState now w = Ret st
    ∧ st' = set_stations period (assign (stations period st) id updater) st
    ∧ readAppState now'' w' = Ret (stamped now' st').
Proof.
  unfold onStationChange. destruct (readAppState now w) as [st| |] eqn:Hread; [|done..].
  cbn [mbind outcome_bind].
  destruct (saveAppState now' _ w) as [w1| |] eqn:Hsave; [|done..].
  cbn [mbind outcome_bind]. intros [= <- <-]. exists st. split; [done|]. split; [done|].
  apply (changed_records_read_back period _ now now' now'' w w1 st Hread); [|done].
  intros k Hk. unfold assign. destruct (_ && _); [done|].
  destruct (decide (k = id)) as [->|Hne]; [by rewrite lookup_insert_eq|].
  by rewrite lookup_insert_ne.
Qed.

(** X21. The two calls of a pick reach the form with the record the
    card was rendered with, so the second undoes the first: what is
    persisted for the station afterwards is that record with the new
    metadata, and its photo is the one the card showed before the pick,
    not the one picked. *)
Theorem pick_calls_keep_shown_photo (period : PeriodKey) (id : string) (value : jsval)
    (base64 : string) (metadata : jsval) (now1 now1' now2 now2' now : string)
    (w w' : World) :
  id ≠ "__proto__" →
  deliver period id value [(now1, now1'); (now2, now2')]
    [onBase64 base64; onMetadata metadata] w = Ret w' →
  ∃ st record,
    readAppState now w' = Ret st
    ∧ stations period st !! id = Some record
    ∧ record = JObj (<["metadata" := metadata]> (own_props (Some value)))
    ∧ get_prop record "metadata" = Some metadata
    ∧ get_prop record "photoBase64" = get_prop value "photoBase64".
Proof.
  intros Hid. cbn [deliver].
  destruct (onStationChange period id _ now1 now1' w) as [[st1 w1]| |] eqn:Hfirst;
    [|done..].
  cbn [mbind outcome_bind].
  destruct (onStationChange period id _ now2 now2' w1) as [[st2 w2]| |] eqn:Hsecond;
    [|done..].
  cbn [mbind outcome_bind]. intros [= <-].
  apply (onStationChange_saved _ _ _ _ _ now) in Hsecond as (st & _ & -> & Hread).
  eexists _, _. split; [exact Hread|].
  assert (∀ s, stations period (stamped now2' s) = stations period s) as Hstamped
    by (intros s; by destruct period).
  rewrite Hstamped, stations_set_stations. unfold assign.
  destruct (String.eqb_spec id "__proto__") as [|_]; [done|]. cbn [andb].
  rewrite lookup_insert_eq. split; [done|]. split; [done|].
  unfold get_prop. cbn [own_props record_for]. split.
  - apply lookup_insert_eq.
  - by rewrite lookup_insert_ne.
Qed.

(** The loop of the hydration. The text [JSON.stringify] writes is
    never empty. *)
Lemma hydrate_loop (period : PeriodKey) (w : World) (st : AppState) (ids seen : list string)
    (acc : AppState * bool) :
  (∀ j, JSON_text j ≠ "") →
  (∀ id, id ∈ ids → ∃ o, stations period st !! id = Some (JObj o)) →
  (∀ id, id ∉ seen → stations period acc.1 !! id = stations period st !! id) →
  (∀ id, stations period acc.1 !! id = stations period st !! id
         ∨ stations period acc.1 !! id
           = hydrated JSON_text period w id <$> stations period st !! id) →
  (∀ id, id ∈ seen →
     stations period acc.1 !! id
     = hydrated JSON_text period w id <$> stations period st !! id) →
  (∃ m, acc.1 = set_stations period m st) →
  (acc.2 = false → acc.1 = st) →
  ∃ st' updated,
    PriceForm.for_each (hydrate_step JSON_text period w) ids acc = Ret (st', updated)
    ∧ (∀ id, stations period st' !! id = stations period st !! id
             ∨ stations period st' !! id
               = hydrated JSON_text period w id <$> stations period st !! id)
    ∧ (∀ id, id ∈ seen ++ ids →
         stations period st' !! id
         = hydrated JSON_text period w id <$> stations period st !! id)
    ∧ (∀ id, id ∉ seen ++ ids → stations period st' !! id = stations period st !! id)
    ∧ (∃ m, st' = set_stations period m st)
    ∧ (updated = false → st' = st).
Proof.
  intros Htext. revert seen acc.
  induction ids as [|x ids IH]; intros seen [s u] Hobj Hout Hinv Hseen Hset Hu.
  { exists s, u. rewrite app_nil_r. by repeat split. }
  cbn [PriceForm.for_each fst snd] in *.
  destruct (Hobj x) as [o Ho]; [by apply list_elem_of_here|].
  assert (∃ s1 u1,
            hydrate_step JSON_text period w (s, u) x = Ret (s1, u1)
            ∧ stations period s1
              = <[x := hydrated JSON_text period w x (JObj o)]> (stations period s)
            ∧ (∃ m, s1 = set_stations period m st)
            ∧ (u1 = false → s1 = st)) as (s1 & u1 & -> & Hs1 & Hset1 & Hu1).
  { assert (hydrated JSON_text period w x (hydrated JSON_text period w x (JObj o))
            = hydrated JSON_text period w x (JObj o)) as Hidem.
    { unfold hydrated. destruct (truthy (o !! "photoBase64")) eqn:Hphoto; [by rewrite Hphoto|].
      destruct (first_tier w _) as [text|]; [|by rewrite Hphoto].
      destruct (falsy_text (Some text)) eqn:Hf; [by rewrite Hphoto|].
      rewrite lookup_insert_eq.
      assert (truthy (Some (JStr (text_of JSON_text text))) = true) as ->; [|done].
      destruct text as [t|j]; cbn [text_of truthy]; [by destruct t|].
      specialize (Htext j). by destruct (JSON_text j). }
    unfold hydrate_step. cbn [fst snd].
    destruct (Hinv x) as [Hx|Hx]; rewrite Hx, Ho; cbn [fmap option_fmap option_map].
    - cbn [member mbind outcome_bind]. unfold get_prop. cbn [own_props].
      unfold hydrated. destruct (truthy (o !! "photoBase64")) eqn:Hphoto.
      { exists s, u. repeat split; try done. by rewrite insert_id by by rewrite Hx, Ho. }
      destruct (first_tier w _) as [text|] eqn:Hfirst.
      2:{ cbn [falsy_text]. exists s, u. repeat split; try done. by rewrite insert_id by by rewrite Hx, Ho. }
      destruct (falsy_text (Some text)) eqn:Hf.
      { exists s, u. repeat split; try done. by rewrite insert_id by by rewrite Hx, Ho. }
      eexists _, _. split; [reflexivity|]. split; [by rewrite stations_set_stations|].
      split; [|done]. destruct Hset as [m ->]. eexists. by destruct period.
    - destruct (hydrated JSON_text period w x (JObj o)) as [| | | | |o'] eqn:Hh;
        try (unfold hydrated in Hh; repeat case_match; done).
      cbn [member mbind outcome_bind]. unfold get_prop. cbn [own_props].
      pose proof Hidem as Hsame.
      assert (stations period s !! x = Some (JObj o')) as Hsx.
      { rewrite Hx, Ho. cbn [fmap option_fmap option_map]. by rewrite Hh. }
      unfold hydrated in Hsame.
      destruct (truthy (o' !! "photoBase64")) eqn:Hphoto.
      { exists s, u. repeat split; try done. by rewrite insert_id. }
      destruct (first_tier w _) as [text|] eqn:Hfirst.
      2:{ cbn [falsy_text]. exists s, u. repeat split; try done.
          by rewrite insert_id. }
      destruct (falsy_text (Some text)) eqn:Hf.
      { exists s, u. repeat split; try done.
        by rewrite insert_id. }
      injection Hsame as Hsame.
      assert (o' !! "photoBase64" = Some (JStr (text_of JSON_text text))) as Hp
        by (by rewrite <- Hsame, lookup_insert_eq).
      rewrite Hp in Hphoto. destruct text as [t|j]; cbn [text_of truthy] in Hphoto;
        [by destruct t|].
      specialize (Htext j). by destruct (JSON_text j). }
  cbn [mbind outcome_bind].
  destruct (IH (seen ++ [x]) (s1, u1))
    as (st' & updated & Hloop & Hinv' & Hseen' & Hout' & Hset' & Hu');
    cbn [fst snd]; try done.
  - intros id Hid. apply Hobj. by apply list_elem_of_further.
  - intros id Hid. rewrite Hs1.
    assert (id ≠ x) as Hne
      by (intros ->; apply Hid, elem_of_app; right; apply list_elem_of_here).
    rewrite lookup_insert_ne by done. apply Hout. intros Hin. apply Hid, elem_of_app.
    by left.
  - intros id. rewrite Hs1. destruct (decide (id = x)) as [->|Hne].
    + right. by rewrite lookup_insert_eq, Ho.
    + rewrite lookup_insert_ne by done. apply Hinv.
  - intros id [Hid| ->%list_elem_of_singleton]%elem_of_app; rewrite Hs1.
    + destruct (decide (id = x)) as [->|Hne]; [by rewrite lookup_insert_eq, Ho|].
      rewrite lookup_insert_ne by done. by apply Hseen.
    + by rewrite lookup_insert_eq, Ho.
  - exists st', updated. split; [done|]. split; [done|]. split; [|split; [|done]].
    + intros id Hid. apply Hseen'. by rewrite <- app_assoc.
    + intros id Hid. apply Hout'. by rewrite <- app_assoc.
Qed.


End card_facts.

(** Witness of [pick_calls_keep_shown_photo]: the card of the first
    competitor shows the empty record of the default state when a photo
    is picked. *)
Lemma pick_calls_keep_shown_photo_witness :
  ∃ w',
    @ImageCapture.deliver strict_host Manha "competitor_1" emptyStation
      [("2024-03-05T12:00:00.000Z", "2024-03-05T12:00:00.001Z");
       ("2024-03-05T12:00:00.002Z", "2024-03-05T12:00:00.003Z")]
      [ImageCapture.onBase64 "/w==";
       ImageCapture.onMetadata (JObj {[ "validationStatus" := JStr "validated" ]})]
      (page ∅ ∅) = Ret w'
    ∧ ∃ st record,
        @readAppState strict_host "2024-03-05T12:01:00.000Z" w' = Ret st
        ∧ stations Manha st !! "competitor_1" = Some record
        ∧ record
          = JObj (<["metadata" := JObj {[ "validationStatus" := JStr "validated" ]}]>
                    (own_props (Some emptyStation)))
        ∧ get_prop record "metadata"
          = Some (JObj {[ "validationStatus" := JStr "validated" ]})
        ∧ get_prop record "photoBase64" = get_prop emptyStation "photoBase64".
Proof.
  eexists. split; [reflexivity|].
  eapply (@pick_calls_keep_shown_photo strict_host Manha "competitor_1" emptyStation
            "/w==" (JObj {[ "validationStatus" := JStr "validated" ]})
            "2024-03-05T12:00:00.000Z" "2024-03-05T12:00:00.001Z"
            "2024-03-05T12:00:00.002Z" "2024-03-05T12:00:00.003Z"
            "2024-03-05T12:01:00.000Z" (page ∅ ∅) _).
  - done.
  - reflexivity.
Defined.


(** What that hydration reads for the reference station afterwards. *)
Example hydrated_reference_photo :
  (λ r : AppState * World,
     stations Manha r.1 !! "reference" ≫= λ record, get_prop record "photoBase64")
    <$> @Validation.hydrate strict_host (λ _, "null") Manha ["reference"; "competitor_1"]
          "2024-03-05T12:00:00.000Z" "2024-03-05T12:01:00.000Z"
          (page {[ "img:manha:reference" := Text "/w==" ]} ∅)
  = Ret (Some (JStr "/w==")).
Proof. vm_compute. reflexivity. Qed.

(** ** The images of a period *)

Section period_images.
Import ImagesDB ImageCache PriceForm.
Context `{Platform} (JSON_text : jsval → string)
  (Object_keys : gmap string jsval → list string).

(** The ids [deleteImagesForPeriod] goes through are those of the
    stations from 0 to 10. *)
Lemma elem_of_allIds (id : string) :
  id ∈ "reference" :: ((λ i, "competitor_" +:+ pretty i) <$> seqZ 1 10)
  ↔ ∃ i, 0 ≤ i ≤ 10 ∧ id = stationIdForIndex i.
Proof.
  change ("reference" :: ((λ i, "competitor_" +:+ pretty i) <$> seqZ 1 10))
    with (stationIdForIndex <$> seqZ 0 11).
  rewrite list_elem_of_fmap. setoid_rewrite elem_of_seqZ'. split.
  - intros (i & -> & Hi). exists i. split; [lia|done].
  - intros (i & Hi & ->). exists i. split; [done|lia].
Qed.

Lemma imageKey_inj (period stationId stationId' : string) :
  imageKey period stationId = imageKey period stationId' → stationId = stationId'.
Proof.
  unfold imageKey. intros Heq%app_inv_prefix%app_inv_prefix. by apply app_inv_prefix in Heq.
Qed.

Lemma metadataKey_inj (period stationId stationId' : string) :
  metadataKey period stationId = metadataKey period stationId' → stationId = stationId'.
Proof.
  unfold metadataKey. intros Heq%app_inv_prefix%app_inv_prefix.
  by apply app_inv_prefix in Heq.
Qed.

Lemma imageKey_period (p q : PeriodKey) (stationId stationId' : string) :
  imageKey (period_name p) stationId = imageKey (period_name q) stationId' → p = q.
Proof. unfold imageKey. intros Heq%app_inv_prefix. by destruct p, q. Qed.

Lemma metadataKey_period (p q : PeriodKey) (stationId stationId' : string) :
  metadataKey (period_name p) stationId = metadataKey (period_name q) stationId' → p = q.
Proof. unfold metadataKey. intros Heq%app_inv_prefix. by destruct p, q. Qed.

(** The removals of [deleteImagesForPeriod], for any list of ids. *)
Lemma delete_images_loop (pn : string) (ids : list string) (w : World) :
  let w' :=
    foldl (λ w id,
             let key := imageKey pn id in
             let metaKey := replace_first "img:" "meta:" key in
             {| localStorage := removeItem (removeItem (localStorage w) key) metaKey;
                sessionStorage := removeItem (removeItem (sessionStorage w) key) metaKey;
                events := events w |})
          w ids in
  (∀ k, (∃ id, id ∈ ids ∧ (k = imageKey pn id ∨ k = metadataKey pn id)) →
        getItem (localStorage w') k = None ∧ getItem (sessionStorage w') k = None)
  ∧ (∀ k, (∀ id, id ∈ ids → k ≠ imageKey pn id ∧ k ≠ metadataKey pn id) →
          getItem (localStorage w') k = getItem (localStorage w) k
          ∧ getItem (sessionStorage w') k = getItem (sessionStorage w) k).
Proof.
  cbv zeta. induction ids as [|x ids IH] using rev_ind.
  { split; [intros k (id & Hid%not_elem_of_nil & _); done|done]. }
  rewrite foldl_app. cbn [foldl]. destruct IH as [Hgone Hkept].
  set (w1 := foldl _ w ids) in *. rewrite metaKey_of_imageKey.
  unfold getItem, removeItem in *. cbn [localStorage sessionStorage items]. split.
  - intros k (id & [Hid| ->%list_elem_of_singleton]%elem_of_app & Hk).
    + destruct (Hgone k) as [Hl Hs]; [by exists id|].
      split; apply lookup_delete_None; right; apply lookup_delete_None; by right.
    + destruct Hk as [->| ->].
      * split; apply lookup_delete_None; right; apply lookup_delete_None; by left.
      * split; apply lookup_delete_None; by left.
  - intros k Hk.
    destruct (Hk x) as [Hi Hm]; [apply elem_of_app; right; apply list_elem_of_here|].
    destruct (Hkept k) as [Hl Hs].
    { intros id Hid. apply Hk. apply elem_of_app. by left. }
    split; (rewrite lookup_delete_ne by done); (rewrite lookup_delete_ne by done); done.
Qed.

Lemma saveAppState_other_keys (now : string) (s : AppState) (w w' : World) :
  saveAppState now s w = Ret w' →
  sessionStorage w' = sessionStorage w
  ∧ ∀ k, k ≠ STORAGE_KEY → getItem (localStorage w') k = getItem (localStorage w) k.
Proof.
  unfold saveAppState, setItem. destruct (fits _ _); [|done]. cbn [mbind outcome_bind].
  intros [= <-]. split; [done|]. intros k Hk. unfold getItem.
  cbn [localStorage dispatchEvent with_local items]. by rewrite lookup_insert_ne.
Qed.

Lemma imageKey_not_state (period stationId : string) :
  imageKey period stationId ≠ STORAGE_KEY ∧ metadataKey period stationId ≠ STORAGE_KEY.
Proof. done. Qed.

(** X23. [deleteImagesForPeriod] reaches the stations from the
    reference to the tenth competitor, of its period: their images and
    metadata can no longer be read from either tier. What is stored for
    a competitor beyond the tenth, or for the other period, stays where
    it was, and so does the application state. *)
Theorem deleteImagesForPeriod_reach (period : PeriodKey) (w : World) :
  (∀ i, 0 ≤ i ≤ 10 →
     getImageBlob JSON_text (imageKey (period_name period) (stationIdForIndex i))
       (deleteImagesForPeriod period w) = Ret None
     ∧ getImageMetadata (imageKey (period_name period) (stationIdForIndex i))
         (deleteImagesForPeriod period w) = Ret None)
  ∧ (∀ i, 10 < i →
       first_tier (deleteImagesForPeriod period w)
         (imageKey (period_name period) (stationIdForIndex i))
       = first_tier w (imageKey (period_name period) (stationIdForIndex i))
       ∧ first_tier (deleteImagesForPeriod period w)
           (metadataKey (period_name period) (stationIdForIndex i))
         = first_tier w (metadataKey (period_name period) (stationIdForIndex i)))
  ∧ (∀ q stationId, q ≠ period →
       first_tier (deleteImagesForPeriod period w) (imageKey (period_name q) stationId)
       = first_tier w (imageKey (period_name q) stationId)
       ∧ first_tier (deleteImagesForPeriod period w)
           (metadataKey (period_name q) stationId)
         = first_tier w (metadataKey (period_name q) stationId))
  ∧ (∀ now, readAppState now (deleteImagesForPeriod period w) = readAppState now w).
Proof.
  unfold deleteImagesForPeriod.
  destruct (delete_images_loop (period_name period)
              ("reference" :: ((λ i, "competitor_" +:+ pretty i) <$> seqZ 1 10)) w)
    as [Hgone Hkept].
  set (w' := foldl _ w _) in *.
  assert (∀ k, (∀ i, 0 ≤ i ≤ 10 →
                  k ≠ imageKey (period_name period) (stationIdForIndex i)
                  ∧ k ≠ metadataKey (period_name period) (stationIdForIndex i)) →
               first_tier w' k = first_tier w k
               ∧ getItem (localStorage w') k = getItem (localStorage w) k) as Hsame.
  { intros k Hk. destruct (Hkept k) as [Hl Hs].
    { intros id (i & Hi & ->)%elem_of_allIds. by apply Hk. }
    unfold first_tier. by rewrite Hl, Hs. }
  split; [|split; [|split]].
  - intros i Hi.
    destruct (Hgone (imageKey (period_name period) (stationIdForIndex i))) as [Hl Hs].
    { exists (stationIdForIndex i). split; [|by left]. apply elem_of_allIds. by exists i. }
    destruct (Hgone (metadataKey (period_name period) (stationIdForIndex i))) as [Hl' Hs'].
    { exists (stationIdForIndex i). split; [|by right]. apply elem_of_allIds. by exists i. }
    unfold getImageBlob, getImageMetadata, first_tier.
    by rewrite metaKey_of_imageKey, Hl, Hs, Hl', Hs'.
  - intros i Hi. split; apply Hsame; intros j Hj; split; try done.
    + intros Heq%imageKey_inj%stationIdForIndex_inj. lia.
    + intros Heq%metadataKey_inj%stationIdForIndex_inj. lia.
  - intros q stationId Hq. split; apply Hsame; intros j Hj; split; try done.
    + by intros Heq%imageKey_period.
    + by intros Heq%metadataKey_period.
  - intros now. unfold readAppState.
    destruct (Hsame STORAGE_KEY) as [_ ->]; [|done]. intros i Hi. split; done.
Qed.




End period_images.


(** The send of [Sends.afternoon_page]: the photo of the reference
    station could be read before it and cannot after it, its record
    keeps the prices and loses the photo, and both sends are noted. *)
Example afternoon_send_of_filled_page :
  ImagesDB.getImageBlob (λ _, "null") (ImagesDB.imageKey "tarde" "reference")
    Sends.afternoon_page
  = Ret (Some {| ImagesDB.bytes := [Byte.xff]; ImagesDB.type := "image/jpeg" |})
  ∧ ∃ st w',
      @PriceForm.submitted strict_host PriceForm.keys Tarde "2024-03-05T17:00:00.000Z"
        Sends.afternoon_page
      = Ret (st, w')
      ∧ ImagesDB.getImageBlob (λ _, "null") (ImagesDB.imageKey "tarde" "reference") w'
        = Ret None
      ∧ @ImageCache.getImageMetadata strict_host (ImagesDB.imageKey "tarde" "reference") w'
        = Ret None
      ∧ tarde st !! "reference"
        = Some (JObj (<["noChange" := JBool false]>
                     (<["photoBase64" := JStr ""]>
                     (<["prices" := default JNull (get_prop filled_station "prices")]> ∅))))
      ∧ meta st !! "lastSent"
        = Some (JObj (<["tarde" := JStr "2024-03-05T17:00:00.000Z"]>
                     {[ "manha" := JStr "2024-03-05T08:00:00.000Z" ]})).
Proof.
  split; [vm_compute; reflexivity|]. eexists _, _.
  split; [vm_compute; reflexivity|]. repeat split; vm_compute; reflexivity.
Qed.

(** ** The rule of the form *)

Section form_rule.
Import Validation CardStation FormTerms.

Lemma price_issues_none (ptype : string) (fields : PriceFieldsValue) :
  price_issues ptype fields = []
  ↔ missing (etanol fields) = false ∧ missing (gasolinaComum fields) = false
    ∧ missing (gasolinaAditivada fields) = false ∧ missing (dieselS10 fields) = false.
Proof.
  unfold price_issues.
  destruct (missing (etanol fields)), (missing (gasolinaComum fields)),
    (missing (gasolinaAditivada fields)), (missing (dieselS10 fields));
    cbn [app]; split; try done; intros (? & ? & ? & ?); done.
Qed.

Lemma digit_is_no_space (a : ascii) (rest : string) :
  is_digit a = true → skip_space (String a rest) = None.
Proof.
  intros Ha.
  destruct a as [[] [] [] [] [] [] [] []]; try discriminate Ha;
    by destruct rest as [|? [|? ?]].
Qed.

(** X25. The rule the form checks for a station before a send: no
    issue is raised exactly when there is a photo and either the
    station is marked as unchanged or none of its eight prices is
    missing. A price is missing when it is absent, empty or white
    space; one the price input wrote is missing only when it is empty,
    which is when the text typed was not [Sem dados] and had no
    digit. *)
Theorem station_rule (val : StationValue) :
  (station_issues val = []
   ↔ (∃ photo, photoBase64 val = Some photo ∧ photo ≠ "")
     ∧ (noChange val = true ∨ Forall (λ v, missing v = false) (price_values val)))
  ∧ (∀ raw, missing (Some (sanitizePrice raw)) = true
            ↔ raw ≠ "Sem dados" ∧ Terms.has_digit raw = false).
Proof.
  split.
  - unfold station_issues, price_values. rewrite app_nil, !Forall_cons, Forall_nil.
    assert ((match photoBase64 val with
             | None | Some "" => [(["photoBase64"], "Envio de Foto aqui!")]
             | Some _ => []
             end = [])
            ↔ ∃ photo, photoBase64 val = Some photo ∧ photo ≠ "") as ->.
    { destruct (photoBase64 val) as [[|c photo]|].
      - split; [done|]. by intros (? & [= <-] & ?).
      - split; [|done]. intros _. by eexists.
      - split; [done|]. by intros (? & ? & ?). }
    destruct (noChange val); cbn [negb].
    + split; [intros [? _]; split; [done|by left]|by intros [? _]].
    + rewrite app_nil, !price_issues_none. split.
      * intros (? & (? & ? & ? & ?) & (? & ? & ? & ?)). split; [done|]. right. done.
      * intros (? & [?|(? & ? & ? & ? & ? & ? & ? & ? & _)]); done.
  - intros raw. unfold missing.
    destruct (sanitizePrice_cases raw)
      as [(-> & ->)|[(Hne & Hd & ->)|(Hne & Hd & a & Ha & Hs)]].
    + split; [done|]. by intros [? _].
    + done.
    + assert (∃ rest, sanitizePrice raw = String a rest) as [rest ->].
      { destruct Hs as [->|(b & _ & [->|(c & _ & ->)])]; by eexists. }
      cbn [String.length skip_spaces]. rewrite (digit_is_no_space a rest Ha).
      split; [done|]. intros [_ ?]. congruence.
Qed.

End form_rule.

(** ** The validator, in one statement *)

Section validator_summary.
Import DateFns ImageMetadata.
Context `{Device} (Date_parse : string → Date).

(** X26. What [validateImageDate] accepts: a file for a station whose id
    does not start with [competitor_], whatever the file is, and for a
    competitor a file whose EXIF date is a time on the current local
    day, nothing else. An accepted result carries no reason and no
    suggestion; a refused one has the status [invalid], a reason and a
    suggestion. *)
Theorem validateImageDate_accepts (file : File) (stationId : string)
    (r : ValidationResult) :
  validateImageDate Date_parse file stationId = Ret r →
  (isValid r = true
   ↔ String.prefix "competitor_" stationId = false
     ∨ ∃ md ms, extractImageMetadata Date_parse file = Ret (Some md)
                ∧ dateTime md = Some (Time ms)
                ∧ local_day ms = local_day current_time)
  ∧ (isValid r = true → reason r = None ∧ suggestion r = None)
  ∧ (isValid r = false →
     status r = Some invalid ∧ is_Some (reason r) ∧ is_Some (suggestion r)).
Proof.
  destruct (String.prefix "competitor_" stationId) eqn:Hp.
  - destruct (extractImageMetadata Date_parse file) as [exif|e|] eqn:Hmd.
    + rewrite (validateImageDate_competitor Date_parse file stationId exif Hp Hmd).
      destruct exif as [md|].
      * destruct (dateTime md) as [[ms|]|] eqn:Hd.
        -- destruct (Z.eqb_spec (local_day ms) (local_day current_time)) as [Hday|Hday].
           ++ intros [= <-]. cbn [isValid reason suggestion]. split; [|done].
              split; [|done]. intros _. right. by exists md, ms.
           ++ destruct (civil_from_days (local_day ms)) as [[y m] d]. intros [= <-].
              cbn [isValid reason suggestion status rejected]. split; [|by eauto].
              split; [done|]. intros [?|(md' & ms' & [= <-] & Hd' & ?)]; [done|].
              congruence.
        -- intros [= <-]. cbn [isValid reason suggestion status rejected].
           split; [|by eauto]. split; [done|].
           intros [?|(md' & ms' & [= <-] & Hd' & ?)]; [done|congruence].
        -- intros [= <-]. cbn [isValid reason suggestion status rejected].
           split; [|by eauto]. split; [done|].
           intros [?|(md' & ms' & [= <-] & Hd' & ?)]; [done|congruence].
      * intros [= <-]. cbn [isValid reason suggestion status rejected].
        split; [|by eauto]. split; [done|]. by intros [?|(md' & ms' & ? & _)].
    + by destruct (extractImageMetadata_never_throws Date_parse file e).
    + unfold validateImageDate.
      rewrite (competitor_not_reference _ Hp), Hp, Hmd. done.
  - unfold validateImageDate. rewrite Hp.
    destruct (String.eqb stationId "reference"); cbn [negb];
      intros [= <-]; cbn [isValid reason suggestion trusted]; (split; [|done]);
      split; try done; intros _; by left.
Qed.

End validator_summary.

(** Witness of [validateImageDate_accepts]: the photo of 3 March on
    5 March, for a competitor. *)
Lemma validateImageDate_accepts_witness :
  (ImageMetadata.isValid
     (rejected "Esta imagem foi tirada em 03/03/2024, não no dia atual"
        "Use a câmera para tirar uma foto atual" (Some Picks.tags_of_march_3)) = true
   ↔ String.prefix "competitor_" "competitor_1" = false
     ∨ ∃ md ms,
         @ImageMetadata.extractImageMetadata reads_no_text photo_of_march_3 = Ret (Some md)
         ∧ ImageMetadata.dateTime md = Some (DateFns.Time ms)
         ∧ @DateFns.local_day march_5 ms
           = @DateFns.local_day march_5 (@DateFns.current_time march_5))
  ∧ (ImageMetadata.isValid
       (rejected "Esta imagem foi tirada em 03/03/2024, não no dia atual"
          "Use a câmera para tirar uma foto atual" (Some Picks.tags_of_march_3)) = true →
     ImageMetadata.reason
       (rejected "Esta imagem foi tirada em 03/03/2024, não no dia atual"
          "Use a câmera para tirar uma foto atual" (Some Picks.tags_of_march_3)) = None
     ∧ ImageMetadata.suggestion
         (rejected "Esta imagem foi tirada em 03/03/2024, não no dia atual"
            "Use a câmera para tirar uma foto atual" (Some Picks.tags_of_march_3)) = None)
  ∧ (ImageMetadata.isValid
       (rejected "Esta imagem foi tirada em 03/03/2024, não no dia atual"
          "Use a câmera para tirar uma foto atual" (Some Picks.tags_of_march_3)) = false →
     ImageMetadata.status
       (rejected "Esta imagem foi tirada em 03/03/2024, não no dia atual"
          "Use a câmera para tirar uma foto atual" (Some Picks.tags_of_march_3))
     = Some ImageMetadata.invalid
     ∧ is_Some (ImageMetadata.reason
                  (rejected "Esta imagem foi tirada em 03/03/2024, não no dia atual"
                     "Use a câmera para tirar uma foto atual"
                     (Some Picks.tags_of_march_3)))
     ∧ is_Some (ImageMetadata.suggestion
                  (rejected "Esta imagem foi tirada em 03/03/2024, não no dia atual"
                     "Use a câmera para tirar uma foto atual"
                     (Some Picks.tags_of_march_3)))).
Proof.
  apply (@validateImageDate_accepts march_5 reads_no_text photo_of_march_3 "competitor_1").
  reflexivity.
Defined.

(** ** From the pick to the validated state *)

Section pick_to_state.
Import ImagesDB DateFns ImageMetadata ImageCache ImageCapture FormActions Validation
  FormTerms.
Context `{Platform} `{Device} (JSON_text : jsval → string) (Date_parse : string → Date)
  (load : File → option Resize.Picture) (toBlob : File → Resize.Canvas → option Blob).

Lemma onStationChange_other_keys (period : PeriodKey) (id : string) (updater : jsval)
    (now now' : string) (w w' : World) (st' : AppState) :
  FormActions.onStationChange period id updater now now' w = Ret (st', w') →
  sessionStorage w' = sessionStorage w
  ∧ fits (localStorage w') = fits (localStorage w)
  ∧ ∀ k, k ≠ STORAGE_KEY → getItem (localStorage w') k = getItem (localStorage w) k.
Proof.
  unfold onStationChange. destruct (readAppState now w) as [st| |]; [|done..].
  cbn [mbind outcome_bind].
  destruct (saveAppState now' _ w) as [w1| |] eqn:Hsave; [|done..].
  cbn [mbind outcome_bind]. intros [= <- <-].
  destruct (saveAppState_other_keys _ _ _ _ Hsave) as [Hs Hk].
  by destruct (persisted_saved _ _ _ _ Hsave) as [_ Hf].
Qed.

Lemma onStationChange_first_tier (period : PeriodKey) (id : string) (updater : jsval)
    (now now' : string) (w w' : World) (st' : AppState) (k : string) :
  FormActions.onStationChange period id updater now now' w = Ret (st', w') →
  k ≠ STORAGE_KEY →
  first_tier w' k = first_tier w k.
Proof.
  intros Hcall Hk.
  destruct (onStationChange_other_keys _ _ _ _ _ _ _ _ Hcall) as (Hs & _ & Hl).
  unfold first_tier. by rewrite Hs, Hl.
Qed.

(** With a state to read and room to write, [onStationChange] returns. *)
Lemma onStationChange_returns (period : PeriodKey) (id : string) (updater : jsval)
    (now now' : string) (w : World) (st : AppState) :
  readAppState now w = Ret st →
  (∀ m, fits (localStorage w) m = true) →
  ∃ st' w', FormActions.onStationChange period id updater now now' w = Ret (st', w').
Proof.
  intros Hread Hfits. unfold onStationChange. rewrite Hread. cbn [mbind outcome_bind].
  match goal with
  | |- context [saveAppState ?n ?s ?w] =>
      destruct (saveAppState_fits n s w Hfits) as [w' ->]
  end.
  by eexists _, _.
Qed.

(** A pick that is not checked for its date, on a card of the form: the
    image is saved, then the two calls go through [onStationChange]. *)
Lemma card_pick (period : PeriodKey) (id : string) (value : jsval) (file : File)
    (source : Source) (now1 now1' now2 now2' : string) (w : World) (st0 : AppState)
    (exif : option ImageMetadata) (fields : gmap string jsval)
    (img : Resize.Picture) (blob : Blob) :
  source = camera ∨ String.prefix "competitor_" id = false →
  extractImageMetadata Date_parse file = Ret exif →
  exif_fields exif = Ret fields →
  load file = Some img →
  toBlob file (Resize.canvas_for img 600) = Some blob →
  is_image_type (type blob) = true →
  bytes blob ≠ [] →
  (∀ m, fits (localStorage w) m = true) →
  readAppState now1 w = Ret st0 →
  ∃ w1 sa wa sb wb,
    first_tier w1 (imageKey (period_name period) id)
    = Some (Text (base64_text (bytes blob)))
    ∧ getImageMetadata (imageKey (period_name period) id) w1
      = Ret (Some (JObj (<["validationStatus" := JStr "validated"]> fields)))
    ∧ fits (localStorage w1) = fits (localStorage w)
    ∧ readAppState now1 w1 = Ret st0
    ∧ FormActions.onStationChange period id
        (JObj (<["photoBase64" := JStr (base64_text (bytes blob))]>
                 (own_props (Some value)))) now1 now1' w1 = Ret (sa, wa)
    ∧ FormActions.onStationChange period id
        (JObj (<["metadata" := JObj (<["validationStatus" := JStr "validated"]> fields)]>
                 (own_props (Some value)))) now2 now2' wa = Ret (sb, wb)
    ∧ handlePick Date_parse load toBlob
        (card_props period id value (instants (now1, now1') (now2, now2')))
        (period_name period) id file source w
      = Ret {| world_after := wb;
               validationError := None;
               validationSuggestion := None;
               preview := Some (blobToDataURL blob);
               calls := [onBase64 (base64_text (bytes blob));
                         onMetadata
                           (JObj (<["validationStatus" := JStr "validated"]> fields))] |}.
Proof.
  intros Hsource Hexif Hfields Hload Hblob Htype Hbytes Hfits Hread.
  set (metadata := JObj (<["validationStatus" := JStr "validated"]> fields)).
  destruct (saved_with_room JSON_text (period_name period) id metadata w blob)
    as (w1 & Hsave & Hfirst & _ & Hmeta & Hfits1 & Hkey); [done..|].
  assert (readAppState now1 w1 = Ret st0) as Hread1.
  { rewrite <- Hread. unfold readAppState, persisted. by rewrite Hkey. }
  destruct (onStationChange_returns period id
              (JObj (<["photoBase64" := JStr (base64_text (bytes blob))]>
                       (own_props (Some value)))) now1 now1' w1 st0 Hread1)
    as (sa & wa & Hfirstcall).
  { intros m. by rewrite Hfits1. }
  destruct (onStationChange_other_keys _ _ _ _ _ _ _ _ Hfirstcall) as (_ & Hfa & _).
  destruct (onStationChange_saved _ _ _ _ _ now2 _ _ _ Hfirstcall) as (? & _ & _ & Hreada).
  destruct (onStationChange_returns period id
              (JObj (<["metadata" := metadata]> (own_props (Some value))))
              now2 now2' wa _ Hreada)
    as (sb & wb & Hsecondcall).
  { intros m. by rewrite Hfa, Hfits1. }
  exists w1, sa, wa, sb, wb. repeat (split; [done|]).
  rewrite (handlePick_unchecked Date_parse load toBlob _ _ _ _ _ _ exif fields)
    by done.
  fold metadata. unfold store, Resize.compressImage. rewrite Hload, Hblob.
  rewrite (stored_text blob Htype), Hsave. cbv zeta.
  unfold card_props. cbn [instants record_for fst snd]. rewrite Hfirstcall.
  cbn [fst snd]. by rewrite Hsecondcall.
Qed.

(** X19. A photo taken with the camera, or chosen from the gallery for
    a station that is no competitor, is not checked for its date. On a
    card of the form, when its metadata can be written, the file
    decodes into a non-empty image, the state can be read and the
    primary tier has room: the pick returns without an error, with the
    preview set and both props called; the image is stored under the
    key of the station with the status [validated] and can be read
    back from there with its metadata after the calls. *)
Theorem unchecked_pick_is_stored (period : PeriodKey) (stationId : string) (value : jsval)
    (file : File) (source : Source) (now1 now1' now2 now2' : string) (w : World)
    (st0 : AppState) (exif : option ImageMetadata) (fields : gmap string jsval)
    (img : Resize.Picture) (blob : Blob) :
  source = camera ∨ String.prefix "competitor_" stationId = false →
  extractImageMetadata Date_parse file = Ret exif →
  exif_fields exif = Ret fields →
  load file = Some img →
  toBlob file (Resize.canvas_for img 600) = Some blob →
  is_image_type (type blob) = true →
  bytes blob ≠ [] →
  (∀ m, fits (localStorage w) m = true) →
  readAppState now1 w = Ret st0 →
  ∃ w', handlePick Date_parse load toBlob
          (card_props period stationId value (instants (now1, now1') (now2, now2')))
          (period_name period) stationId file source w
        = Ret {| world_after := w';
                 validationError := None;
                 validationSuggestion := None;
                 preview := Some (blobToDataURL blob);
                 calls := [onBase64 (base64_text (bytes blob));
                           onMetadata
                             (JObj (<["validationStatus" := JStr "validated"]> fields))] |}
    ∧ getImageBlob JSON_text (imageKey (period_name period) stationId) w'
      = Ret (Some {| bytes := bytes blob; type := "image/jpeg" |})
    ∧ getImageMetadata (imageKey (period_name period) stationId) w'
      = Ret (Some (JObj (<["validationStatus" := JStr "validated"]> fields))).
Proof.
  intros Hsource Hexif Hfields Hload Hblob Htype Hbytes Hfits Hread.
  destruct (card_pick period stationId value file source now1 now1' now2 now2' w st0
              exif fields img blob)
    as (w1 & sa & wa & sb & wb & Hfirst & Hmeta & _ & _ & Hca & Hcb & Hpick); [done..|].
  exists wb. split; [done|].
  assert (∀ k, k ≠ STORAGE_KEY → first_tier wb k = first_tier w1 k) as Hsame.
  { intros k Hk. rewrite (onStationChange_first_tier _ _ _ _ _ _ _ _ _ Hcb Hk).
    apply (onStationChange_first_tier _ _ _ _ _ _ _ _ _ Hca Hk). }
  split.
  - apply get_first_tier; [done|]. rewrite Hsame by apply imageKey_not_state. done.
  - rewrite <- Hmeta. unfold getImageMetadata. rewrite metaKey_of_imageKey.
    by rewrite Hsame by apply imageKey_not_state.
Qed.

(** X27. A photo that [handlePick] stored reaches the state of the form
    at the validation before a send, not before. For a card that shows
    a record without a photo, on a storage with room: the pick returns
    without an error; after its two calls the record read from the
    storage has the new metadata and still no photo; the hydration of
    [validateForm] then finds the image under the key of the station
    and puts its text into the record, and that state is what the next
    read returns. *)
Theorem picked_photo_reaches_state (period : PeriodKey) (id : string) (file : File)
    (source : Source) (o : gmap string jsval) (ids : list string)
    (now1 now1' now2 now2' now now' now'' : string) (w : World) (st0 : AppState)
    (exif : option ImageMetadata) (fields : gmap string jsval)
    (img : Resize.Picture) (blob : Blob) :
  (∀ j, JSON_text j ≠ "") →
  source = camera ∨ String.prefix "competitor_" id = false →
  extractImageMetadata Date_parse file = Ret exif →
  exif_fields exif = Ret fields →
  load file = Some img →
  toBlob file (Resize.canvas_for img 600) = Some blob →
  is_image_type (type blob) = true →
  bytes blob ≠ [] →
  (∀ m, fits (localStorage w) m = true) →
  id ≠ "__proto__" →
  id ∈ ids →
  truthy (o !! "photoBase64") = false →
  readAppState now1 w = Ret st0 →
  (∀ id', id' ∈ ids → ∃ o', stations period st0 !! id' = Some (JObj o')) →
  ∃ p st2 st' w3,
    handlePick Date_parse load toBlob
      (card_props period id (JObj o) (instants (now1, now1') (now2, now2')))
      (period_name period) id file source w = Ret p
    ∧ validationError p = None
    ∧ calls p = [onBase64 (base64_text (bytes blob));
                 onMetadata (JObj (<["validationStatus" := JStr "validated"]> fields))]
    ∧ readAppState now (world_after p) = Ret st2
    ∧ stations period st2 !! id
      = Some (JObj (<["metadata" := JObj (<["validationStatus" := JStr "validated"]> fields)]>
                      o))
    ∧ hydrate JSON_text period ids now now' (world_after p) = Ret (st', w3)
    ∧ stations period st' !! id
      = Some (JObj (<["photoBase64" := JStr (base64_text (bytes blob))]>
                      (<["metadata" :=
                           JObj (<["validationStatus" := JStr "validated"]> fields)]> o)))
    ∧ readAppState now'' w3 = Ret (stamped now' st').
Proof.
  intros Htext Hsource Hexif Hfields Hload Hblob Htype Hbytes Hfits Hid Hin Hphoto
    Hread0 Hobj.
  set (metadata := JObj (<["validationStatus" := JStr "validated"]> fields)).
  (* the pick and its two calls *)
  destruct (card_pick period id (JObj o) file source now1 now1' now2 now2' w st0
              exif fields img blob)
    as (w1 & sa & wa & sb & wb & Hfirst & _ & Hfits1 & Hsame & Hfirstcall & Hsecondcall
        & Hpick); [done..|].
  fold metadata in Hsecondcall, Hpick. cbn [own_props] in Hfirstcall, Hsecondcall.
  destruct (onStationChange_other_keys _ _ _ _ _ _ _ _ Hfirstcall) as (Hsa & Hfa & Hka).
  destruct (onStationChange_other_keys _ _ _ _ _ _ _ _ Hsecondcall) as (Hsb & Hfb & Hkb).
  apply (onStationChange_saved _ _ _ _ _ now2) in Hfirstcall as (sr1 & Hread1 & -> & Hreada).
  apply (onStationChange_saved _ _ _ _ _ now) in Hsecondcall as (sr & Hreada' & -> & Hread).
  rewrite Hreada in Hreada'. injection Hreada' as <-. rewrite Hsame in Hread1.
  injection Hread1 as <-.
  set (st2 := stamped now2' _) in *.
  assert (∀ t s, stations period (stamped t s) = stations period s) as Hstamped
    by (intros t s; by destruct period).
  assert (stations period st2
          = <[id := JObj (<["metadata" := metadata]> o)]>
              (<[id := JObj (<["photoBase64" := JStr (base64_text (bytes blob))]> o)]>
                 (stations period st0))) as Hstations.
  { subst st2. rewrite Hstamped, stations_set_stations, Hstamped, stations_set_stations.
    unfold StateEdits.assign.
    destruct (String.eqb_spec id "__proto__") as [|_]; [done|]. done. }
  assert (stations period st2 !! id = Some (JObj (<["metadata" := metadata]> o))) as Hrecord
    by (by rewrite Hstations, lookup_insert_eq).
  assert (first_tier wb (imageKey (period_name period) id)
          = Some (Text (base64_text (bytes blob)))) as Hfirstb.
  { rewrite <- Hfirst. unfold first_tier. rewrite Hsb, Hsa.
    by rewrite Hkb, Hka by apply imageKey_not_state. }
  (* the hydration *)
  match type of Hpick with _ = Ret ?p => exists p end.
  cbn [world_after validationError calls]. unfold hydrate. rewrite Hread. cbn [mbind outcome_bind].
  destruct (hydrate_loop JSON_text period wb st2 ids [] (st2, false))
    as (st' & updated & -> & Hinv & Hseen & Hout & [m Hset] & Hu); cbn [fst snd]; try done.
  { intros id' Hid'. rewrite Hstations.
    destruct (decide (id' = id)) as [->|Hne]; [rewrite lookup_insert_eq; by eexists|].
    rewrite !lookup_insert_ne by done. by apply Hobj. }
  { by left. }
  { intros k Hk. by apply not_elem_of_nil in Hk. }
  { exists (stations period st2). by destruct period, st2. }
  cbn [mbind outcome_bind app] in *.
  assert (stations period st' !! id
          = Some (JObj (<["photoBase64" := JStr (base64_text (bytes blob))]>
                          (<["metadata" := metadata]> o)))) as Hhydrated.
  { rewrite (Hseen id Hin), Hrecord. cbn [fmap option_fmap option_map]. unfold hydrated.
    rewrite lookup_insert_ne by done. rewrite Hphoto, Hfirstb.
    by rewrite base64_text_truthy. }
  destruct updated.
  - destruct (saveAppState_fits now' st' wb) as [w3 Hsave].
    { intros k. by rewrite Hfb, Hfa, Hfits1. }
    rewrite Hsave. cbn [mbind outcome_bind]. exists st2, st', w3.
    split; [done|]. split; [done|]. split; [done|]. split; [done|]. split; [done|].
    split; [done|]. split; [done|].
    rewrite Hset in Hsave |- *.
    apply (changed_records_read_back period m now now' now'' wb w3 st2 Hread); [|done].
    intros k Hk. assert (stations period st' !! k = m !! k) as <-
      by by rewrite Hset, stations_set_stations.
    destruct (Hinv k) as [->| ->]; [done|]. destruct Hk as [v ->]. by eexists.
  - rewrite Hu in Hhydrated by done. rewrite Hrecord in Hhydrated.
    injection Hhydrated as Hhydrated.
    assert ((<["metadata" := metadata]> o : gmap string jsval) !! "photoBase64"
            = Some (JStr (base64_text (bytes blob)))) as Hp
      by (by rewrite Hhydrated, lookup_insert_eq).
    rewrite lookup_insert_ne in Hp by done. rewrite Hp in Hphoto.
    cbn [truthy] in Hphoto. pose proof (base64_text_truthy (bytes blob) Hbytes) as Ht.
    unfold falsy_text in Ht. by destruct (base64_text (bytes blob)).
Qed.

End pick_to_state.

(** Witness of [unchecked_pick_is_stored]: the photo of 3 March, taken
    through the camera input of the first competitor on 5 March, is
    stored as validated. *)
Lemma unchecked_pick_is_stored_witness :
  ∃ w',
    @ImageCapture.handlePick march_5 reads_no_text Picks.decodes Picks.encodes
      (@ImageCapture.card_props strict_host Manha "competitor_1" emptyStation
         (ImageCapture.instants
            ("2024-03-05T12:00:00.000Z", "2024-03-05T12:00:00.001Z")
            ("2024-03-05T12:00:00.002Z", "2024-03-05T12:00:00.003Z")))
      (period_name Manha) "competitor_1" photo_of_march_3 ImageCapture.camera (page ∅ ∅)
    = Ret {| ImageCapture.world_after := w';
             ImageCapture.validationError := None;
             ImageCapture.validationSuggestion := None;
             ImageCapture.preview := Some (ImagesDB.blobToDataURL Picks.one_byte);
             ImageCapture.calls :=
               [ImageCapture.onBase64 (base64_text (ImagesDB.bytes Picks.one_byte));
                ImageCapture.onMetadata
                  (JObj (<["validationStatus" := JStr "validated"]>
                           Picks.fields_of_march_3))] |}
    ∧ ImagesDB.getImageBlob (λ _, "null")
        (ImagesDB.imageKey (period_name Manha) "competitor_1") w'
      = Ret (Some {| ImagesDB.bytes := ImagesDB.bytes Picks.one_byte;
                     ImagesDB.type := "image/jpeg" |})
    ∧ @ImageCache.getImageMetadata strict_host
        (ImagesDB.imageKey (period_name Manha) "competitor_1") w'
      = Ret (Some (JObj (<["validationStatus" := JStr "validated"]>
                           Picks.fields_of_march_3))).
Proof.
  apply (@unchecked_pick_is_stored strict_host march_5 (λ _, "null") reads_no_text
           Picks.decodes Picks.encodes Manha "competitor_1" emptyStation photo_of_march_3
           ImageCapture.camera
           "2024-03-05T12:00:00.000Z" "2024-03-05T12:00:00.001Z"
           "2024-03-05T12:00:00.002Z" "2024-03-05T12:00:00.003Z" (page ∅ ∅)
           (default_state "2024-03-05T12:00:00.000Z") (Some Picks.tags_of_march_3)
           Picks.fields_of_march_3 {| Resize.width := 1200; Resize.height := 800 |}
           Picks.one_byte);
    [by left|reflexivity|vm_compute; reflexivity|reflexivity|reflexivity|reflexivity|done
    |reflexivity|reflexivity].
Defined.

(** Witness of [picked_photo_reaches_state]: the photo of 3 March is
    taken through the camera input of the first competitor on an empty
    page, and the form is validated. *)
Lemma picked_photo_reaches_state_witness :
  ∃ p st2 st' w3,
    @ImageCapture.handlePick march_5 reads_no_text Picks.decodes Picks.encodes
      (@ImageCapture.card_props strict_host Manha "competitor_1"
         (JObj Picks.empty_fields)
         (ImageCapture.instants
            ("2024-03-05T12:00:00.000Z", "2024-03-05T12:00:00.001Z")
            ("2024-03-05T12:00:00.002Z", "2024-03-05T12:00:00.003Z")))
      (period_name Manha) "competitor_1" photo_of_march_3 ImageCapture.camera (page ∅ ∅)
    = Ret p
    ∧ ImageCapture.validationError p = None
    ∧ ImageCapture.calls p
      = [ImageCapture.onBase64 (base64_text (ImagesDB.bytes Picks.one_byte));
         ImageCapture.onMetadata
           (JObj (<["validationStatus" := JStr "validated"]> Picks.fields_of_march_3))]
    ∧ @readAppState strict_host "2024-03-05T12:01:00.000Z" (ImageCapture.world_after p)
      = Ret st2
    ∧ stations Manha st2 !! "competitor_1"
      = Some (JObj (<["metadata" :=
                        JObj (<["validationStatus" := JStr "validated"]>
                                Picks.fields_of_march_3)]> Picks.empty_fields))
    ∧ @Validation.hydrate strict_host (λ _, "null") Manha ["reference"; "competitor_1"]
        "2024-03-05T12:01:00.000Z" "2024-03-05T12:01:00.001Z" (ImageCapture.world_after p)
      = Ret (st', w3)
    ∧ stations Manha st' !! "competitor_1"
      = Some (JObj (<["photoBase64" :=
                        JStr (base64_text (ImagesDB.bytes Picks.one_byte))]>
                      (<["metadata" :=
                           JObj (<["validationStatus" := JStr "validated"]>
                                   Picks.fields_of_march_3)]> Picks.empty_fields)))
    ∧ @readAppState strict_host "2024-03-05T12:02:00.000Z" w3
      = Ret (stamped "2024-03-05T12:01:00.001Z" st').
Proof.
  apply (@picked_photo_reaches_state strict_host march_5 (λ _, "null") reads_no_text
           Picks.decodes Picks.encodes Manha "competitor_1" photo_of_march_3
           ImageCapture.camera Picks.empty_fields ["reference"; "competitor_1"]
           "2024-03-05T12:00:00.000Z" "2024-03-05T12:00:00.001Z"
           "2024-03-05T12:00:00.002Z" "2024-03-05T12:00:00.003Z"
           "2024-03-05T12:01:00.000Z" "2024-03-05T12:01:00.001Z"
           "2024-03-05T12:02:00.000Z" (page ∅ ∅)
           (default_state "2024-03-05T12:00:00.000Z") (Some Picks.tags_of_march_3)
           Picks.fields_of_march_3 {| Resize.width := 1200; Resize.height := 800 |}
           Picks.one_byte).
  - done.
  - by left.
  - reflexivity.
  - vm_compute; reflexivity.
  - reflexivity.
  - reflexivity.
  - reflexivity.
  - done.
  - reflexivity.
  - done.
  - apply list_elem_of_further, list_elem_of_here.
  - reflexivity.
  - reflexivity.
  - intros id' [->|[->|Hid%not_elem_of_nil]%elem_of_cons]%elem_of_cons;
      [by eexists..|done].
Defined.

(** The pick of the same photo when the primary tier is full and the
    session tier has room: the image and its metadata go to the session
    tier and the preview is set, then the write of the state by the
    first call fails, the generic error is shown and [onMetadata] is
    not called. *)
Example pick_on_full_primary :
  ∃ w',
    @ImageCapture.handlePick march_5 reads_no_text Picks.decodes Picks.encodes
      (@ImageCapture.card_props strict_host Manha "competitor_1" emptyStation
         (ImageCapture.instants
            ("2024-03-05T12:00:00.000Z", "2024-03-05T12:00:00.001Z")
            ("2024-03-05T12:00:00.002Z", "2024-03-05T12:00:00.003Z")))
      (period_name Manha) "competitor_1" photo_of_march_3 ImageCapture.camera
      Picks.full_primary
    = Ret {| ImageCapture.world_after := w';
             ImageCapture.validationError := Some "Erro ao processar a imagem";
             ImageCapture.validationSuggestion := Some "Tente novamente";
             ImageCapture.preview := Some (ImagesDB.blobToDataURL Picks.one_byte);
             ImageCapture.calls :=
               [ImageCapture.onBase64 (base64_text (ImagesDB.bytes Picks.one_byte))] |}
    ∧ getItem (sessionStorage w') (ImagesDB.imageKey "manha" "competitor_1")
      = Some (Text (base64_text (ImagesDB.bytes Picks.one_byte)))
    ∧ getItem (sessionStorage w') (ImagesDB.metadataKey "manha" "competitor_1")
      = Some (Json (JObj (<["validationStatus" := JStr "validated"]>
                            Picks.fields_of_march_3)))
    ∧ persisted w' = None.
Proof.
  eexists. split; [vm_compute; reflexivity|]. repeat split; vm_compute; reflexivity.
Qed.

(** ** Removing a photo *)

Section clear_photo.
Import ImagesDB ImageCache ImageCapture FormActions.
Context `{Platform} (JSON_text : jsval → string).

(** X28. Removing the photo of a card: the image and its metadata can
    no longer be read from either tier, and the record persisted for
    the station is the one the card showed with an empty photo and
    without metadata, its other fields as they were. *)
Theorem clear_forgets_photo (period : PeriodKey) (id : string) (value : jsval)
    (now1 now1' now2 now2' now : string) (w w' : World) :
  id ≠ "__proto__" →
  deliver period id value [(now1, now1'); (now2, now2')]
    (clear (period_name period) id w).2 (clear (period_name period) id w).1 = Ret w' →
  getImageBlob JSON_text (imageKey (period_name period) id) w' = Ret None
  ∧ getImageMetadata (imageKey (period_name period) id) w' = Ret None
  ∧ ∃ st record,
      readAppState now w' = Ret st
      ∧ stations period st !! id = Some record
      ∧ get_prop record "photoBase64" = Some (JStr "")
      ∧ get_prop record "metadata" = None
      ∧ ∀ k, k ≠ "photoBase64" → k ≠ "metadata" → get_prop record k = get_prop value k.
Proof.
  intros Hid. cbn [clear fst snd deliver].
  set (w0 := removeImageBlob _ w).
  destruct (FormActions.onStationChange period id _ now1 now1' w0) as [[st1 w1]| |]
    eqn:Hfirst; [|done..].
  cbn [mbind outcome_bind].
  destruct (FormActions.onStationChange period id _ now2 now2' w1) as [[st2 w2]| |]
    eqn:Hsecond; [|done..].
  cbn [mbind outcome_bind]. intros [= <-].
  destruct (onStationChange_other_keys _ _ _ _ _ _ _ _ Hfirst) as (Hs1 & _ & Hk1).
  destruct (onStationChange_other_keys _ _ _ _ _ _ _ _ Hsecond) as (Hs2 & _ & Hk2).
  destruct (imageKey_not_state (period_name period) id) as [Himg Hmeta].
  split; [|split].
  - unfold getImageBlob, first_tier. rewrite Hs2, Hs1, Hk2, Hk1 by done.
    subst w0. unfold removeImageBlob, removeItem, getItem.
    cbn [localStorage sessionStorage items]. rewrite metaKey_of_imageKey.
    rewrite !(lookup_delete_ne _ (metadataKey (period_name period) id)
                (imageKey (period_name period) id))
      by apply metadataKey_ne_imageKey.
    by rewrite !lookup_delete_eq.
  - unfold getImageMetadata, first_tier. rewrite metaKey_of_imageKey.
    rewrite Hs2, Hs1, Hk2, Hk1 by done.
    subst w0. unfold removeImageBlob, removeItem, getItem.
    cbn [localStorage sessionStorage items]. rewrite metaKey_of_imageKey.
    by rewrite !lookup_delete_eq.
  - apply (onStationChange_saved _ _ _ _ _ now) in Hsecond as (st & _ & -> & Hread).
    eexists _, _. split; [exact Hread|].
    assert (∀ s, stations period (stamped now2' s) = stations period s) as ->
      by (intros s; by destruct period).
    rewrite stations_set_stations. unfold StateEdits.assign.
    destruct (String.eqb_spec id "__proto__") as [|_]; [done|]. cbn [andb].
    rewrite lookup_insert_eq. split; [done|].
    unfold get_prop. cbn [own_props record_for]. repeat split.
    + by rewrite lookup_delete_ne, lookup_insert_eq.
    + by rewrite lookup_delete_eq.
    + intros k Hphoto Hmetadata. by rewrite lookup_delete_ne, lookup_insert_ne.
Qed.

End clear_photo.

(** Witness of [clear_forgets_photo]: the photo of a filled station is
    removed on a page that holds its image. *)
Lemma clear_forgets_photo_witness :
  ∃ w',
    @ImageCapture.deliver strict_host Manha "reference" filled_station
      [("2024-03-05T12:00:00.000Z", "2024-03-05T12:00:00.001Z");
       ("2024-03-05T12:00:00.002Z", "2024-03-05T12:00:00.003Z")]
      (ImageCapture.clear (period_name Manha) "reference"
         (page {[ "img:manha:reference" := Text "/w==" ]} ∅)).2
      (ImageCapture.clear (period_name Manha) "reference"
         (page {[ "img:manha:reference" := Text "/w==" ]} ∅)).1 = Ret w'
    ∧ ImagesDB.getImageBlob (λ _, "null")
        (ImagesDB.imageKey (period_name Manha) "reference") w' = Ret None
    ∧ @ImageCache.getImageMetadata strict_host
        (ImagesDB.imageKey (period_name Manha) "reference") w' = Ret None
    ∧ ∃ st record,
        @readAppState strict_host "2024-03-05T12:01:00.000Z" w' = Ret st
        ∧ stations Manha st !! "reference" = Some record
        ∧ get_prop record "photoBase64" = Some (JStr "")
        ∧ get_prop record "metadata" = None
        ∧ ∀ k, k ≠ "photoBase64" → k ≠ "metadata" →
            get_prop record k = get_prop filled_station k.
Proof.
  eexists. split; [reflexivity|].
  eapply (@clear_forgets_photo strict_host (λ _, "null") Manha "reference" filled_station
            "2024-03-05T12:00:00.000Z" "2024-03-05T12:00:00.001Z"
            "2024-03-05T12:00:00.002Z" "2024-03-05T12:00:00.003Z"
            "2024-03-05T12:01:00.000Z"
            (page {[ "img:manha:reference" := Text "/w==" ]} ∅) _).
  - done.
  - reflexivity.
Defined.

(** ** The persisted state of a component *)

Section persisted_state.
Import PersistedState.
Context `{Platform}.

(** X29. [usePersistedState]: what the effect persisted on a storage
    with room is the state the hook starts with on the next mount and
    the one a sync sets, and the event of the key is dispatched; when
    the storage takes no write nothing changes. The hook starts with
    the initial value when the key is missing or empty, and when what
    is stored is not JSON; a sync then sets nothing. *)
Theorem persisted_state_round_trip (key : string) (initial : jsval) (w : World) :
  (∀ state,
     fits (localStorage w) (<[key := Json state]> (items (localStorage w))) = true →
     initial_state key initial (persist key state w) = Ret state
     ∧ onSync key (persist key state w) = Some state
     ∧ events (persist key state w) = events w ++ ["persisted-state:" +:+ key])
  ∧ (∀ state,
       fits (localStorage w) (<[key := Json state]> (items (localStorage w))) = false →
       persist key state w = w)
  ∧ (falsy_text (getItem (localStorage w) key) = true →
     initial_state key initial w = Ret initial ∧ onSync key w = None)
  ∧ (∀ s, getItem (localStorage w) key = Some (Text s) →
       JSON_parse_text s = None →
       initial_state key initial w = Ret initial ∧ onSync key w = None).
Proof.
  split; [|split; [|split]].
  - intros state Hfits. unfold persist, setItem. rewrite Hfits.
    unfold initial_state, onSync, getItem.
    cbn [localStorage dispatchEvent with_local items events].
    by rewrite lookup_insert_eq.
  - intros state Hfits. unfold persist, setItem. by rewrite Hfits.
  - intros Hfalsy. unfold initial_state, onSync. by rewrite Hfalsy.
  - intros s Hraw Hparse. unfold initial_state, onSync. rewrite Hraw.
    destruct (falsy_text (Some (Text s))); [done|].
    unfold JSON_parse, default. cbn [from_option id]. by rewrite Hparse.
Qed.

End persisted_state.
